(** * GLWindow (nviz_mapdisp.py): layer registry, property push and
      scene command of the wxGUI 3D view

    A shallow embedding of the bookkeeping done by [GLWindow] in
    [gui/wxpython/gui_modules/nviz_mapdisp.py]: which display-engine
    calls are issued, in which order, and how the per-layer property
    dictionaries and the list of loaded layers change.

    The display engine ([self._display]), the log, the tool window and
    the event queue are observed through a trace of events; the value an
    engine call returns is given by an oracle over the trace so far, so
    every statement holds for every engine. *)

From Stdlib Require Import ZArith QArith Qround String Ascii List Bool Lia DecimalString.
From stdpp Require Import base option list gmap strings functions.

Local Open Scope Z_scope.

(** ** Python string primitives used by the module *)

Module Py.

(** [str(n)] and ["%d" % n] for an integer [n]. *)
Definition str_of_Z (n : Z) : string := NilZero.string_of_int (Z.to_int n).

Definition mem_ascii (c : ascii) (cs : list ascii) : bool :=
  existsb (Ascii.eqb c) cs.

Fixpoint lstrip_list (cs l : list ascii) : list ascii :=
  match l with
  | [] => []
  | c :: l' => if mem_ascii c cs then lstrip_list cs l' else l
  end.

Fixpoint rstrip_list (cs l : list ascii) : list ascii :=
  match l with
  | [] => []
  | c :: l' =>
      match rstrip_list cs l' with
      | [] => if mem_ascii c cs then [] else [c]
      | r => c :: r
      end
  end.

(** [s.strip(chars)]: drop the leading and trailing characters that occur
    in [chars]. *)
Definition strip (chars s : string) : string :=
  let cs := list_ascii_of_string chars in
  string_of_list_ascii
    (rstrip_list cs (lstrip_list cs (list_ascii_of_string s))).

(** [s.split(sep)] for a one-character separator. *)
Fixpoint split_list (sep : ascii) (l : list ascii) : list (list ascii) :=
  match l with
  | [] => [[]]
  | c :: l' =>
      if Ascii.eqb c sep then [] :: split_list sep l'
      else match split_list sep l' with
           | [] => [[c]]
           | p :: ps => (c :: p) :: ps
           end
  end.

Definition split (sep : ascii) (s : string) : list string :=
  map string_of_list_ascii (split_list sep (list_ascii_of_string s)).

(** [sub in s] on strings. *)
Fixpoint contains (sub s : string) : bool :=
  String.prefix sub s ||
  match s with
  | EmptyString => false
  | String _ s' => contains sub s'
  end.

(** [l[i]] with Python's negative indices. *)
Definition index {A} (l : list A) (i : Z) : option A :=
  if 0 <=? i then l !! Z.to_nat i
  else if 0 <=? Z.of_nat (length l) + i then l !! Z.to_nat (Z.of_nat (length l) + i)
  else None.

(** [l.remove(x)]: delete the first occurrence, [None] standing for the
    [ValueError] raised when there is none. *)
Fixpoint remove_first `{EqDecision A} (x : A) (l : list A) : option (list A) :=
  match l with
  | [] => None
  | y :: l' => if decide (x = y) then Some l' else cons y <$> remove_first x l'
  end.

End Py.

(** ** Property dictionaries

    The nested dictionaries kept per layer are given as records: a key the
    code probes with [in] (['object'], ['update'], ['surface'], an
    attribute name) is an [option], a [bool] or a map entry; a dictionary
    the code tests for emptiness with [not] is a [pydict]. *)

Inductive pydict (A : Type) : Type :=
| EmptyDict
| Dict (a : A).
Arguments EmptyDict {A}.
Arguments Dict {A} a.

(** Attribute values are strings (map names, colours) or numbers. *)
Inductive value : Type :=
| VStr (s : string)
| VInt (n : Z).

Definition str (v : value) : string :=
  match v with
  | VStr s => s
  | VInt n => Py.str_of_Z n
  end.

(** [type(value) == type('') and len(value) <= 0] *)
Definition is_empty_str (v : value) : bool :=
  match v with
  | VStr s => (Z.of_nat (String.length s) <=? 0)
  | VInt _ => false
  end.

(** ['object' : { 'id' : id, 'init' : False }]; [SetMapObjProperties] may
    add an ['update'] key to it when it marks a vector for update. *)
Record object_rec : Type := mk_object
  { o_id : Z; o_init : bool; o_update : bool }.

(** ['object'] of a constant surface, which also has a ['name']. *)
Record const_object : Type := mk_const_object
  { co_id : Z; co_name : option Z; co_init : bool }.

(** [{ 'map' : None | True | False, 'value' : v }] with an optional
    ['update'] key. *)
Record attr : Type := mk_attr
  { a_map : option bool; a_value : value; a_update : bool }.

Record resolution : Type := mk_resolution
  { r_update : bool; r_coarse : Z; r_fine : Z }.

Record mode_desc : Type := mk_mode_desc
  { md_mode : string; md_style : string; md_shading : string }.

Record draw_mode : Type := mk_draw_mode
  { m_update : bool; m_value : Z; m_desc : mode_desc }.

Record wire_color : Type := mk_wire_color
  { w_update : bool; w_value : string }.

(** [data['surface']['draw']] *)
Record draw : Type := mk_draw
  { d_all : bool;
    d_resolution : resolution;
    d_mode : draw_mode;
    d_wire_color : wire_color }.

(** [==] on draw dictionaries compares them key by key. *)
Global Instance resolution_eq_dec : EqDecision resolution.
Proof. solve_decision. Defined.
Global Instance mode_desc_eq_dec : EqDecision mode_desc.
Proof. solve_decision. Defined.
Global Instance draw_mode_eq_dec : EqDecision draw_mode.
Proof. solve_decision. Defined.
Global Instance wire_color_eq_dec : EqDecision wire_color.
Proof. solve_decision. Defined.
Global Instance draw_eq_dec : EqDecision draw.
Proof. solve_decision. Defined.

Record position : Type := mk_position
  { p_update : bool; p_x : Z; p_y : Z; p_z : Z }.

(** [data['surface']] *)
Record surface_data : Type := mk_surface
  { s_attribute : gmap string attr;
    s_draw : draw;
    s_position : position;
    s_object : option object_rec }.

(** [{ 'value' : v }] with an optional ['update'] key. *)
Record prop (A : Type) : Type := mk_prop
  { pv : A; pu : bool }.
Arguments mk_prop {A} pv pu.
Arguments pv {A} p.
Arguments pu {A} p.

(** [data['mode']['surface']]: reference surfaces and their visibility. *)
Record surf_ref : Type := mk_surf_ref
  { sr_value : list string; sr_show : list bool }.

Record vmode : Type := mk_vmode
  { vm_type : string; vm_update : bool; vm_surface : option surf_ref }.

(** [data['vector']['lines']] *)
Record vlines_data : Type := mk_vlines
  { vl_color : prop string;
    vl_width : prop Z;
    vl_mode : vmode;
    vl_height : prop Z;
    vl_object : option object_rec }.

(** [data['vector']['points']] *)
Record vpoints_data : Type := mk_vpoints
  { vp_size : prop Z;
    vp_width : prop Z;
    vp_marker : prop Z;
    vp_color : prop string;
    vp_mode : vmode;
    vp_height : prop Z;
    vp_object : option object_rec }.

(** [data['vector']] *)
Record vector_data : Type := mk_vector
  { v_lines : pydict vlines_data; v_points : pydict vpoints_data }.

(** [data['volume']] *)
Record volume_data : Type := mk_volume
  { vo_resolution : prop Z;
    vo_shading : prop Z;
    vo_isosurface : list (gmap string attr);
    vo_object : option object_rec }.

(** [data['constant']] *)
Record constant_data : Type := mk_constant
  { c_value : Z; c_color : string; c_resolution : Z;
    c_object : option const_object }.

(** The per-layer dictionary ([...['nviz']], or an element of
    [self.constants]). *)
Record nviz_data : Type := mk_nviz
  { nv_surface : option (pydict surface_data);
    nv_constant : option constant_data;
    nv_volume : option volume_data;
    nv_vector : option vector_data }.

Definition empty_nviz : nviz_data := mk_nviz None None None None.

(** [not data] for [data] a dictionary or [None]. *)
Definition not_data (d : option nviz_data) : bool :=
  match d with
  | None => true
  | Some (mk_nviz None None None None) => true
  | Some _ => false
  end.

(** ** The window state *)

Definition item : Type := nat.

Record MapLayer : Type := mk_maplayer
  { ml_name : string; ml_type : string }.

(** [self.tree.GetPyData(item)[0]] *)
Record ItemData : Type := mk_itemdata
  { it_type : string;
    it_maplayer : MapLayer;
    it_nviz : option nviz_data;
    it_cmd : list string }.

Record cplane : Type := mk_cplane
  { cp_tilt : Z; cp_rot : Z;
    cp_x : Z; cp_y : Z; cp_z : Z;
    cp_shading : string }.

(** [self.view] and [self.iview]; floating-point numbers are given as
    rationals. *)
Record view_rec : Type := mk_view
  { view_x : Q; view_y : Q;
    persp_value : Z; persp_step : Z;
    twist_value : Z;
    zexag_value : Q;
    bg_color : Z * Z * Z }.

Record iview_rec : Type := mk_iview
  { height_value : Q;
    focus_x : Q; focus_y : Q; focus_z : Q }.

Record light_rec : Type := mk_light
  { light_x : Q; light_y : Q; light_z : Z;
    light_bright : Z; light_ambient : Z;
    light_color : Z * Z * Z }.

(** What [Nviz_cmd_command] reads from the tool window and the canvas. *)
Record toolwin_rec : Type := mk_toolwin
  { fringe_checked : string -> bool;
    fringe_color : Z * Z * Z;
    fringe_elev : Z;
    client_size : Z * Z }.

Record World : Type := mk_world
  { tree : item -> ItemData;
    selected : option item;        (* self.GetSelectedLayer(type = 'item') *)
    has_nviz : bool;               (* hasattr(self.lmgr, "nviz") *)
    layers : list item;
    constants : list nviz_data;
    cplanes : list cplane;
    view : view_rec;
    iview : iview_rec;
    light : light_rec;
    toolwin : toolwin_rec;
    init : bool;
    mouse_use : string }.

(** ** Events observed outside the window *)

(** What [GetLayerId] returns: an object id, or (when a constant is not
    found) the list [self.constants] itself. *)
Inductive pyid : Type :=
| IdInt (n : Z)
| IdConstants (cs : list nviz_data).

(** [sid > -1].  Python 2 orders a list above every number. *)
Definition gt_minus_one (sid : pyid) : bool :=
  match sid with
  | IdInt n => -1 <? n
  | IdConstants _ => true
  end.

(** Methods of [self._display]. *)
Module Display.

Inductive engine_call : Type :=
| SetView (x y height : Q) (persp twist : Z)
| LookHere (x y : Z)
| GetFocus
| LoadSurface (name : string)
| LoadVolume (name : string)
| LoadVector (name : string) (points : bool)
| UnloadSurface (id : Z)
| UnloadVolume (id : Z)
| UnloadVector (id : Z) (points : bool)
| SetCPlaneRotation (x y z : Z)
| SetCPlaneTranslation (x y z : Z)
| SetFenceColor (shading : string)
| SetSurfaceColor (id : Z) (map : bool) (v : value)
| SetSurfaceTopo (id : Z) (map : bool) (v : value)
| SetSurfaceMask (id : Z) (invert : bool) (v : value)
| SetSurfaceTransp (id : Z) (map : bool) (v : value)
| SetSurfaceShine (id : Z) (map : bool) (v : value)
| UnsetSurfaceMask (id : Z)
| UnsetSurfaceTransp (id : Z)
| SetSurfaceRes (id : Z) (fine coarse : Z)
| SetSurfaceStyle (id : Z) (style : Z)
| SetWireColor (id : Z) (color : string)
| SetSurfacePosition (id : Z) (x y z : Z)
| SetIsosurfaceRes (id : Z) (res : Z)
| SetIsosurfaceColor (id isosurfId : Z) (map : bool) (v : value)
| SetIsosurfaceMask (id isosurfId : Z) (invert : bool) (v : value)
| SetIsosurfaceTransp (id isosurfId : Z) (map : bool) (v : value)
| SetIsosurfaceShine (id isosurfId : Z) (map : bool) (v : value)
| SetIsosurfaceEmit (id isosurfId : Z) (map : bool) (v : value)
| UnsetIsosurfaceMask (id isosurfId : Z)
| UnsetIsosurfaceTransp (id isosurfId : Z)
| UnsetIsosurfaceEmit (id isosurfId : Z)
| SetVectorLineMode (id : Z) (color : string) (width : Z) (flat : bool)
| SetVectorLineHeight (id : Z) (height : Z)
| SetVectorLineSurface (id : Z) (sid : pyid)
| UnsetVectorLineSurface (id : Z) (sid : pyid)
| SetVectorPointMode (id : Z) (color : string) (width size marker : Z)
| SetVectorPointHeight (id : Z) (height : Z)
| SetVectorPointSurface (id : Z) (sid : pyid)
| UnsetVectorPointSurface (id : Z) (sid : pyid).

End Display.

Abbreviation engine_call := Display.engine_call.

(** Lines written to [self.log]; the text is kept as its parts. *)
Inductive message : Type :=
| MsgFailed (errorMsg name : string)            (* "%s <%s> failed" *)
| MsgUnsupported (type : string)                (* "Unsupported layer type '%s'" *)
| MsgUnable (errorMsg name : string)            (* "%s <%s>" *)
| MsgUnloaded (successMsg name : string)        (* "%s <%s> unloaded successfully" *)
| MsgVectorLoadFailed (name vecType : string)
| MsgVectorUnable (name vecType : string)
| MsgVectorUnloaded (name vecType : string).

(** Whose dictionary an [UpdateProperties] event carries: the dictionary
    is shared with the layer tree (or with [self.constants]), so the event
    holds a reference. *)
Inductive data_ref : Type :=
| TreeItem (i : item)
| ConstIndex (n : nat).

Inductive gui_action : Type :=
| UpdateSettings                      (* self.lmgr.nviz.UpdateSettings() *)
| SetItems (names : list string)      (* surface choice: win.SetItems(...) *)
| UpdatePage (page : string)          (* toolWin.UpdatePage(...) *)
| Refresh                             (* self.Refresh(False) *)
| ToggleHere (v : bool)               (* FindWindowByName('here').SetValue(v) *)
| SetCursorDefault                    (* self.SetCursor(self.cursors['default']) *)
| EventSkip.                          (* event.Skip() *)

Inductive Event : Type :=
| Call (c : engine_call)
| WriteError (m : message)
| WriteLog (m : message)
| Gui (g : gui_action)
| PostUpdateProperties (r : data_ref)   (* wx.PostEvent(self, wxUpdateProperties(data)) *)
| DoPaint.                              (* self.DoPaint() *)

(** ** Collaborators

    Code of the application that is outside this module: the translation
    function [_], the display engine, the default properties of
    [workspace.Nviz], the vector metadata of the tool window and the
    formatting of floating-point numbers. *)

Class Collaborators : Type :=
  { gettext : string -> string;
    (* the number an engine call returns, given the events before it *)
    display_ret : list Event -> engine_call -> Z;
    (* self._display.GetFocus() *)
    display_focus : list Event -> Q * Q * Q;
    (* self.nvizDefault.GetDrawMode(mode, style, shade, string = True) *)
    GetDrawMode : string -> string -> string -> Z;
    (* self.nvizDefault.GetDrawMode(shade = ..., string = False) *)
    GetDrawModeShade : prop Z -> Z;
    SetSurfaceDefaultProp : surface_data;
    SetVolumeDefaultProp : volume_data;
    SetVectorDefaultProp : vlines_data * vpoints_data;
    SetVectorLinesDefaultProp : vlines_data;
    SetVectorPointsDefaultProp : vpoints_data;
    SetConstantDefaultProp : constant_data;
    (* npoints, nlines of self.lmgr.nviz.VectorInfo(layer) *)
    VectorInfo : MapLayer -> Z * Z;
    (* "%.2f" % x *)
    fmt_2f : Q -> string }.

(** ** State and exceptions

    A computation reads and writes a state [S], appends to the trace and
    either returns or raises; what it did before raising persists. *)

Inductive gmessage : Type :=
| PointLayerNotFound (id : Z)      (* "Vector point layer not found (id = %d)" *)
| PointUnableToSet (id : Z).       (* "Unable to set data layer properties (id = %d)" *)

Inductive exn : Type :=
| KeyError (key : string)
| IndexError
| ValueError
| TypeError
| AttributeError
| NameError
| GException (m : gmessage).

Inductive outcome (A : Type) : Type :=
| Ok (a : A)
| Raise (e : exn).
Arguments Ok {A} a.
Arguments Raise {A} e.

Definition M (S A : Type) : Type :=
  S -> list Event -> outcome A * S * list Event.

Global Instance M_ret {S} : MRet (M S) :=
  fun A (a : A) s t => (Ok a, s, t).

Global Instance M_bind {S} : MBind (M S) :=
  fun A B (f : A -> M S B) (m : M S A) s t =>
    match m s t with
    | (Ok a, s', t') => f a s' t'
    | (Raise e, s', t') => (Raise e, s', t')
    end.

Definition raise {S A} (e : exn) : M S A := fun s t => (Raise e, s, t).
Definition get {S} : M S S := fun s t => (Ok s, s, t).
Definition gets {S A} (f : S -> A) : M S A := fun s t => (Ok (f s), s, t).
Definition put {S} (s : S) : M S unit := fun _ t => (Ok tt, s, t).
Definition modify {S} (f : S -> S) : M S unit := fun s t => (Ok tt, f s, t).
Definition emit {S} (e : Event) : M S unit := fun s t => (Ok tt, s, t ++ [e]).
Definition skip {S} : M S unit := mret tt.

(** An engine call: recorded, and answered by the oracle. *)
Definition call `{Collaborators} {S} (c : engine_call) : M S Z :=
  fun s t => (Ok (display_ret t c), s, t ++ [Call c]).

(** A lookup that raises when the key is missing. *)
Definition require {S A} (e : exn) (o : option A) : M S A :=
  match o with
  | Some a => mret a
  | None => raise e
  end.

(** Run a computation on a part of the state. *)
Definition zoom {S T A} (proj : S -> T) (upd : T -> S -> S) (m : M T A) : M S A :=
  fun s t =>
    match m (proj s) t with
    | (r, x, t') => (r, upd x s, t')
    end.

(** [for x in l: body] *)
Fixpoint for_each {S A} (l : list A) (body : A -> M S unit) : M S unit :=
  match l with
  | [] => mret tt
  | x :: l' => body x ;; for_each l' body
  end.

(** [try: m  except gcmd.GException, e: handler] *)
Definition try_GException {S A} (m : M S A) (handler : gmessage -> M S A) : M S A :=
  fun s t =>
    match m s t with
    | (Raise (GException g), s', t') => handler g s' t'
    | r => r
    end.

(** A read-only method, run inside a computation. *)
Definition read {S A} (f : S -> outcome A) : M S A :=
  fun s t => (f s, s, t).

Definition lift_outcome {S A} (o : outcome A) : M S A :=
  fun s t => (o, s, t).

(** Run a computation on a part of the state that may be missing. *)
Definition zoom_opt {S T A} (proj : S -> option T) (upd : T -> S -> S)
    (e : exn) (m : M T A) : M S A :=
  fun s t =>
    match proj s with
    | Some x => match m x t with (r, x', t') => (r, upd x' s, t') end
    | None => (Raise e, s, t)
    end.

(** ** Field updates *)

Definition set_persp (v : Z) (w : World) : World :=
  let vw := view w in
  mk_world (tree w) (selected w) (has_nviz w) (layers w) (constants w) (cplanes w)
    (mk_view (view_x vw) (view_y vw) v (persp_step vw) (twist_value vw)
       (zexag_value vw) (bg_color vw))
    (iview w) (light w) (toolwin w) (init w) (mouse_use w).

Definition set_focus (f : Q * Q * Q) (w : World) : World :=
  mk_world (tree w) (selected w) (has_nviz w) (layers w) (constants w) (cplanes w)
    (view w)
    (mk_iview (height_value (iview w)) (f.1.1) (f.1.2) (f.2))
    (light w) (toolwin w) (init w) (mouse_use w).

Definition set_mouse_use (u : string) (w : World) : World :=
  mk_world (tree w) (selected w) (has_nviz w) (layers w) (constants w) (cplanes w)
    (view w) (iview w) (light w) (toolwin w) (init w) u.

Definition set_init (b : bool) (w : World) : World :=
  mk_world (tree w) (selected w) (has_nviz w) (layers w) (constants w) (cplanes w)
    (view w) (iview w) (light w) (toolwin w) b (mouse_use w).

Definition set_layers (l : list item) (w : World) : World :=
  mk_world (tree w) (selected w) (has_nviz w) l (constants w) (cplanes w)
    (view w) (iview w) (light w) (toolwin w) (init w) (mouse_use w).

Definition set_constants (l : list nviz_data) (w : World) : World :=
  mk_world (tree w) (selected w) (has_nviz w) (layers w) l (cplanes w)
    (view w) (iview w) (light w) (toolwin w) (init w) (mouse_use w).

Definition set_tree (f : item -> ItemData) (w : World) : World :=
  mk_world f (selected w) (has_nviz w) (layers w) (constants w) (cplanes w)
    (view w) (iview w) (light w) (toolwin w) (init w) (mouse_use w).

Definition set_it_nviz (d : option nviz_data) (x : ItemData) : ItemData :=
  mk_itemdata (it_type x) (it_maplayer x) d (it_cmd x).

(** [self.tree.GetPyData(item)[0]['nviz'] = d] *)
Definition set_nviz (i : item) (d : option nviz_data) (w : World) : World :=
  set_tree (<[i := set_it_nviz d (tree w i)]> (tree w)) w.

Definition set_nv_surface (x : option (pydict surface_data)) (d : nviz_data) : nviz_data :=
  mk_nviz x (nv_constant d) (nv_volume d) (nv_vector d).
Definition set_nv_constant (x : option constant_data) (d : nviz_data) : nviz_data :=
  mk_nviz (nv_surface d) x (nv_volume d) (nv_vector d).
Definition set_nv_volume (x : option volume_data) (d : nviz_data) : nviz_data :=
  mk_nviz (nv_surface d) (nv_constant d) x (nv_vector d).
Definition set_nv_vector (x : option vector_data) (d : nviz_data) : nviz_data :=
  mk_nviz (nv_surface d) (nv_constant d) (nv_volume d) x.

Definition set_s_attribute (x : gmap string attr) (s : surface_data) : surface_data :=
  mk_surface x (s_draw s) (s_position s) (s_object s).
Definition set_s_draw (x : draw) (s : surface_data) : surface_data :=
  mk_surface (s_attribute s) x (s_position s) (s_object s).
Definition set_s_position (x : position) (s : surface_data) : surface_data :=
  mk_surface (s_attribute s) (s_draw s) x (s_object s).
Definition set_s_object (x : option object_rec) (s : surface_data) : surface_data :=
  mk_surface (s_attribute s) (s_draw s) (s_position s) x.

Definition set_d_all (b : bool) (d : draw) : draw :=
  mk_draw b (d_resolution d) (d_mode d) (d_wire_color d).
Definition set_d_resolution (x : resolution) (d : draw) : draw :=
  mk_draw (d_all d) x (d_mode d) (d_wire_color d).
Definition set_d_mode (x : draw_mode) (d : draw) : draw :=
  mk_draw (d_all d) (d_resolution d) x (d_wire_color d).
Definition set_d_wire_color (x : wire_color) (d : draw) : draw :=
  mk_draw (d_all d) (d_resolution d) (d_mode d) x.

Definition set_a_update (b : bool) (a : attr) : attr :=
  mk_attr (a_map a) (a_value a) b.
Definition set_r_update (b : bool) (r : resolution) : resolution :=
  mk_resolution b (r_coarse r) (r_fine r).
Definition set_m_update (b : bool) (m : draw_mode) : draw_mode :=
  mk_draw_mode b (m_value m) (m_desc m).
Definition set_m_value (v : Z) (m : draw_mode) : draw_mode :=
  mk_draw_mode (m_update m) v (m_desc m).
Definition set_w_update (b : bool) (x : wire_color) : wire_color :=
  mk_wire_color b (w_value x).
Definition set_p_update (b : bool) (p : position) : position :=
  mk_position b (p_x p) (p_y p) (p_z p).
Definition set_o_init (b : bool) (o : object_rec) : object_rec :=
  mk_object (o_id o) b (o_update o).
Definition set_o_update (b : bool) (o : object_rec) : object_rec :=
  mk_object (o_id o) (o_init o) b.
Definition set_co_init (b : bool) (o : const_object) : const_object :=
  mk_const_object (co_id o) (co_name o) b.
Definition set_pu {A} (b : bool) (p : prop A) : prop A := mk_prop (pv p) b.
Definition set_pv {A} (v : A) (p : prop A) : prop A := mk_prop v (pu p).

Definition set_vm_update (b : bool) (m : vmode) : vmode :=
  mk_vmode (vm_type m) b (vm_surface m).
Definition set_vm_surface (x : option surf_ref) (m : vmode) : vmode :=
  mk_vmode (vm_type m) (vm_update m) x.

Definition set_vl_color (x : prop string) (d : vlines_data) : vlines_data :=
  mk_vlines x (vl_width d) (vl_mode d) (vl_height d) (vl_object d).
Definition set_vl_width (x : prop Z) (d : vlines_data) : vlines_data :=
  mk_vlines (vl_color d) x (vl_mode d) (vl_height d) (vl_object d).
Definition set_vl_mode (x : vmode) (d : vlines_data) : vlines_data :=
  mk_vlines (vl_color d) (vl_width d) x (vl_height d) (vl_object d).
Definition set_vl_height (x : prop Z) (d : vlines_data) : vlines_data :=
  mk_vlines (vl_color d) (vl_width d) (vl_mode d) x (vl_object d).
Definition set_vl_object (x : option object_rec) (d : vlines_data) : vlines_data :=
  mk_vlines (vl_color d) (vl_width d) (vl_mode d) (vl_height d) x.

Definition set_vp_size (x : prop Z) (d : vpoints_data) : vpoints_data :=
  mk_vpoints x (vp_width d) (vp_marker d) (vp_color d) (vp_mode d) (vp_height d) (vp_object d).
Definition set_vp_width (x : prop Z) (d : vpoints_data) : vpoints_data :=
  mk_vpoints (vp_size d) x (vp_marker d) (vp_color d) (vp_mode d) (vp_height d) (vp_object d).
Definition set_vp_marker (x : prop Z) (d : vpoints_data) : vpoints_data :=
  mk_vpoints (vp_size d) (vp_width d) x (vp_color d) (vp_mode d) (vp_height d) (vp_object d).
Definition set_vp_color (x : prop string) (d : vpoints_data) : vpoints_data :=
  mk_vpoints (vp_size d) (vp_width d) (vp_marker d) x (vp_mode d) (vp_height d) (vp_object d).
Definition set_vp_mode (x : vmode) (d : vpoints_data) : vpoints_data :=
  mk_vpoints (vp_size d) (vp_width d) (vp_marker d) (vp_color d) x (vp_height d) (vp_object d).
Definition set_vp_height (x : prop Z) (d : vpoints_data) : vpoints_data :=
  mk_vpoints (vp_size d) (vp_width d) (vp_marker d) (vp_color d) (vp_mode d) x (vp_object d).
Definition set_vp_object (x : option object_rec) (d : vpoints_data) : vpoints_data :=
  mk_vpoints (vp_size d) (vp_width d) (vp_marker d) (vp_color d) (vp_mode d) (vp_height d) x.

Definition set_v_lines (x : pydict vlines_data) (v : vector_data) : vector_data :=
  mk_vector x (v_points v).
Definition set_v_points (x : pydict vpoints_data) (v : vector_data) : vector_data :=
  mk_vector (v_lines v) x.

Definition set_vo_resolution (x : prop Z) (v : volume_data) : volume_data :=
  mk_volume x (vo_shading v) (vo_isosurface v) (vo_object v).
Definition set_vo_shading (x : prop Z) (v : volume_data) : volume_data :=
  mk_volume (vo_resolution v) x (vo_isosurface v) (vo_object v).
Definition set_vo_isosurface (x : list (gmap string attr)) (v : volume_data) : volume_data :=
  mk_volume (vo_resolution v) (vo_shading v) x (vo_object v).
Definition set_vo_object (x : option object_rec) (v : volume_data) : volume_data :=
  mk_volume (vo_resolution v) (vo_shading v) (vo_isosurface v) x.

Definition set_c_object (x : option const_object) (c : constant_data) : constant_data :=
  mk_constant (c_value c) (c_color c) (c_resolution c) x.

(** ** GLWindow *)

(** A wx mouse event is of one kind: a wheel event carries a rotation and
    is not a button press; any other event has rotation 0. *)
Inductive MouseEvent : Type :=
| Wheel (rotation : Z)
| LeftDown (x y : Z)
| OtherMouse.

Definition GetWheelRotation (e : MouseEvent) : Z :=
  match e with
  | Wheel r => r
  | _ => 0
  end.

Definition IsLeftDown (e : MouseEvent) : bool :=
  match e with
  | LeftDown _ _ => true
  | _ => false
  end.

Definition GetPosition (e : MouseEvent) : Z * Z :=
  match e with
  | LeftDown x y => (x, y)
  | _ => (0, 0)
  end.

(** [wxUpdateCPlane(current = ..., update = [...])] *)
Record CPlaneEvent : Type := mk_cplane_event
  { ev_current : Z; ev_update : list string }.

Section GLWindow.
Context `{Collaborators}.

(** [OnMouseAction]: change perspective with the mouse wheel; look here on
    a left click.  [self.DoPaint()] is recorded as an event. *)
Definition OnMouseAction (event : MouseEvent) : M World unit :=
  let wheel := GetWheelRotation event in
  (if negb (wheel =? 0) then
     w ← get;
     let prev_value := persp_value (view w) in
     let value := if 0 <? wheel then -1 * persp_step (view w)
                  else persp_step (view w) in
     modify (set_persp (prev_value + value)) ;;
     w ← get;
     (if persp_value (view w) <? 1 then modify (set_persp 1)
      else if 100 <? persp_value (view w) then modify (set_persp 100)
      else skip) ;;
     w ← get;
     if negb (prev_value =? persp_value (view w)) then
       (if has_nviz w then
          emit (Gui UpdateSettings) ;;
          call (Display.SetView (view_x (view w)) (view_y (view w))
                  (height_value (iview w))
                  (persp_value (view w)) (twist_value (view w))) ;;
          skip
        else skip) ;;
       emit DoPaint
     else skip
   else skip) ;;
  (if IsLeftDown event then
     w ← get;
     if String.eqb (mouse_use w) "lookHere" then
       let pos := GetPosition event in
       let size := client_size (toolwin w) in
       call (Display.LookHere pos.1 (size.2 - pos.2)) ;;
       emit (Gui Refresh) ;;
       t ← (fun s t => (Ok t, s, t ++ [Call Display.GetFocus]));
       modify (set_focus (display_focus t)) ;;
       (if has_nviz w then emit (Gui (ToggleHere false))
        else raise AttributeError) ;;
       modify (set_mouse_use "default") ;;
       emit (Gui SetCursorDefault)
     else skip
   else skip) ;;
  emit (Gui EventSkip).

(** [GetLayerNames(type)] *)
Fixpoint constant_names (cs : list nviz_data) : outcome (list string) :=
  match cs with
  | [] => Ok []
  | c :: cs' =>
      match nv_constant c with
      | None => Raise (KeyError "constant")
      | Some cd =>
          match c_object cd with
          | None => Raise (KeyError "object")
          | Some o =>
              match co_name o with
              | None => Raise (KeyError "name")
              | Some name =>
                  match constant_names cs' with
                  | Ok ns => Ok ((gettext "constant#" +:+ Py.str_of_Z name) :: ns)
                  | Raise e => Raise e
                  end
              end
          end
      end
  end.

Definition GetLayerNames (type : string) (w : World) : outcome (list string) :=
  if String.eqb type "constant" then constant_names (constants w)
  else
    Ok (omap (fun i =>
               let mapLayer := it_maplayer (tree w i) in
               if negb (String.eqb type (ml_type mapLayer)) then None
               else Some (ml_name mapLayer))
          (layers w)).

(** [GetLayerId(type, name, vsubtyp)]: "Get layer object id or -1". *)
Fixpoint constant_id (all cs : list nviz_data) (name : string) : outcome pyid :=
  match cs with
  | [] => Ok (IdConstants all)                  (* return self.constants *)
  | c :: cs' =>
      match nv_constant c with
      | None => Raise (KeyError "constant")
      | Some cd =>
          match c_object cd with
          | None => Raise (KeyError "object")
          | Some o =>
              match co_name o with
              | None => Raise (KeyError "name")
              | Some n =>
                  if String.eqb (gettext "constant#" +:+ Py.str_of_Z n) name
                  then Ok (IdInt (co_id o))
                  else constant_id all cs' name
              end
          end
      end
  end.

Definition object_id (o : option object_rec) : outcome pyid :=
  match o with
  | Some o => Ok (IdInt (o_id o))
  | None => Raise (KeyError "object")
  end.

Fixpoint layer_id (w : World) (ls : list item) (type name : string)
    (vsubtyp : option string) : outcome pyid :=
  match ls with
  | [] => Ok (IdInt (-1))
  | i :: ls' =>
      let mapLayer := it_maplayer (tree w i) in
      if negb (String.eqb type (ml_type mapLayer))
         || negb (String.eqb name (ml_name mapLayer))
      then layer_id w ls' type name vsubtyp
      else
        let data := it_nviz (tree w i) in
        if String.eqb type "raster" then
          match data with
          | None => Raise TypeError
          | Some data =>
              match nv_surface data with
              | Some (Dict s) => object_id (s_object s)
              | Some EmptyDict => Raise (KeyError "object")
              | None => Raise (KeyError "surface")
              end
          end
        else if String.eqb type "vector" then
          match vsubtyp with
          | Some "vpoint"%string =>
              match data with
              | None => Raise TypeError
              | Some data =>
                  match nv_vector data with
                  | Some v =>
                      match v_points v with
                      | Dict p => object_id (vp_object p)
                      | EmptyDict => Raise (KeyError "object")
                      end
                  | None => Raise (KeyError "vector")
                  end
              end
          | Some "vline"%string =>
              match data with
              | None => Raise TypeError
              | Some data =>
                  match nv_vector data with
                  | Some v =>
                      match v_lines v with
                      | Dict l => object_id (vl_object l)
                      | EmptyDict => Raise (KeyError "object")
                      end
                  | None => Raise (KeyError "vector")
                  end
              end
          | _ => layer_id w ls' type name vsubtyp
          end
        else if String.eqb type "3d-raster" then
          match data with
          | None => Raise TypeError
          | Some data =>
              match nv_volume data with
              | Some v => object_id (vo_object v)
              | None => Raise (KeyError "volume")
              end
          end
        else layer_id w ls' type name vsubtyp
  end.

Definition GetLayerId (type name : string) (vsubtyp : option string)
    (w : World) : outcome pyid :=
  if Z.of_nat (String.length name) <? 1 then Ok (IdInt (-1))
  else if String.eqb type "constant" then constant_id (constants w) (constants w) name
  else layer_id w (layers w) type name vsubtyp.

(** [UpdateCPlane(event)]: change cutting plane settings. *)
Definition UpdateCPlane (event : CPlaneEvent) : M World unit :=
  let current := ev_current event in
  for_each (ev_update event) (fun each =>
    (if String.eqb each "rotation" then
       w ← get;
       p ← require IndexError (Py.index (cplanes w) current);
       call (Display.SetCPlaneRotation 0 (cp_tilt p) (cp_rot p)) ;; skip
     else skip) ;;
    (if String.eqb each "position" then
       w ← get;
       p ← require IndexError (Py.index (cplanes w) current);
       call (Display.SetCPlaneTranslation (cp_x p) (cp_y p) (cp_z p)) ;; skip
     else skip) ;;
    (if String.eqb each "shading" then
       w ← get;
       p ← require IndexError (Py.index (cplanes w) current);
       call (Display.SetFenceColor (cp_shading p)) ;; skip
     else skip)).


(** [UpdateConstantProperties(id, data)] *)
Definition UpdateConstantProperties (id : Z) : M constant_data unit :=
  data ← get;
  call (Display.SetSurfaceColor id false (VStr (c_color data))) ;;
  call (Display.SetSurfaceTopo id false (VInt (c_value data))) ;;
  call (Display.SetSurfaceRes id (c_resolution data) (c_resolution data)) ;;
  skip.

(** [data['attribute'][attrb].pop('update')] *)
Definition pop_attr_update (attrb : string) (s : surface_data) : surface_data :=
  set_s_attribute (alter (set_a_update false) attrb (s_attribute s)) s.

(** [UpdateSurfaceProperties(id, data)] *)
Definition UpdateSurfaceProperties (id : Z) : M surface_data unit :=
  (* surface attributes *)
  for_each ["color"; "mask"; "transp"; "shine"]%string (fun attrb =>
    data ← get;
    match s_attribute data !! attrb with
    | None => skip                                    (* continue *)
    | Some a =>
        if negb (a_update a) then skip                (* continue *)
        else
          let value := a_value a in
          match a_map a with
          | None =>                                   (* unset *)
              (if String.eqb attrb "mask" then call (Display.UnsetSurfaceMask id) ;; skip
               else if String.eqb attrb "transp" then call (Display.UnsetSurfaceTransp id) ;; skip
               else skip) ;;
              modify (pop_attr_update attrb)
          | Some map =>
              if is_empty_str value then skip         (* continue *)
              else
                (if String.eqb attrb "color" then
                   call (Display.SetSurfaceColor id map (VStr (str value))) ;; skip
                 else if String.eqb attrb "mask" then
                   call (Display.SetSurfaceMask id false (VStr (str value))) ;; skip
                 else if String.eqb attrb "transp" then
                   call (Display.SetSurfaceTransp id map (VStr (str value))) ;; skip
                 else if String.eqb attrb "shine" then
                   call (Display.SetSurfaceShine id map (VStr (str value))) ;; skip
                 else skip) ;;
                modify (pop_attr_update attrb)
          end
    end) ;;
  (* draw res *)
  data ← get;
  (if r_update (d_resolution (s_draw data)) then
     let coarse := r_coarse (d_resolution (s_draw data)) in
     let fine := r_fine (d_resolution (s_draw data)) in
     (if d_all (s_draw data) then call (Display.SetSurfaceRes (-1) fine coarse)
      else call (Display.SetSurfaceRes id fine coarse)) ;;
     modify (fun s => set_s_draw
               (set_d_resolution (set_r_update false (d_resolution (s_draw s))) (s_draw s)) s)
   else skip) ;;
  (* draw style *)
  data ← get;
  (if m_update (d_mode (s_draw data)) then
     (if m_value (d_mode (s_draw data)) <? 0 then      (* need to calculate *)
        let desc := m_desc (d_mode (s_draw data)) in
        modify (fun s => set_s_draw
                  (set_d_mode
                     (set_m_value (GetDrawMode (md_mode desc) (md_style desc) (md_shading desc))
                        (d_mode (s_draw s)))
                     (s_draw s)) s)
      else skip) ;;
     data ← get;
     let style := m_value (d_mode (s_draw data)) in
     (if d_all (s_draw data) then call (Display.SetSurfaceStyle (-1) style)
      else call (Display.SetSurfaceStyle id style)) ;;
     modify (fun s => set_s_draw
               (set_d_mode (set_m_update false (d_mode (s_draw s))) (s_draw s)) s)
   else skip) ;;
  (* wire color *)
  data ← get;
  (if w_update (d_wire_color (s_draw data)) then
     let color := w_value (d_wire_color (s_draw data)) in
     (if d_all (s_draw data) then call (Display.SetWireColor (-1) color)
      else call (Display.SetWireColor id color)) ;;
     modify (fun s => set_s_draw
               (set_d_wire_color (set_w_update false (d_wire_color (s_draw s))) (s_draw s)) s)
   else skip) ;;
  (* position *)
  data ← get;
  (if p_update (s_position data) then
     call (Display.SetSurfacePosition id (p_x (s_position data)) (p_y (s_position data))
             (p_z (s_position data))) ;;
     modify (fun s => set_s_position (set_p_update false (s_position s)) s)
   else skip) ;;
  modify (fun s => set_s_draw (set_d_all false (s_draw s)) s).

(** [isosurf[attrb].pop('update')] on the isosurface at position [n]. *)
Definition pop_iso_update (n : nat) (attrb : string) (v : volume_data) : volume_data :=
  set_vo_isosurface
    (alter (alter (set_a_update false) attrb) n (vo_isosurface v)) v.

(** [UpdateVolumeProperties(id, data)] *)
Definition UpdateVolumeProperties (id : Z) : M volume_data unit :=
  data ← get;
  (if pu (vo_resolution data) then
     call (Display.SetIsosurfaceRes id (pv (vo_resolution data))) ;;
     modify (fun v => set_vo_resolution (set_pu false (vo_resolution v)) v)
   else skip) ;;
  data ← get;
  (if pu (vo_shading data) then
     (if pv (vo_shading data) <? 0 then                (* need to calculate *)
        modify (fun v => set_vo_shading
                  (set_pv (GetDrawModeShade (vo_shading v)) (vo_shading v)) v)
      else skip) ;;
     modify (fun v => set_vo_shading (set_pu false (vo_shading v)) v)
   else skip) ;;
  (* isosurface attributes *)
  data ← get;
  for_each (seq 0 (length (vo_isosurface data))) (fun n =>
    let isosurfId := Z.of_nat n in
    for_each ["color"; "mask"; "transp"; "shine"; "emit"]%string (fun attrb =>
      data ← get;
      match vo_isosurface data !! n ≫= (fun isosurf : gmap string attr => isosurf !! attrb) with
      | None => skip                                  (* continue *)
      | Some a =>
          if negb (a_update a) then skip              (* continue *)
          else
            let value := a_value a in
            match a_map a with
            | None =>                                 (* unset *)
                (if String.eqb attrb "mask" then
                   call (Display.UnsetIsosurfaceMask id isosurfId) ;; skip
                 else if String.eqb attrb "transp" then
                   call (Display.UnsetIsosurfaceTransp id isosurfId) ;; skip
                 else if String.eqb attrb "emit" then
                   call (Display.UnsetIsosurfaceEmit id isosurfId) ;; skip
                 else skip) ;;
                modify (pop_iso_update n attrb)
            | Some map =>
                if is_empty_str value then skip       (* continue *)
                else
                  (if String.eqb attrb "color" then
                     call (Display.SetIsosurfaceColor id isosurfId map (VStr (str value))) ;; skip
                   else if String.eqb attrb "mask" then
                     call (Display.SetIsosurfaceMask id isosurfId false (VStr (str value))) ;; skip
                   else if String.eqb attrb "transp" then
                     call (Display.SetIsosurfaceTransp id isosurfId map (VStr (str value))) ;; skip
                   else if String.eqb attrb "shine" then
                     call (Display.SetIsosurfaceShine id isosurfId map (VStr (str value))) ;; skip
                   else if String.eqb attrb "emit" then
                     call (Display.SetIsosurfaceEmit id isosurfId map (VStr (str value))) ;; skip
                   else skip) ;;
                  modify (pop_iso_update n attrb)
            end
      end)).

(** The reference surfaces of a vector: for every configured name, look it
    up among the rasters, then among the constants, and attach or detach
    the first one found ([for type in ('raster', 'constant'): ... break]). *)
Definition update_surface_refs (w : World) (sr : surf_ref)
    (attach detach : pyid -> engine_call) {S} : M S unit :=
  for_each (seq 0 (length (sr_value sr))) (fun n =>
    name ← require IndexError (sr_value sr !! n);
    sid ← lift_outcome (GetLayerId "raster" name None w);
    if gt_minus_one sid then
      show ← require IndexError (sr_show sr !! n);
      (if show : bool then call (attach sid) else call (detach sid)) ;; skip
    else
      sid ← lift_outcome (GetLayerId "constant" name None w);
      if gt_minus_one sid then
        show ← require IndexError (sr_show sr !! n);
        (if show : bool then call (attach sid) else call (detach sid)) ;; skip
      else skip).

(** [UpdateVectorLinesProperties(id, data)]; [w] is the window, read by
    [GetLayerId]. *)
Definition UpdateVectorLinesProperties (w : World) (id : Z) : M vlines_data unit :=
  (* mode *)
  data ← get;
  (if pu (vl_color data) || pu (vl_width data) || vm_update (vl_mode data) then
     let width := pv (vl_width data) in
     let color := pv (vl_color data) in
     flat ← (if String.eqb (vm_type (vl_mode data)) "flat" then
               modify (fun d => set_vl_mode (set_vm_surface None (vl_mode d)) d) ;;
               mret true
             else mret false);
     call (Display.SetVectorLineMode id color width flat) ;;
     modify (fun d => set_vl_color (set_pu false (vl_color d)) d) ;;
     modify (fun d => set_vl_width (set_pu false (vl_width d)) d)
   else skip) ;;
  (* height *)
  data ← get;
  (if pu (vl_height data) then
     call (Display.SetVectorLineHeight id (pv (vl_height data))) ;;
     modify (fun d => set_vl_height (set_pu false (vl_height d)) d)
   else skip) ;;
  (* surface *)
  data ← get;
  (match vm_surface (vl_mode data) with
   | Some sr =>
       if vm_update (vl_mode data) then
         update_surface_refs w sr (Display.SetVectorLineSurface id) (Display.UnsetVectorLineSurface id)
       else skip
   | None => skip
   end) ;;
  modify (fun d => set_vl_mode (set_vm_update false (vl_mode d)) d).

(** [UpdateVectorPointsProperties(id, data)] *)
Definition UpdateVectorPointsProperties (w : World) (id : Z) : M vpoints_data unit :=
  data ← get;
  (if pu (vp_size data) || pu (vp_width data) || pu (vp_marker data) || pu (vp_color data) then
     ret ← call (Display.SetVectorPointMode id (pv (vp_color data)) (pv (vp_width data))
                   (pv (vp_size data)) (pv (vp_marker data) + 1));
     (if ret =? -1 then raise (GException (PointLayerNotFound id))
      else if ret =? -2 then raise (GException (PointUnableToSet id))
      else skip) ;;
     modify (fun d => set_vp_size (set_pu false (vp_size d)) d) ;;
     modify (fun d => set_vp_width (set_pu false (vp_width d)) d) ;;
     modify (fun d => set_vp_marker (set_pu false (vp_marker d)) d) ;;
     modify (fun d => set_vp_color (set_pu false (vp_color d)) d)
   else skip) ;;
  (* height *)
  data ← get;
  (if pu (vp_height data) then
     call (Display.SetVectorPointHeight id (pv (vp_height data))) ;;
     modify (fun d => set_vp_height (set_pu false (vp_height d)) d)
   else skip) ;;
  (* surface *)
  data ← get;
  (if vm_update (vp_mode data) then
     sr ← require (KeyError "surface") (vm_surface (vp_mode data));
     update_surface_refs w sr (Display.SetVectorPointSurface id) (Display.UnsetVectorPointSurface id) ;;
     modify (fun d => set_vp_mode (set_vm_update false (vp_mode d)) d)
   else skip).

Definition pydict_get {A} (d : pydict A) : option A :=
  match d with
  | Dict a => Some a
  | EmptyDict => None
  end.

(** [UpdateVectorProperties(id, data, type)] *)
Definition UpdateVectorProperties (w : World) (id : Z) (type : string) : M vector_data unit :=
  if String.eqb type "points" then
    zoom_opt (fun v => pydict_get (v_points v)) (fun p => set_v_points (Dict p))
      (KeyError "size") (UpdateVectorPointsProperties w id)
  else
    zoom_opt (fun v => pydict_get (v_lines v)) (fun l => set_v_lines (Dict l))
      (KeyError "color") (UpdateVectorLinesProperties w id).

(** [UpdateMapObjProperties(event)]: generic method to update data layer
    properties; the state is the dictionary [event.data]. *)
Definition UpdateMapObjProperties (w : World) : M nviz_data unit :=
  data ← get;
  if bool_decide (is_Some (nv_surface data)) then
    zoom_opt (fun d => nv_surface d ≫= pydict_get) (fun s => set_nv_surface (Some (Dict s)))
      (KeyError "object")
      (s ← get;
       o ← require (KeyError "object") (s_object s);
       UpdateSurfaceProperties (o_id o) ;;
       (* -> initialized *)
       modify (fun s => set_s_object (set_o_init true <$> s_object s) s))
  else if bool_decide (is_Some (nv_constant data)) then
    zoom_opt nv_constant (fun c => set_nv_constant (Some c)) (KeyError "constant")
      (c ← get;
       o ← require (KeyError "object") (c_object c);
       UpdateConstantProperties (co_id o) ;;
       modify (fun c => set_c_object (set_co_init true <$> c_object c) c))
  else if bool_decide (is_Some (nv_volume data)) then
    zoom_opt nv_volume (fun v => set_nv_volume (Some v)) (KeyError "volume")
      (v ← get;
       o ← require (KeyError "object") (vo_object v);
       UpdateVolumeProperties (o_id o) ;;
       modify (fun v => set_vo_object (set_o_init true <$> vo_object v) v))
  else if bool_decide (is_Some (nv_vector data)) then
    zoom_opt nv_vector (fun v => set_nv_vector (Some v)) (KeyError "vector")
      (for_each ["lines"; "points"]%string (fun type =>
         v ← get;
         let obj := if String.eqb type "lines"
                    then pydict_get (v_lines v) ≫= vl_object
                    else pydict_get (v_points v) ≫= vp_object in
         match obj with
         | Some o =>
             UpdateVectorProperties w (o_id o) type ;;
             (* -> initialized *)
             modify (fun v =>
               if String.eqb type "lines"
               then match v_lines v with
                    | Dict l => set_v_lines (Dict (set_vl_object (set_o_init true <$> vl_object l) l)) v
                    | EmptyDict => v
                    end
               else match v_points v with
                    | Dict p => set_v_points (Dict (set_vp_object (set_o_init true <$> vp_object p) p)) v
                    | EmptyDict => v
                    end)
         | None => skip
         end))
  else skip.

(** [SetVectorSurface(data)]: set reference surfaces of vector. *)
Definition vector_surface (w : World) : outcome surf_ref :=
  match GetLayerNames "raster" w with
  | Ok names => Ok (mk_surf_ref names (map (fun _ => true) names))
  | Raise e => Raise e
  end.

(** [SetVectorFromCmd(item, data)]: take the colour from [d.vect]. *)
Definition cmd_color (opts : list string) : option string :=
  foldl (fun acc opt =>
           match Py.split "=" opt with
           | [key; value] => if String.eqb key "color" then Some value else acc
           | _ => acc                                   (* ValueError: continue *)
           end) None opts.

Definition SetVectorFromCmd (i : item) (w : World)
    (data : vlines_data * vpoints_data) : outcome (vlines_data * vpoints_data) :=
  match it_cmd (tree w i) with
  | [] => Raise IndexError
  | c :: opts =>
      if negb (String.eqb c "d.vect") then Ok data
      else
        match cmd_color opts with
        | Some value =>
            Ok (set_vl_color (set_pv value (vl_color data.1)) data.1,
                set_vp_color (set_pv value (vp_color data.2)) data.2)
        | None => Ok data
        end
  end.

(** The loop "set updates" of [SetMapObjProperties] over one section. *)
Definition mark_draw (d : draw) : draw :=
  mk_draw (d_all d) (set_r_update true (d_resolution d))
    (set_m_update true (d_mode d)) (set_w_update true (d_wire_color d)).

Definition mark_surface (s : surface_data) : surface_data :=
  mk_surface (set_a_update true <$> s_attribute s) (mark_draw (s_draw s))
    (set_p_update true (s_position s)) (s_object s).

Definition mark_vlines (l : vlines_data) : vlines_data :=
  mk_vlines (set_pu true (vl_color l)) (set_pu true (vl_width l))
    (set_vm_update true (vl_mode l)) (set_pu true (vl_height l))
    (set_o_update true <$> vl_object l).

Definition mark_vpoints (p : vpoints_data) : vpoints_data :=
  mk_vpoints (set_pu true (vp_size p)) (set_pu true (vp_width p))
    (set_pu true (vp_marker p)) (set_pu true (vp_color p))
    (set_vm_update true (vp_mode p)) (set_pu true (vp_height p))
    (set_o_update true <$> vp_object p).

Definition pydict_map {A} (f : A -> A) (d : pydict A) : pydict A :=
  match d with
  | Dict a => Dict (f a)
  | EmptyDict => EmptyDict
  end.

(** The loop assigns [...['update'] = None] two levels below every
    section.  It raises on an entry that is not a dictionary: the numbers
    of an ['object'] record of a surface, the fields of a constant, the
    isosurface list of a volume.  Python leaves the order of the keys
    open; here the loop raises before it marks anything. *)
Definition set_updates (data : nviz_data) : outcome nviz_data :=
  match nv_surface data with
  | Some (Dict (mk_surface _ _ _ (Some _))) => Raise TypeError
  | _ =>
      match nv_constant data, nv_volume data with
      | Some _, _ => Raise AttributeError
      | _, Some _ => Raise AttributeError
      | None, None =>
          Ok (mk_nviz (pydict_map mark_surface <$> nv_surface data) None None
                ((fun v => mk_vector (pydict_map mark_vlines (v_lines v))
                             (pydict_map mark_vpoints (v_points v)))
                   <$> nv_vector data))
      end
  end.

(** Where the dictionary of an item lives. *)
Definition ref_data (r : data_ref) (w : World) : outcome (option nviz_data) :=
  match r with
  | TreeItem i => Ok (it_nviz (tree w i))
  | ConstIndex n =>
      match constants w !! n with
      | Some d => Ok (Some d)
      | None => Raise IndexError
      end
  end.

Definition set_ref_data (r : data_ref) (d : nviz_data) (w : World) : World :=
  match r with
  | TreeItem i => set_nviz i (Some d) w
  | ConstIndex n => set_constants (<[n := d]> (constants w)) w
  end.

Definition new_object (id : Z) : object_rec := mk_object id false false.

(** Change the dictionary of an item in place. *)
Definition update_ref (r : data_ref) (f : nviz_data -> outcome nviz_data) : M World unit :=
  data ← read (ref_data r);
  data ← require TypeError data;
  data ← lift_outcome (f data);
  modify (set_ref_data r data).

(** [data[nvizType]['object'] = { 'id' : id, 'init' : False }] for a
    raster or a 3d raster. *)
Definition set_raster_object (nvizType : string) (id : Z) (data : nviz_data) : outcome nviz_data :=
  if String.eqb nvizType "surface" then
    match nv_surface data with
    | Some (Dict s) => Ok (set_nv_surface (Some (Dict (set_s_object (Some (new_object id)) s))) data)
    | Some EmptyDict => Raise TypeError
    | None => Raise (KeyError "surface")
    end
  else if String.eqb nvizType "volume" then
    match nv_volume data with
    | Some v => Ok (set_nv_volume (Some (set_vo_object (Some (new_object id)) v)) data)
    | None => Raise (KeyError "volume")
    end
  else Raise (KeyError nvizType).

(** [data['vector'][nvizType]['object'] = { 'id' : id, 'init' : False }] *)
Definition set_vector_object (nvizType : string) (id : Z) (data : nviz_data) : outcome nviz_data :=
  match nv_vector data with
  | None => Raise (KeyError "vector")
  | Some v =>
      if String.eqb nvizType "lines" then
        match v_lines v with
        | Dict l =>
            Ok (set_nv_vector
                  (Some (set_v_lines (Dict (set_vl_object (Some (new_object id)) l)) v)) data)
        | EmptyDict => Raise TypeError
        end
      else if String.eqb nvizType "points" then
        match v_points v with
        | Dict p =>
            Ok (set_nv_vector
                  (Some (set_v_points (Dict (set_vp_object (Some (new_object id)) p)) v)) data)
        | EmptyDict => Raise TypeError
        end
      else Raise (KeyError nvizType)
  end.

Definition set_constant_object (id : Z) (data : nviz_data) : outcome nviz_data :=
  match nv_constant data with
  | Some c =>
      Ok (set_nv_constant (Some (set_c_object (Some (mk_const_object id None false)) c)) data)
  | None => Raise (KeyError "constant")
  end.

(** "complete data (use default values)" *)
Definition complete_data (type : string) (data : nviz_data) : outcome nviz_data :=
  match (if String.eqb type "raster" then
           match nv_surface data with
           | None => Raise (KeyError "surface")
           | Some EmptyDict => Ok (set_nv_surface (Some (Dict SetSurfaceDefaultProp)) data)
           | Some (Dict _) => Ok data
           end
         else Ok data) with
  | Raise e => Raise e
  | Ok data =>
      if String.eqb type "vector" then
        match nv_vector data with
        | None => Raise (KeyError "vector")
        | Some v =>
            let v := match v_lines v with
                     | EmptyDict => set_v_lines (Dict SetVectorLinesDefaultProp) v
                     | Dict _ => v
                     end in
            let v := match v_points v with
                     | EmptyDict => set_v_points (Dict SetVectorPointsDefaultProp) v
                     | Dict _ => v
                     end in
            Ok (set_nv_vector (Some v) data)
        end
      else Ok data
  end.

(** [SetMapObjProperties(item, id, nvizType)]: set map object properties.
    [item] is a layer item, or an index into [self.constants] when
    [nvizType] is ['constant'].  The callers pass ['surface'] for a raster,
    ['volume'] for a 3d raster and ['lines'] or ['points'] for a vector;
    another key cannot be stored in [nviz_data] and raises [TypeError]. *)
Definition SetMapObjProperties (r : data_ref) (id : Z) (nvizType : string) : M World unit :=
  w ← get;
  let type := match r with
              | TreeItem i => ml_type (it_maplayer (tree w i))
              | ConstIndex _ => nvizType
              end in
  data ← read (ref_data r);
  (if not_data data then
     (* init data structure *)
     (match r with
      | TreeItem i => modify (set_nviz i (Some empty_nviz))
      | ConstIndex _ => skip
      end) ;;
     if String.eqb type "raster" then
       (* reset to default properties *)
       if String.eqb nvizType "surface"
       then update_ref r (fun d => Ok (set_nv_surface (Some (Dict SetSurfaceDefaultProp)) d))
       else raise TypeError
     else if String.eqb type "vector" then
       (* reset to default properties (lines/points) *)
       match r with
       | TreeItem i =>
           update_ref r (fun d =>
             Ok (set_nv_vector (Some (mk_vector (Dict SetVectorDefaultProp.1)
                                        (Dict SetVectorDefaultProp.2))) d)) ;;
           w ← get;
           update_ref r (fun d =>
             match SetVectorFromCmd i w SetVectorDefaultProp with
             | Ok v => Ok (set_nv_vector (Some (mk_vector (Dict v.1) (Dict v.2))) d)
             | Raise e => Raise e
             end) ;;
           w ← get;
           update_ref r (fun d =>
             match nv_vector d, vector_surface w with
             | Some (mk_vector lines (Dict p)), Ok sr =>
                 Ok (set_nv_vector
                       (Some (mk_vector lines
                                (Dict (set_vp_mode (set_vm_surface (Some sr) (vp_mode p)) p)))) d)
             | _, Raise e => Raise e
             | _, _ => Raise (KeyError "mode")
             end) ;;
           w ← get;
           update_ref r (fun d =>
             match nv_vector d, vector_surface w with
             | Some (mk_vector (Dict l) points), Ok sr =>
                 Ok (set_nv_vector
                       (Some (mk_vector
                                (Dict (set_vl_mode (set_vm_surface (Some sr) (vl_mode l)) l))
                                points)) d)
             | _, Raise e => Raise e
             | _, _ => Raise (KeyError "mode")
             end)
       | ConstIndex _ => raise TypeError
       end
     else if String.eqb type "3d-raster" then
       (* reset to default properties *)
       if String.eqb nvizType "volume"
       then update_ref r (fun d => Ok (set_nv_volume (Some SetVolumeDefaultProp) d))
       else raise TypeError
     else if String.eqb type "constant" then
       update_ref r (fun d => Ok (set_nv_constant (Some SetConstantDefaultProp) d))
     else skip
   else
     update_ref r (complete_data type) ;;
     (* set updates *)
     update_ref r set_updates ;;
     emit (PostUpdateProperties r)) ;;
  (* set id *)
  if 0 <? id then
    if String.eqb type "raster" || String.eqb type "3d-raster" then
      update_ref r (set_raster_object nvizType id)
    else if String.eqb type "vector" then
      update_ref r (set_vector_object nvizType id)
    else if String.eqb type "constant" then
      update_ref r (set_constant_object id)
    else skip
  else skip.

(** [_loadRaster(item)]: load 2d/3d raster map and set its attributes.
    Returns the id given by the engine, [None] for another layer type. *)
Definition _loadRaster (i : item) : M World (option Z) :=
  w ← get;
  let layer := it_maplayer (tree w i) in
  if negb (String.eqb (ml_type layer) "raster" || String.eqb (ml_type layer) "3d-raster")
  then mret None
  else
    '(id, nvizType, errorMsg) ←
      (if String.eqb (ml_type layer) "raster" then
         id ← call (Display.LoadSurface (ml_name layer));
         mret (id, "surface"%string, gettext "Loading raster map")
       else
         id ← call (Display.LoadVolume (ml_name layer));
         mret (id, "volume"%string, gettext "Loading 3d raster map"));
    (if id <? 0 then emit (WriteError (MsgFailed errorMsg (ml_name layer)))
     else skip) ;;
    modify (fun w => set_layers (layers w ++ [i]) w) ;;
    (* set default/workspace layer properties *)
    SetMapObjProperties (TreeItem i) id nvizType ;;
    (* update properties *)
    emit (PostUpdateProperties (TreeItem i)) ;;
    (* update tools window *)
    w ← get;
    (if has_nviz w && bool_decide (selected w = Some i) then
       if String.eqb (ml_type layer) "raster" then
         names ← read (GetLayerNames (ml_type layer));
         emit (Gui (SetItems names))
       else skip
     else skip) ;;
    mret (Some id).

Definition LoadRaster (i : item) : M World (option Z) := _loadRaster i.
Definition LoadRaster3d (i : item) : M World (option Z) := _loadRaster i.

(** [_unloadRaster(item)]: unload 2d/3d raster map. *)
Definition _unloadRaster (i : item) : M World unit :=
  w ← get;
  let layer := it_maplayer (tree w i) in
  if negb (String.eqb (ml_type layer) "raster" || String.eqb (ml_type layer) "3d-raster")
  then skip
  else
    let is_raster := String.eqb (ml_type layer) "raster" in
    let errorMsg := if is_raster then gettext "Unable to unload raster map"
                    else gettext "Unable to unload 3d raster map" in
    let successMsg := if is_raster then gettext "Raster map"
                      else gettext "3d raster map" in
    data ← require TypeError (it_nviz (tree w i));
    o ← (if is_raster then
           s ← require (KeyError "surface") (nv_surface data);
           s ← require (KeyError "object") (pydict_get s);
           require (KeyError "object") (s_object s)
         else
           v ← require (KeyError "volume") (nv_volume data);
           require (KeyError "object") (vo_object v));
    let id := o_id o in
    ret ← (if is_raster then call (Display.UnloadSurface id) else call (Display.UnloadVolume id));
    (if ret =? 0 then emit (WriteError (MsgUnable errorMsg (ml_name layer)))
     else emit (WriteLog (MsgUnloaded successMsg (ml_name layer)))) ;;
    (* data[nvizType].pop('object') *)
    update_ref (TreeItem i) (fun d =>
      if is_raster then
        Ok (set_nv_surface (pydict_map (set_s_object None) <$> nv_surface d) d)
      else
        Ok (set_nv_volume (set_vo_object None <$> nv_volume d) d)) ;;
    w ← get;
    ls ← require ValueError (Py.remove_first i (layers w));
    modify (set_layers ls) ;;
    (* update tools window *)
    w ← get;
    (if has_nviz w && is_raster then
       names ← read (GetLayerNames (ml_type layer));
       emit (Gui (SetItems names))
     else skip).

Definition UnloadRaster (i : item) : M World unit := _unloadRaster i.
Definition UnloadRaster3d (i : item) : M World unit := _unloadRaster i.

(** The tuple [vecTypes] chosen from [points]. *)
Definition vecTypes_of (points : option bool) (both : list string) : list string :=
  match points with
  | None => both
  | Some true => ["points"]%string
  | Some false => ["lines"]%string
  end.

(** [LoadVector(item, points)]: load 2D or 3D vector map overlay. *)
Definition LoadVector (i : item) (points : option bool) : M World (option Z) :=
  w ← get;
  let layer := it_maplayer (tree w i) in
  if negb (String.eqb (ml_type layer) "vector") then mret None
  else
    (* set default properties *)
    (match points with
     | None =>
         SetMapObjProperties (TreeItem i) (-1) "lines" ;;
         SetMapObjProperties (TreeItem i) (-1) "points"
     | Some true => SetMapObjProperties (TreeItem i) (-1) "points"
     | Some false => SetMapObjProperties (TreeItem i) (-1) "lines"
     end) ;;
    let vecTypes := vecTypes_of points ["points"; "lines"]%string in
    id ← foldl (fun (acc : M World Z) vecType =>
                  acc ;;
                  id ← (if String.eqb vecType "lines"
                        then call (Display.LoadVector (ml_name layer) false)
                        else call (Display.LoadVector (ml_name layer) true));
                  (if id <? 0
                   then emit (WriteError (MsgVectorLoadFailed (ml_name layer) vecType))
                   else skip) ;;
                  (* update layer properties *)
                  SetMapObjProperties (TreeItem i) id vecType ;;
                  mret id)
               (mret (-1)) vecTypes;
    modify (fun w => set_layers (layers w ++ [i]) w) ;;
    (* update properties *)
    emit (PostUpdateProperties (TreeItem i)) ;;
    (* update tools window *)
    w ← get;
    (if has_nviz w && bool_decide (selected w = Some i)
     then emit (Gui (UpdatePage "vector"))
     else skip) ;;
    mret (Some id).

(** The body of the loop of [UnloadVector]: unload the sub-object
    [vecType] if it has an ['object'] record. *)
Definition unload_vecType (i : item) (layer : MapLayer) (vecType : string) : M World unit :=
  w ← get;
  data ← require TypeError (it_nviz (tree w i));
  v ← require (KeyError "vector") (nv_vector data);
  let obj := if String.eqb vecType "lines"
             then pydict_get (v_lines v) ≫= vl_object
             else pydict_get (v_points v) ≫= vp_object in
  match obj with
  | None => skip                                     (* continue *)
  | Some o =>
      let id := o_id o in
      ret ← (if String.eqb vecType "lines"
             then call (Display.UnloadVector id false)
             else call (Display.UnloadVector id true));
      (if ret =? 0
       then emit (WriteError (MsgVectorUnable (ml_name layer) vecType))
       else emit (WriteLog (MsgVectorUnloaded (ml_name layer) vecType))) ;;
      (* data[vecType].pop('object') *)
      update_ref (TreeItem i) (fun d =>
        Ok (set_nv_vector
              ((fun v => if String.eqb vecType "lines"
                         then set_v_lines (pydict_map (set_vl_object None) (v_lines v)) v
                         else set_v_points (pydict_map (set_vp_object None) (v_points v)) v)
                 <$> nv_vector d) d))
  end.

(** [UnloadVector(item, points)]: unload vector map overlay. *)
Definition UnloadVector (i : item) (points : option bool) : M World unit :=
  w ← get;
  let layer := it_maplayer (tree w i) in
  data ← require TypeError (it_nviz (tree w i));
  _ ← require (KeyError "vector") (nv_vector data);
  let vecTypes := vecTypes_of points ["points"; "lines"]%string in
  for_each vecTypes (unload_vecType i layer).

(** [LoadDataLayers()]: load raster/vector from current layer tree.
    [listOfItems] is the list of checked layers collected by
    [_GetDataLayers]; the loop takes the items from its end. *)
Fixpoint load_items (items : list item) : M World unit :=
  match items with
  | [] => skip
  | i :: rest =>
      w ← get;
      let type := it_type (tree w i) in
      if bool_decide (i ∈ layers w) then load_items rest             (* continue *)
      else if Py.contains " " (ml_name (it_maplayer (tree w i))) then skip   (* return *)
      else
        try_GException
          (if String.eqb type "raster" then LoadRaster i ;; skip
           else if String.eqb type "3d-raster" then LoadRaster3d i ;; skip
           else if String.eqb type "vector" then
             let layer := it_maplayer (tree w i) in
             if negb (has_nviz w) then raise AttributeError   (* self.lmgr.nviz *)
             else
               let '(npoints, nlines) := VectorInfo layer in
               (if 0 <? npoints then LoadVector i (Some true) ;; skip else skip) ;;
               (if 0 <? nlines then LoadVector i (Some false) ;; skip else skip)
           else skip)
          (fun _ => raise NameError)                   (* GError is not defined *)
        ;;
        modify (set_init false) ;;
        load_items rest
  end.

Definition LoadDataLayers (listOfItems : list item) : M World unit :=
  load_items (rev listOfItems).

(** ** Scene command *)

(** [not l] for a list [l]. *)
Definition is_nil {A} (l : list A) : bool :=
  match l with
  | [] => true
  | _ => false
  end.

(** [for x in l: acc += fmt(x)] *)
Definition accumulate {A} (init : string) (fmt : A -> string) (l : list A) : string :=
  foldl (fun acc x => acc +:+ fmt x) init l.

(** [subcmd.split(',')[0]] *)
Definition first_field (subcmd : string) : string :=
  hd ""%string (Py.split "," subcmd).

(** ["%d:%d:%d" % color] *)
Definition fmt_rgb (c : Z * Z * Z) : string :=
  Py.str_of_Z c.1.1 +:+ ":" +:+ Py.str_of_Z c.1.2 +:+ ":" +:+ Py.str_of_Z c.2.

(** ["%d" % x] for a floating-point [x]: the integer part. *)
Definition fmt_d_float (x : Q) : string :=
  Py.str_of_Z (Z.quot (Qnum x) (Z.pos (Qden x))).

(** [self.tree.GetPyData(item)[0]['nviz']['surface']] with the name of the
    map layer. *)
Definition raster_surface (w : World) (i : item) : outcome (string * surface_data) :=
  match it_nviz (tree w i) with
  | None => Raise TypeError
  | Some data =>
      match nv_surface data with
      | None => Raise (KeyError "surface")
      | Some EmptyDict => Raise (KeyError "draw")
      | Some (Dict s) => Ok (ml_name (it_maplayer (tree w i)), s)
      end
  end.

Fixpoint collect {A B} (f : A -> outcome B) (l : list A) : outcome (list B) :=
  match l with
  | [] => Ok []
  | x :: l' =>
      match f x with
      | Raise e => Raise e
      | Ok y => match collect f l' with
                | Raise e => Raise e
                | Ok ys => Ok (y :: ys)
                end
      end
  end.

(** The test of the [-a] flag: compare every draw dictionary with the
    first. *)
Definition flag_a_of (first : draw) (draws : list draw) : string :=
  foldl (fun flag_a nvizData =>
           if bool_decide (first ≠ nvizData) then ""%string else flag_a)
        "-a "%string draws.

(** The part of the command on the draw mode. *)
Definition draw_mode_cmd (surfaces : list (string * surface_data))
    (consts : list constant_data) : string :=
  match surfaces with
  | [] => ""%string
  | first :: _ =>
      let draws := map (fun ns => s_draw ns.2) surfaces in
      let flag_a := flag_a_of (s_draw first.2) draws in
      let cmdMode := accumulate "mode=" (fun d => md_mode (m_desc (d_mode d)) +:+ ",") draws in
      let cmdFine := accumulate "resolution_fine="
                       (fun d => Py.str_of_Z (r_fine (d_resolution d)) +:+ ",") draws in
      let cmdCoarse := accumulate "resolution_coarse="
                         (fun d => Py.str_of_Z (r_coarse (d_resolution d)) +:+ ",") draws in
      let cmdShading := accumulate "shading="
                          (fun d => md_shading (m_desc (d_mode d)) +:+ ",") draws in
      let cmdStyle := accumulate "style=" (fun d => md_style (m_desc (d_mode d)) +:+ ",") draws in
      let cmdWire := accumulate "wire_color=" (fun d => w_value (d_wire_color d) +:+ ",") draws in
      let cmdMode := accumulate cmdMode (fun _ : constant_data => "fine,"%string) consts in
      let cmdFine := accumulate cmdFine (fun c => Py.str_of_Z (c_resolution c) +:+ ",") consts in
      let cmdCoarse := accumulate cmdCoarse (fun c => Py.str_of_Z (c_resolution c) +:+ ",") consts in
      let cmdShading := accumulate cmdShading (fun _ : constant_data => "gouraud,"%string) consts in
      let cmdStyle := accumulate cmdStyle (fun _ : constant_data => "surface,"%string) consts in
      let cmdWire := accumulate cmdWire (fun _ : constant_data => "0:0:0,"%string) consts in
      let subcmds := [cmdMode; cmdFine; cmdCoarse; cmdShading; cmdStyle; cmdWire] in
      if bool_decide (flag_a ≠ ""%string) then
        (* write only meaningful possibilities *)
        let mode := map (fun subcmd => first_field subcmd +:+ " ") subcmds in
        let m n := nth n mode ""%string in
        flag_a
        +:+ m 0%nat
        +:+ (if Py.contains "fine" (m 0%nat) then m 1%nat
             else if Py.contains "coarse" (m 0%nat) then m 2%nat
             else if Py.contains "both" (m 0%nat) then m 2%nat +:+ m 1%nat
             else "")
        +:+ (if Py.contains "flat" (m 3%nat) then m 3%nat else "")
        +:+ (if Py.contains "wire" (m 4%nat) then m 4%nat else "")
        +:+ (if Py.contains "coarse" (m 0%nat)
                || Py.contains "both" (m 0%nat) && Py.contains "wire" (m 3%nat)
             then m 5%nat else "")
      else
        flag_a +:+ accumulate "" (fun subcmd => Py.strip ", " subcmd +:+ " ") subcmds
  end.

(** The part of the command on the colours. *)
Definition color_cmd (surfaces : list (string * surface_data))
    (consts : list constant_data) : outcome string :=
  let step (acc : string * string) (ns : string * surface_data) :=
    match s_attribute ns.2 !! "color"%string with
    | None => (acc.1 +:+ ns.1 +:+ ",", acc.2)
    | Some a =>
        if bool_decide (a_map a = Some true)
        then (acc.1 +:+ str (a_value a) +:+ ",", acc.2)
        else (acc.1, acc.2 +:+ str (a_value a) +:+ ",")
    end in
  let '(cmdColorMap, cmdColorVal) := foldl step ("color_map="%string, "color="%string) surfaces in
  let cmdColorVal := accumulate cmdColorVal (fun c => c_color c +:+ ",") consts in
  match Py.split "=" cmdColorMap !! 1%nat, Py.split "=" cmdColorVal !! 1%nat with
  | Some pm, Some pv =>
      Ok ((if bool_decide (pm ≠ ""%string) then Py.strip ", " cmdColorMap +:+ " " else "")
          +:+ (if bool_decide (pv ≠ ""%string) then Py.strip ", " cmdColorVal +:+ " " else ""))
  | _, _ => Raise IndexError
  end.

(** Viewpoint, background, light, fringe and output. *)
Definition view_cmd (w : World) : outcome string :=
  let v := view w in
  let iv := iview w in
  let l := light w in
  let viewpoint :=
    "position=" +:+ fmt_2f (view_x v) +:+ "," +:+ fmt_2f (view_y v) +:+ " "
    +:+ "height=" +:+ fmt_d_float (height_value iv) +:+ " "
    +:+ "perspective=" +:+ Py.str_of_Z (persp_value v) +:+ " "
    +:+ "twist=" +:+ Py.str_of_Z (twist_value v) +:+ " "
    +:+ "zexag=" +:+ fmt_d_float (zexag_value v) +:+ " "
    +:+ "focus=" +:+ fmt_d_float (focus_x iv) +:+ "," +:+ fmt_d_float (focus_y iv)
    +:+ "," +:+ fmt_d_float (focus_z iv) +:+ " " in
  let background :=
    if bool_decide (bg_color v ≠ (255, 255, 255))
    then "bgcolor=" +:+ fmt_rgb (bg_color v) +:+ " " else "" in
  let lightcmd :=
    "light_position=" +:+ fmt_2f (light_x l) +:+ "," +:+ fmt_2f (light_y l)
    +:+ "," +:+ fmt_2f (inject_Z (light_z l) / 100)%Q +:+ " "
    +:+ "light_brightness=" +:+ Py.str_of_Z (light_bright l) +:+ " "
    +:+ "light_ambient=" +:+ Py.str_of_Z (light_ambient l) +:+ " "
    +:+ "light_color=" +:+ fmt_rgb (light_color l) +:+ " " in
  if negb (has_nviz w) then Raise AttributeError      (* toolWindow = self.lmgr.nviz *)
  else
    let tw := toolwin w in
    let direction :=
      accumulate "" (fun dir => if fringe_checked tw dir then dir +:+ "," else "")
        ["nw"; "ne"; "sw"; "se"]%string in
    let fringe :=
      if bool_decide (direction ≠ ""%string) then
        "fringe=" +:+ Py.strip "," direction +:+ " "
        +:+ "fringe_color=" +:+ fmt_rgb (fringe_color tw) +:+ " "
        +:+ "fringe_elevation=" +:+ Py.str_of_Z (fringe_elev tw) +:+ " "
      else "" in
    let output :=
      "output=nviz_output " +:+ "format=ppm "
      +:+ "size=" +:+ Py.str_of_Z (client_size tw).1 +:+ ","
      +:+ Py.str_of_Z (client_size tw).2 +:+ " " in
    Ok (viewpoint +:+ background +:+ lightcmd +:+ fringe +:+ output).

(** [constant['constant']] for an element of [self.constants]. *)
Definition constant_entry (d : nviz_data) : outcome constant_data :=
  match nv_constant d with
  | Some c => Ok c
  | None => Raise (KeyError "constant")
  end.

(** The raster layers among the loaded layers. *)
Definition rasters_of (w : World) : list item :=
  filter (fun i => it_type (tree w i) = "raster"%string) (layers w).

(** [Nviz_cmd_command()]: generate command for nviz_cmd according to
    current state. *)
Definition Nviz_cmd_command (w : World) : outcome string :=
  let cmd := "nviz_cmd "%string in
  let rasters := rasters_of w in
  if is_nil rasters && is_nil (constants w) then
    Ok (gettext "At least one raster map required")
  else
    match collect constant_entry (constants w) with
    | Raise e => Raise e
    | Ok consts =>
        (* elevation_map/elevation_value *)
        let cmd :=
          if negb (is_nil consts) then
            cmd +:+ Py.strip ", "
                      (accumulate "elevation_value="
                         (fun c => Py.str_of_Z (c_value c) +:+ ",") consts) +:+ " "
          else cmd in
        match (if negb (is_nil rasters) then
                 match collect (raster_surface w) rasters with
                 | Raise e => Raise e
                 | Ok surfaces =>
                     let cmd :=
                       cmd +:+ Py.strip ", "
                                 (accumulate "elevation_map="
                                    (fun ns : string * surface_data => ns.1 +:+ ",") surfaces)
                           +:+ " " in
                     (* draw mode *)
                     let cmd := cmd +:+ draw_mode_cmd surfaces consts in
                     (* attributes *)
                     match color_cmd surfaces consts with
                     | Raise e => Raise e
                     | Ok colors => Ok (cmd +:+ colors)
                     end
                 end
               else Ok cmd) with
        | Raise e => Raise e
        | Ok cmd =>
            match view_cmd w with
            | Raise e => Raise e
            | Ok tail => Ok (cmd +:+ tail)
            end
        end
    end.

(** ** Other methods *)

(** [IsLoaded(item)]: check if layer (item) is already loaded.  For a
    vector the method reads [data['vlines']], a key that the dictionary of
    a layer never has. *)
Definition IsLoaded (i : item) (w : World) : outcome Z :=
  let layer := it_maplayer (tree w i) in
  let data := it_nviz (tree w i) in
  if not_data data then Ok 0
  else
    match data with
    | None => Ok 0
    | Some data =>
        if String.eqb (ml_type layer) "raster" then
          match nv_surface data with
          | None => Raise (KeyError "surface")
          | Some s =>
              if negb (bool_decide (is_Some (pydict_get s ≫= s_object))) then Ok 0
              else Ok 1
          end
        else if String.eqb (ml_type layer) "vector" then
          Raise (KeyError "vlines")
        else Ok 1
    end.

(** [del l[index]] with Python's negative indices; the caller has checked
    that [l[index]] exists. *)
Definition del_index {A} (l : list A) (index : Z) : list A :=
  if 0 <=? index then delete (Z.to_nat index) l
  else delete (Z.to_nat (Z.of_nat (length l) + index)) l.

(** [DeleteConstant(index)]: delete constant layer. *)
Definition DeleteConstant (index : Z) : M World unit :=
  w ← get;
  d ← require IndexError (Py.index (constants w) index);
  c ← require (KeyError "constant") (nv_constant d);
  o ← require (KeyError "object") (c_object c);
  call (Display.UnloadSurface (co_id o)) ;;
  modify (fun w => set_constants (del_index (constants w) index) w).

(** [for item in self.layers: body], where the body may take items off
    [self.layers]: the iterator keeps a position into the list as it is
    when the next item is asked for.  The result is [false] when the fuel
    runs out before the list does. *)
Fixpoint for_layers (fuel : nat) (pos : nat) (body : item -> M World unit) : M World bool :=
  match fuel with
  | O => mret false
  | S fuel' =>
      w ← get;
      match layers w !! pos with
      | None => mret true
      | Some i => body i ;; for_layers fuel' (S pos) body
      end
  end.

(** The body of the loop of [Reset]: unload the layer by its type. *)
Definition unload_layer (i : item) : M World unit :=
  w ← get;
  let type := ml_type (it_maplayer (tree w i)) in
  if String.eqb type "raster" then UnloadRaster i
  else if String.eqb type "3d-raster" then UnloadRaster3d i
  else if String.eqb type "vector" then UnloadVector i None
  else skip.

(** [Reset()]: reset (unload data).  No unload adds to [self.layers], so
    that one step more than its length is enough. *)
Definition Reset : M World bool :=
  w ← get;
  finished ← for_layers (S (length (layers w))) 0 unload_layer;
  if finished : bool then modify (set_init false) ;; mret true
  else mret false.

End GLWindow.

(** * Descriptions

    What the methods do, written as functions of the state before: the
    events of a push and the dictionary after it. *)

(** A property of the state that a computation keeps, whether it returns
    or raises. *)
Definition preserves {S A} (P : S -> Prop) (m : M S A) : Prop :=
  forall s t, P s -> P (m s t).1.2.

Section Descriptions.
Context `{Collaborators}.

(** What one entry of [event.update] pushes for the plane [p]. *)
Definition cplane_push (p : cplane) (each : string) : list Event :=
  (if String.eqb each "rotation"
   then [Call (Display.SetCPlaneRotation 0 (cp_tilt p) (cp_rot p))] else [])
  ++ (if String.eqb each "position"
      then [Call (Display.SetCPlaneTranslation (cp_x p) (cp_y p) (cp_z p))] else [])
  ++ (if String.eqb each "shading"
      then [Call (Display.SetFenceColor (cp_shading p))] else []).


(** ** Surface properties *)


(** The call that pushes the attribute [attrb], if any. *)
Definition attr_call (id : Z) (attrb : string) (a : attr) : list Event :=
  match a_map a with
  | None =>
      if String.eqb attrb "mask" then [Call (Display.UnsetSurfaceMask id)]
      else if String.eqb attrb "transp" then [Call (Display.UnsetSurfaceTransp id)]
      else []
  | Some map =>
      if is_empty_str (a_value a) then []
      else if String.eqb attrb "color"
           then [Call (Display.SetSurfaceColor id map (VStr (str (a_value a))))]
      else if String.eqb attrb "mask"
           then [Call (Display.SetSurfaceMask id false (VStr (str (a_value a))))]
      else if String.eqb attrb "transp"
           then [Call (Display.SetSurfaceTransp id map (VStr (str (a_value a))))]
      else if String.eqb attrb "shine"
           then [Call (Display.SetSurfaceShine id map (VStr (str (a_value a))))]
      else []
  end.

(** A mapped attribute whose value is the empty string is passed over
    and keeps its flag. *)
Definition attr_keeps (a : attr) : bool :=
  match a_map a with
  | Some _ => is_empty_str (a_value a)
  | None => false
  end.

Definition attr_events (id : Z) (s : surface_data) (attrb : string) : list Event :=
  match s_attribute s !! attrb with
  | Some a => if a_update a then attr_call id attrb a else []
  | None => []
  end.

Definition attr_after (a : attr) : attr :=
  if a_update a && negb (attr_keeps a) then set_a_update false a else a.

Definition attr_names : list string := ["color"; "mask"; "transp"; "shine"]%string.

Definition draw_events (id : Z) (d : draw) : list Event :=
  let target := if d_all d then -1 else id in
  (if r_update (d_resolution d)
   then [Call (Display.SetSurfaceRes target (r_fine (d_resolution d)) (r_coarse (d_resolution d)))]
   else [])
  ++ (if m_update (d_mode d)
      then [Call (Display.SetSurfaceStyle target
                    (if m_value (d_mode d) <? 0
                     then GetDrawMode (md_mode (m_desc (d_mode d)))
                            (md_style (m_desc (d_mode d))) (md_shading (m_desc (d_mode d)))
                     else m_value (d_mode d)))]
      else [])
  ++ (if w_update (d_wire_color d)
      then [Call (Display.SetWireColor target (w_value (d_wire_color d)))]
      else []).

Definition draw_after (d : draw) : draw :=
  mk_draw false
    (set_r_update false (d_resolution d))
    (mk_draw_mode false
       (if m_update (d_mode d) && (m_value (d_mode d) <? 0)
        then GetDrawMode (md_mode (m_desc (d_mode d)))
               (md_style (m_desc (d_mode d))) (md_shading (m_desc (d_mode d)))
        else m_value (d_mode d))
       (m_desc (d_mode d)))
    (set_w_update false (d_wire_color d)).

Definition position_events (id : Z) (p : position) : list Event :=
  if p_update p then [Call (Display.SetSurfacePosition id (p_x p) (p_y p) (p_z p))] else [].

(** The record after a push, and the events of the push. *)
Definition surface_after (s : surface_data) : surface_data :=
  mk_surface
    (foldl (fun m attrb => alter attr_after attrb m) (s_attribute s) attr_names)
    (draw_after (s_draw s))
    (set_p_update false (s_position s))
    (s_object s).

Definition surface_events (id : Z) (s : surface_data) : list Event :=
  concat (map (attr_events id s) attr_names)
  ++ draw_events id (s_draw s) ++ position_events id (s_position s).


(** The attribute groups of a surface record, by the key that holds their
    ['update'] flag. *)
Definition surface_groups : list string :=
  attr_names ++ ["resolution"; "mode"; "wire-color"; "position"]%string.

(** The group an engine call pushes. *)
Definition call_group (e : Event) : option string :=
  match e with
  | Call (Display.SetSurfaceColor _ _ _) => Some "color"%string
  | Call (Display.SetSurfaceMask _ _ _) | Call (Display.UnsetSurfaceMask _) =>
      Some "mask"%string
  | Call (Display.SetSurfaceTransp _ _ _) | Call (Display.UnsetSurfaceTransp _) =>
      Some "transp"%string
  | Call (Display.SetSurfaceShine _ _ _) => Some "shine"%string
  | Call (Display.SetSurfaceRes _ _ _) => Some "resolution"%string
  | Call (Display.SetSurfaceStyle _ _) => Some "mode"%string
  | Call (Display.SetWireColor _ _) => Some "wire-color"%string
  | Call (Display.SetSurfacePosition _ _ _ _) => Some "position"%string
  | _ => None
  end.

(** Some event pushes the group [g]. *)
Definition pushed (evs : list Event) (g : string) : bool :=
  existsb (fun e => bool_decide (call_group e = Some g)) evs.

Definition is_attr_name (g : string) : bool :=
  String.eqb g "color" || String.eqb g "mask" || String.eqb g "transp" || String.eqb g "shine".

(** ['update' in ...] for the group [g]. *)
Definition dirty (s : surface_data) (g : string) : bool :=
  if String.eqb g "resolution" then r_update (d_resolution (s_draw s))
  else if String.eqb g "mode" then m_update (d_mode (s_draw s))
  else if String.eqb g "wire-color" then w_update (d_wire_color (s_draw s))
  else if String.eqb g "position" then p_update (s_position s)
  else match s_attribute s !! g with
       | Some a => a_update a
       | None => false
       end.

(** A dirty attribute that is passed over without a call: it is unset and
    has no unset call (colour, shininess), or its value is the empty
    string. *)
Definition passed_over (s : surface_data) (g : string) : bool :=
  is_attr_name g &&
  match s_attribute s !! g with
  | Some a =>
      match a_map a with
      | None => negb (String.eqb g "mask" || String.eqb g "transp")
      | Some _ => is_empty_str (a_value a)
      end
  | None => false
  end.

(** An attribute whose flag survives the push: a mapped attribute with an
    empty string for value. *)
Definition kept (s : surface_data) (g : string) : bool :=
  is_attr_name g &&
  match s_attribute s !! g with
  | Some a => attr_keeps a
  | None => false
  end.

(** The object an engine call about the draw group is aimed at. *)
Definition draw_target (e : Event) : option Z :=
  match e with
  | Call (Display.SetSurfaceRes id _ _) => Some id
  | Call (Display.SetSurfaceStyle id _) => Some id
  | Call (Display.SetWireColor id _) => Some id
  | _ => None
  end.

(** ** Loaded objects *)

(** The ['object'] record of a raster or 3d raster layer. *)
Definition raster_object (w : World) (i : item) : option object_rec :=
  data ← it_nviz (tree w i);
  if String.eqb (ml_type (it_maplayer (tree w i))) "raster" then
    s ← nv_surface data ≫= pydict_get; s_object s
  else if String.eqb (ml_type (it_maplayer (tree w i))) "3d-raster" then
    v ← nv_volume data; vo_object v
  else None.

(** The ['object'] record of the sub-object [vecType] of a vector layer. *)
Definition vector_object (w : World) (i : item) (vecType : string) : option object_rec :=
  data ← it_nviz (tree w i);
  v ← nv_vector data;
  if String.eqb vecType "lines" then pydict_get (v_lines v) ≫= vl_object
  else pydict_get (v_points v) ≫= vp_object.

Definition is_unload (e : Event) : bool :=
  match e with
  | Call (Display.UnloadSurface _) | Call (Display.UnloadVolume _)
  | Call (Display.UnloadVector _ _) => true
  | _ => false
  end.

Definition is_load (e : Event) : bool :=
  match e with
  | Call (Display.LoadSurface _) | Call (Display.LoadVolume _)
  | Call (Display.LoadVector _ _) => true
  | _ => false
  end.

(** The unload call of a raster or 3d raster layer. *)
Definition unload_call (w : World) (i : item) (id : Z) : engine_call :=
  if String.eqb (ml_type (it_maplayer (tree w i))) "raster"
  then Display.UnloadSurface id else Display.UnloadVolume id.

(** The line logged after the engine answered [ret]. *)
Definition unload_log (w : World) (i : item) (ret : Z) : Event :=
  let layer := it_maplayer (tree w i) in
  if String.eqb (ml_type layer) "raster" then
    if ret =? 0 then WriteError (MsgUnable (gettext "Unable to unload raster map") (ml_name layer))
    else WriteLog (MsgUnloaded (gettext "Raster map") (ml_name layer))
  else
    if ret =? 0 then WriteError (MsgUnable (gettext "Unable to unload 3d raster map") (ml_name layer))
    else WriteLog (MsgUnloaded (gettext "3d raster map") (ml_name layer)).

(** The default properties of [workspace.Nviz] describe a layer that is not
    loaded: they hold no ['object'] record. *)
Definition defaults_without_object : Prop :=
  s_object SetSurfaceDefaultProp = None /\
  vo_object SetVolumeDefaultProp = None /\
  vl_object SetVectorDefaultProp.1 = None /\
  vp_object SetVectorDefaultProp.2 = None /\
  vl_object SetVectorLinesDefaultProp = None /\
  vp_object SetVectorPointsDefaultProp = None.

(** The load call of a raster or 3d raster layer. *)
Definition load_call (w : World) (i : item) : engine_call :=
  if String.eqb (ml_type (it_maplayer (tree w i))) "raster"
  then Display.LoadSurface (ml_name (it_maplayer (tree w i)))
  else Display.LoadVolume (ml_name (it_maplayer (tree w i))).

(** The lines and points dictionaries of a vector layer whose dictionary
    holds nothing else. *)
Definition vector_dicts (w : World) (i : item) : option (vlines_data * vpoints_data) :=
  match it_nviz (tree w i) with
  | Some (mk_nviz None None None (Some (mk_vector (Dict l) (Dict p)))) => Some (l, p)
  | _ => None
  end.

(** What setting properties and loading leave alone. *)
Definition frame (i : item) (w w' : World) : Prop :=
  (forall j, it_maplayer (tree w' j) = it_maplayer (tree w j)) /\
  it_cmd (tree w' i) = it_cmd (tree w i) /\
  it_type (tree w' i) = it_type (tree w i) /\
  has_nviz w' = has_nviz w /\
  selected w' = selected w.

(** A vector layer whose properties can be set: it has no dictionary yet
    (and a command to take the colour from), or it has its lines and
    points dictionaries. *)
Definition loadable_vector (w : World) (i : item) : Prop :=
  ml_type (it_maplayer (tree w i)) = "vector"%string /\
  ((not_data (it_nviz (tree w i)) = true /\ it_cmd (tree w i) <> [])
   \/ is_Some (vector_dicts w i)).

(** The load calls among the events, in order. *)
Definition load_calls (evs : list Event) : list Event :=
  filter (fun e => is_load e = true) evs.

(** The sub-object [vecType] loaded for the points ([true]) or the lines
    ([false]). *)
Definition vecType_of (points : bool) : string :=
  if points then "points"%string else "lines"%string.

(** Among the events [evs] that follow [t] there is the load call [c]; if
    the engine answered it with a positive id, this id is the one recorded
    for the sub-object of the layer [i]. *)
Definition slot_recorded (t evs : list Event) (w' : World) (i : item)
    (name : string) (points : bool) : Prop :=
  exists pre post,
    evs = pre ++ [Call (Display.LoadVector name points)] ++ post /\
    (0 < display_ret (t ++ pre) (Display.LoadVector name points) ->
     o_id <$> vector_object w' i (vecType_of points)
     = Some (display_ret (t ++ pre) (Display.LoadVector name points))).

(** ** Scene command *)

(** Characters other than the comma and the blank, the two that [strip]
    and [split] act on in the scene command. *)
Definition plain_chars (l : list ascii) : bool :=
  forallb (fun c => negb (Py.mem_ascii c [","; " "]%char)) l.

(** A value that can stand in a comma-separated list: it is not empty and
    has no comma and no blank. *)
Definition is_token (s : string) : bool :=
  negb (String.eqb s "") && plain_chars (list_ascii_of_string s).

Definition draw_tokens (d : draw) : bool :=
  is_token (md_mode (m_desc (d_mode d))) && is_token (md_style (m_desc (d_mode d)))
  && is_token (md_shading (m_desc (d_mode d))) && is_token (w_value (d_wire_color d)).

(** [key=v1,v2,...,vn ] *)
Definition join_values (key : string) (vs : list string) : string :=
  key +:+ String.concat "," vs +:+ " ".

(** One list per sub-attribute over every raster layer, in the order of
    the layers, then the constants with their fixed values. *)
Definition spec_draw_lists (draws : list draw) (consts : list constant_data) : string :=
  join_values "mode="
    (map (fun d => md_mode (m_desc (d_mode d))) draws ++ map (fun _ => "fine"%string) consts)
  +:+ join_values "resolution_fine="
        (map (fun d => Py.str_of_Z (r_fine (d_resolution d))) draws
         ++ map (fun c => Py.str_of_Z (c_resolution c)) consts)
  +:+ join_values "resolution_coarse="
        (map (fun d => Py.str_of_Z (r_coarse (d_resolution d))) draws
         ++ map (fun c => Py.str_of_Z (c_resolution c)) consts)
  +:+ join_values "shading="
        (map (fun d => md_shading (m_desc (d_mode d))) draws
         ++ map (fun _ => "gouraud"%string) consts)
  +:+ join_values "style="
        (map (fun d => md_style (m_desc (d_mode d))) draws
         ++ map (fun _ => "surface"%string) consts)
  +:+ join_values "wire_color="
        (map (fun d => w_value (d_wire_color d)) draws
         ++ map (fun _ => "0:0:0"%string) consts).

(** The compact form: the flag, then one value per sub-attribute that is
    written, taken from the draw dictionary [d]. *)
Definition spec_draw_compact (d : draw) : string :=
  let mode := join_values "mode=" [md_mode (m_desc (d_mode d))] in
  let fine := join_values "resolution_fine=" [Py.str_of_Z (r_fine (d_resolution d))] in
  let coarse := join_values "resolution_coarse=" [Py.str_of_Z (r_coarse (d_resolution d))] in
  let shading := join_values "shading=" [md_shading (m_desc (d_mode d))] in
  let style := join_values "style=" [md_style (m_desc (d_mode d))] in
  let wire := join_values "wire_color=" [w_value (d_wire_color d)] in
  "-a " +:+ mode
  +:+ (if Py.contains "fine" mode then fine
       else if Py.contains "coarse" mode then coarse
       else if Py.contains "both" mode then coarse +:+ fine
       else "")
  +:+ (if Py.contains "flat" shading then shading else "")
  +:+ (if Py.contains "wire" style then style else "")
  +:+ (if Py.contains "coarse" mode || Py.contains "both" mode && Py.contains "wire" shading
       then wire else "").

(** The elevation part of the command, written before the draw mode. *)
Definition elevation_cmd (names : list string) (consts : list constant_data) : string :=
  (if is_nil consts then ""
   else Py.strip ", "
          (accumulate "elevation_value=" (fun c => Py.str_of_Z (c_value c) +:+ ",") consts)
        +:+ " ")
  +:+ Py.strip ", " (accumulate "elevation_map=" (fun n : string => n +:+ ",") names)
  +:+ " ".

(** The draw dictionaries of a list of layers are identical. *)
Definition identical (draws : list draw) : Prop :=
  forall d1 d2, d1 ∈ draws -> d2 ∈ draws -> d1 = d2.

(** ** Vector colour from the command *)

(** An option of the form [color=value]. *)
Definition is_color_opt (opt : string) : bool :=
  match Py.split "=" opt with
  | [key; value] => String.eqb key "color"
  | _ => false
  end.

(** ** A loop over a list that shrinks *)

(** The items that a loop over [self.layers] visits when every visit takes
    the visited item off the list: those at the positions 0, 2, 4, ... *)
Fixpoint visited {A} (l : list A) : list A :=
  match l with
  | x :: _ :: l' => x :: visited l'
  | [x] => [x]
  | [] => []
  end.

(** The items that the loop steps over: those at the positions 1, 3,
    5, ... *)
Fixpoint stepped_over {A} (l : list A) : list A :=
  match l with
  | _ :: y :: l' => y :: stepped_over l'
  | _ => []
  end.

(** ** Cutting planes *)

(** The names of the field groups that [UpdateCPlane] knows. *)
Definition is_cplane_group (each : string) : bool :=
  String.eqb each "rotation" || String.eqb each "position" || String.eqb each "shading".

End Descriptions.

(** ** Sample data

    Default properties in the shape [workspace.Nviz] gives them, an engine
    that numbers the objects it loads, and a small layer tree: a raster
    [elevation] (item 0), a vector [roads] (item 1), a 3d raster [precip]
    (item 2) and a second raster [geology] (item 3). *)

Module Sample.

Definition draw0 : draw :=
  mk_draw false (mk_resolution true 9 3)
    (mk_draw_mode true (-1) (mk_mode_desc "fine" "surface" "gouraud"))
    (mk_wire_color true "136:136:136").

Definition surface0 : surface_data :=
  mk_surface {[ "shine"%string := mk_attr (Some false) (VInt 60) true ]}
    draw0 (mk_position true 0 0 0) None.

Definition vmode0 : vmode := mk_vmode "surface" true None.

Definition lines0 : vlines_data :=
  mk_vlines (mk_prop "0:0:0"%string true) (mk_prop 2 true) vmode0 (mk_prop 0 true) None.

Definition points0 : vpoints_data :=
  mk_vpoints (mk_prop 100 true) (mk_prop 2 true) (mk_prop 1 true)
    (mk_prop "0:0:0"%string true) vmode0 (mk_prop 0 true) None.

Definition volume0 : volume_data :=
  mk_volume (mk_prop 3 true) (mk_prop (-1) true) [] None.

Definition constant0 : constant_data := mk_constant 0 "0:0:0" 6 None.

(** ["%.2f" % x] for the number [x] that the fraction gives: two
    decimals, rounded to the nearest, a tie to the even digit. *)
Definition two_decimals (x : Q) : string :=
  let n := Z.abs (Qnum x) * 100 in
  let d := Z.pos (Qden x) in
  let k := n / d in
  let r := n mod d in
  let k := if (d <? 2 * r) || ((d =? 2 * r) && Z.odd k) then k + 1 else k in
  (if Qnum x <? 0 then "-" else "")
  +:+ Py.str_of_Z (k / 100) +:+ "."
  +:+ Py.str_of_Z (k mod 100 / 10) +:+ Py.str_of_Z (k mod 10).

(** Collaborators around an engine [ret]. *)
Definition collab (ret : list Event -> engine_call -> Z) : Collaborators :=
  {| gettext := fun s => s;
     display_ret := ret;
     display_focus := fun _ => (0%Q, 0%Q, 0%Q);
     GetDrawMode := fun _ _ _ => 2306;
     GetDrawModeShade := fun _ => 256;
     SetSurfaceDefaultProp := surface0;
     SetVolumeDefaultProp := volume0;
     SetVectorDefaultProp := (lines0, points0);
     SetVectorLinesDefaultProp := lines0;
     SetVectorPointsDefaultProp := points0;
     SetConstantDefaultProp := constant0;
     VectorInfo := fun _ => (0, 5);
     fmt_2f := two_decimals |}.

(** An engine that gives the n-th call the number n. *)
Definition counting (t : list Event) (c : engine_call) : Z :=
  Z.of_nat (length t) + 1.

(** An engine whose every call reports a failure: id -1 for a load, 0 for
    an unload. *)
Definition failing (t : list Event) (c : engine_call) : Z :=
  match c with
  | Display.UnloadSurface _ | Display.UnloadVolume _ | Display.UnloadVector _ _ => 0
  | _ => -1
  end.

Definition tree0 (i : item) : ItemData :=
  match i with
  | 0%nat => mk_itemdata "raster" (mk_maplayer "elevation" "raster") None []
  | 1%nat => mk_itemdata "vector" (mk_maplayer "roads" "vector") None
               ["d.vect"; "map=roads"; "color=1:2:3"]%string
  | 2%nat => mk_itemdata "3d-raster" (mk_maplayer "precip" "3d-raster") None []
  | _ => mk_itemdata "raster" (mk_maplayer "geology" "raster") None []
  end.

Definition view0 : view_rec := mk_view 1 1 20 2 0 1 (255, 255, 255).
Definition iview0 : iview_rec := mk_iview 1 0 0 0.
Definition light0 : light_rec := mk_light 1 1 80 80 20 (255, 255, 255).
Definition toolwin0 : toolwin_rec := mk_toolwin (fun _ => false) (0, 0, 0) 0 (640, 480).

Definition cplane0 : cplane := mk_cplane 0 0 0 0 0 "clear".

(** Nothing loaded yet. *)
Definition world0 : World :=
  mk_world tree0 None true [] [] [cplane0; mk_cplane 10 20 1 2 3 "top"]
    view0 iview0 light0 toolwin0 true "default".

(** A loaded surface: colour by map, mask unset, constant shininess, all
    marked for update. *)
Definition surface1 : surface_data :=
  mk_surface
    {[ "color"%string := mk_attr (Some true) (VStr "elevation") true;
       "mask"%string := mk_attr None (VStr "") true;
       "shine"%string := mk_attr (Some false) (VInt 60) true ]}
    draw0 (mk_position true 0 0 0) (Some (mk_object 1 false false)).

(** The same with apply-to-all set. *)
Definition surface_all : surface_data :=
  set_s_draw (set_d_all true draw0) surface1.

(** A loaded surface whose colour is to come from a map that has not been
    chosen yet. *)
Definition surface_nocolor : surface_data :=
  mk_surface
    {[ "color"%string := mk_attr (Some true) (VStr "") true ]}
    (mk_draw false (mk_resolution false 9 3)
       (mk_draw_mode false 2306 (mk_mode_desc "fine" "surface" "gouraud"))
       (mk_wire_color false "136:136:136"))
    (mk_position false 0 0 0) (Some (mk_object 1 true false)).

Definition nviz_of (s : surface_data) : nviz_data :=
  mk_nviz (Some (Dict s)) None None None.

(** Lines and points draped on two reference surfaces, of which only
    [elevation] is still loaded. *)
Definition refs1 : surf_ref := mk_surf_ref ["elevation"; "old_dem"]%string [true; true].

Definition lines1 : vlines_data :=
  mk_vlines (mk_prop "0:0:0"%string false) (mk_prop 2 false)
    (mk_vmode "surface" true (Some refs1)) (mk_prop 0 false)
    (Some (mk_object 2 true false)).

Definition points1 : vpoints_data :=
  mk_vpoints (mk_prop 100 false) (mk_prop 2 false) (mk_prop 1 false)
    (mk_prop "0:0:0"%string false) (mk_vmode "surface" true (Some refs1))
    (mk_prop 0 false) (Some (mk_object 3 true false)).

Definition tree1 (i : item) : ItemData :=
  match i with
  | 0%nat => mk_itemdata "raster" (mk_maplayer "elevation" "raster")
               (Some (nviz_of surface1)) []
  | 1%nat => mk_itemdata "vector" (mk_maplayer "roads" "vector")
               (Some (mk_nviz None None None (Some (mk_vector (Dict lines1) (Dict points1)))))
               ["d.vect"; "map=roads"]%string
  | _ => tree0 i
  end.

(** The raster [elevation] and the vector [roads] are loaded. *)
Definition world1 : World :=
  mk_world tree1 None true [0%nat; 1%nat] [] [cplane0]
    view0 iview0 light0 toolwin0 true "default".

(** A second draw dictionary: coarse wire mesh. *)
Definition draw_coarse : draw :=
  mk_draw false (mk_resolution true 9 3)
    (mk_draw_mode true (-1) (mk_mode_desc "coarse" "wire" "flat"))
    (mk_wire_color true "0:255:0").

Definition tree2 (s : surface_data) (i : item) : ItemData :=
  match i with
  | 0%nat => mk_itemdata "raster" (mk_maplayer "elevation" "raster")
               (Some (nviz_of surface1)) []
  | 3%nat => mk_itemdata "raster" (mk_maplayer "geology" "raster") (Some (nviz_of s)) []
  | _ => tree0 i
  end.

(** The rasters [elevation] and [geology], loaded in this order, the
    second with the surface [s], and one constant surface. *)
Definition world2 (s : surface_data) : World :=
  mk_world (tree2 s) None true [0%nat; 3%nat] [mk_nviz None (Some constant0) None None]
    [cplane0] view0 iview0 light0 toolwin0 true "default".

(** A constant surface and no layer. *)
Definition world_constant : World :=
  mk_world tree0 None true [] [mk_nviz None (Some constant0) None None]
    [cplane0] view0 iview0 light0 toolwin0 true "default".

(** Two constant surfaces that [NewConstant] made: ids 5 and 6, names 1
    and 2. *)
Definition constant1 : constant_data :=
  mk_constant 10 "0:0:0" 6 (Some (mk_const_object 5 (Some 1) false)).
Definition constant2 : constant_data :=
  mk_constant 20 "255:0:0" 6 (Some (mk_const_object 6 (Some 2) false)).

Definition world_constants : World :=
  mk_world tree0 None true []
    [mk_nviz None (Some constant1) None None; mk_nviz None (Some constant2) None None]
    [cplane0] view0 iview0 light0 toolwin0 true "default".

(** Three loaded rasters [dem], items 0, 1 and 2. *)
Definition tree_rasters (i : item) : ItemData :=
  mk_itemdata "raster" (mk_maplayer "dem" "raster") (Some (nviz_of surface1)) [].

Definition world_rasters : World :=
  mk_world tree_rasters None true [0%nat; 1%nat; 2%nat] [] [cplane0]
    view0 iview0 light0 toolwin0 true "default".

(** Lines drawn flat, with a new colour. *)
Definition lines_flat : vlines_data :=
  mk_vlines (mk_prop "0:0:0"%string true) (mk_prop 2 false)
    (mk_vmode "flat" false (Some refs1)) (mk_prop 0 true)
    (Some (mk_object 2 true false)).

(** The tree of [world1] with a raster whose name has a blank (item 5). *)
Definition tree_blank (i : item) : ItemData :=
  match i with
  | 5%nat => mk_itemdata "raster" (mk_maplayer "my map" "raster") None []
  | _ => tree1 i
  end.

Definition world_blank : World :=
  mk_world tree_blank None true [0%nat; 1%nat] [] [cplane0]
    view0 iview0 light0 toolwin0 true "default".

(** [world2] without the tool window. *)
Definition world2_headless (s : surface_data) : World :=
  mk_world (tree2 s) None false [0%nat; 3%nat] [mk_nviz None (Some constant0) None None]
    [cplane0] view0 iview0 light0 toolwin0 true "default".

(** Collaborators for which every vector has three points and five
    lines. *)
Definition collab_points (ret : list Event -> engine_call -> Z) : Collaborators :=
  {| gettext := fun s => s;
     display_ret := ret;
     display_focus := fun _ => (0%Q, 0%Q, 0%Q);
     GetDrawMode := fun _ _ _ => 2306;
     GetDrawModeShade := fun _ => 256;
     SetSurfaceDefaultProp := surface0;
     SetVolumeDefaultProp := volume0;
     SetVectorDefaultProp := (lines0, points0);
     SetVectorLinesDefaultProp := lines0;
     SetVectorPointsDefaultProp := points0;
     SetConstantDefaultProp := constant0;
     VectorInfo := fun _ => (3, 5);
     fmt_2f := two_decimals |}.

(** Points marked for update, draped on [elevation]. *)
Definition points_dirty : vpoints_data :=
  mk_vpoints (mk_prop 100 true) (mk_prop 2 true) (mk_prop 1 true)
    (mk_prop "0:0:0"%string true)
    (mk_vmode "surface" true (Some (mk_surf_ref ["elevation"%string] [true])))
    (mk_prop 0 true) (Some (mk_object 3 true false)).

End Sample.

(** * Properties *)

Section Proofs.
Context `{Collaborators}.

(** ** The Python primitives on examples *)

Example strip_ex1 : Py.strip ", " "mode=fine,coarse," = "mode=fine,coarse".
Proof. reflexivity. Qed.
Example strip_ex2 : Py.strip ", " "wire_color=0:0:0,," = "wire_color=0:0:0".
Proof. reflexivity. Qed.
Example split_ex1 : Py.split "," "mode=fine,coarse," = ["mode=fine"; "coarse"; ""].
Proof. reflexivity. Qed.
Example split_ex2 : Py.split "=" "color_map=" = ["color_map"; ""].
Proof. reflexivity. Qed.
Example contains_ex1 : Py.contains "fine" "mode=fine " = true.
Proof. reflexivity. Qed.
Example contains_ex2 : Py.contains "wire" "shading=gouraud " = false.
Proof. reflexivity. Qed.
Example str_ex1 : Py.str_of_Z (-12) = "-12" /\ Py.str_of_Z 0 = "0".
Proof. split; reflexivity. Qed.
Example index_ex1 : Py.index [10; 20; 30] (-1) = Some 30 /\ Py.index [10; 20; 30] 3 = None.
Proof. split; reflexivity. Qed.


(** ** Running a computation *)

Lemma bind_unfold {S A B} (m : M S A) (f : A -> M S B) s t :
  (m ≫= f) s t =
  match m s t with
  | (Ok a, s', t') => f a s' t'
  | (Raise e, s', t') => (Raise e, s', t')
  end.
Proof. reflexivity. Qed.

Ltac run_monad :=
  repeat progress
    (unfold require, read, lift_outcome, zoom_opt, zoom, skip, modify, get, gets,
       put, emit, call, raise, mbind, M_bind, mret, M_ret in *).

(** A loop whose body only emits events, and never raises, emits them in
    the order of the list. *)
Lemma for_each_emits {S A} (l : list A) (body : A -> M S unit) (f : A -> list Event) s :
  (forall x t, body x s t = (Ok tt, s, t ++ f x)) ->
  forall t, for_each l body s t = (Ok tt, s, t ++ concat (map f l)).
Proof.
  intros Hbody. induction l as [|x l IH]; intros t; simpl.
  - by rewrite app_nil_r.
  - rewrite bind_unfold, Hbody, IH. by rewrite app_assoc.
Qed.

(** ** Perspective by mouse wheel *)

(** C7: a wheel step leaves the perspective within [1, 100]; when the
    clamped value equals the previous one, the handler does nothing but
    pass the event on: no [SetView] call and no redraw. *)
Theorem OnMouseAction_persp_clamped (w : World) (t : list Event) (rot : Z) :
  rot <> 0 ->
  let r := OnMouseAction (Wheel rot) w t in
  r.1.1 = Ok tt /\
  1 <= persp_value (view r.1.2) <= 100 /\
  (persp_value (view r.1.2) = persp_value (view w) -> r.2 = t ++ [Gui EventSkip]).
Proof.
  intros Hrot. unfold OnMouseAction. simpl GetWheelRotation. simpl IsLeftDown.
  destruct (Z.eqb_spec rot 0) as [|_]; [done|]. cbn [negb].
  run_monad. cbn -[Z.add Z.mul Z.ltb Z.eqb].
  set (v := if 0 <? rot then _ else _).
  destruct (Z.ltb_spec (persp_value (view w) + v) 1) as [Hlo|Hlo];
    [|destruct (Z.ltb_spec 100 (persp_value (view w) + v)) as [Hhi|Hhi]];
    cbn -[Z.add Z.mul Z.ltb Z.eqb];
    (match goal with |- context [?a =? ?b] => destruct (Z.eqb_spec a b) as [Heq|Hne] end);
    cbn -[Z.add Z.mul Z.ltb Z.eqb]; try destruct (has_nviz w);
    cbn -[Z.add Z.mul Z.ltb Z.eqb]; repeat split; try lia; try (intros; congruence).
Qed.

(** ** Cutting planes *)

Lemma cplane_push_elem (p : cplane) (e : Event) (l : list string) :
  e ∈ concat (map (cplane_push p) l) <->
  (e = Call (Display.SetCPlaneRotation 0 (cp_tilt p) (cp_rot p)) /\ "rotation"%string ∈ l) \/
  (e = Call (Display.SetCPlaneTranslation (cp_x p) (cp_y p) (cp_z p)) /\ "position"%string ∈ l) \/
  (e = Call (Display.SetFenceColor (cp_shading p)) /\ "shading"%string ∈ l).
Proof.
  induction l as [|x l IH]; simpl.
  - split; [by intros ?%elem_of_nil|]. by intros [[_ ?%elem_of_nil]|[[_ ?%elem_of_nil]|[_ ?%elem_of_nil]]].
  - rewrite elem_of_app, IH, !elem_of_cons. unfold cplane_push.
    destruct (String.eqb_spec x "rotation") as [Hr|Hr];
      destruct (String.eqb_spec x "position") as [Hp|Hp];
      destruct (String.eqb_spec x "shading") as [Hs|Hs];
      try congruence; simpl; rewrite ?elem_of_cons, ?elem_of_nil;
      intuition congruence.
Qed.

(** C9: [UpdateCPlane] pushes the listed field groups of the plane
    [event.current], in the order of the list, and nothing else: a group
    is pushed if and only if it is listed, and the window state is left
    as it was. *)
Theorem UpdateCPlane_pushes_listed (w : World) (t : list Event)
    (event : CPlaneEvent) (p : cplane) :
  Py.index (cplanes w) (ev_current event) = Some p ->
  exists evs,
    UpdateCPlane event w t = (Ok tt, w, t ++ evs) /\
    evs = concat (map (cplane_push p) (ev_update event)) /\
    (Call (Display.SetCPlaneRotation 0 (cp_tilt p) (cp_rot p)) ∈ evs
       <-> "rotation"%string ∈ ev_update event) /\
    (Call (Display.SetCPlaneTranslation (cp_x p) (cp_y p) (cp_z p)) ∈ evs
       <-> "position"%string ∈ ev_update event) /\
    (Call (Display.SetFenceColor (cp_shading p)) ∈ evs
       <-> "shading"%string ∈ ev_update event) /\
    (forall e, e ∈ evs ->
       e = Call (Display.SetCPlaneRotation 0 (cp_tilt p) (cp_rot p)) \/
       e = Call (Display.SetCPlaneTranslation (cp_x p) (cp_y p) (cp_z p)) \/
       e = Call (Display.SetFenceColor (cp_shading p))).
Proof.
  intros Hp. eexists. split; [|split; [reflexivity|]].
  - unfold UpdateCPlane. apply for_each_emits. intros each t'.
    unfold cplane_push.
    destruct (String.eqb each "rotation"), (String.eqb each "position"),
      (String.eqb each "shading"); run_monad; rewrite ?Hp; simpl;
      by rewrite <- ?app_assoc, ?app_nil_r.
  - repeat split; try (intros He; apply cplane_push_elem in He; intuition congruence);
      try (intros He; apply cplane_push_elem; intuition congruence).
    intros e He. apply cplane_push_elem in He. intuition congruence.
Qed.

(** ** Surface properties *)

Lemma attr_step (id : Z) (attrb : string) (s : surface_data) (t : list Event) :
  (match s_attribute s !! attrb with
   | None => skip
   | Some a =>
       if negb (a_update a) then skip
       else
         match a_map a with
         | None =>
             (if String.eqb attrb "mask" then call (Display.UnsetSurfaceMask id) ;; skip
              else if String.eqb attrb "transp" then call (Display.UnsetSurfaceTransp id) ;; skip
              else skip) ;;
             modify (pop_attr_update attrb)
         | Some map =>
             if is_empty_str (a_value a) then skip
             else
               (if String.eqb attrb "color" then
                  call (Display.SetSurfaceColor id map (VStr (str (a_value a)))) ;; skip
                else if String.eqb attrb "mask" then
                  call (Display.SetSurfaceMask id false (VStr (str (a_value a)))) ;; skip
                else if String.eqb attrb "transp" then
                  call (Display.SetSurfaceTransp id map (VStr (str (a_value a)))) ;; skip
                else if String.eqb attrb "shine" then
                  call (Display.SetSurfaceShine id map (VStr (str (a_value a)))) ;; skip
                else skip) ;;
               modify (pop_attr_update attrb)
         end
   end) s t
  = (Ok tt, set_s_attribute (alter attr_after attrb (s_attribute s)) s,
     t ++ attr_events id s attrb).
Proof.
  unfold attr_events, attr_call, pop_attr_update.
  assert (Hid : forall m, m = s_attribute s -> set_s_attribute m s = s)
    by (intros m ->; by destruct s).
  destruct (s_attribute s !! attrb) as [a|] eqn:Ha.
  - destruct (a_update a) eqn:Hu; simpl.
    + destruct (a_map a) as [map|] eqn:Hm.
      * destruct (is_empty_str (a_value a)) eqn:He.
        -- run_monad. rewrite app_nil_r, Hid; [done|].
           apply alter_id. intros x Hx. rewrite Ha in Hx. injection Hx as <-.
           unfold attr_after, attr_keeps. by rewrite Hu, Hm, He.
        -- assert (Halt : alter (set_a_update false) attrb (s_attribute s)
                          = alter attr_after attrb (s_attribute s)).
           { apply alter_ext. intros x Hx. rewrite Ha in Hx. injection Hx as <-.
             unfold attr_after, attr_keeps. by rewrite Hu, Hm, He. }
           destruct (String.eqb attrb "color"), (String.eqb attrb "mask"),
             (String.eqb attrb "transp"), (String.eqb attrb "shine");
             run_monad; simpl; rewrite ?app_nil_r, Halt; done.
      * assert (Halt : alter (set_a_update false) attrb (s_attribute s)
                       = alter attr_after attrb (s_attribute s)).
        { apply alter_ext. intros x Hx. rewrite Ha in Hx. injection Hx as <-.
          unfold attr_after, attr_keeps. by rewrite Hu, Hm. }
        destruct (String.eqb attrb "mask"), (String.eqb attrb "transp");
          run_monad; simpl; rewrite ?app_nil_r, Halt; done.
    + run_monad. rewrite app_nil_r, Hid; [done|].
      apply alter_id. intros x Hx. rewrite Ha in Hx. injection Hx as <-.
      unfold attr_after. by rewrite Hu.
  - run_monad. rewrite app_nil_r, Hid; [done|].
    apply alter_id. intros x Hx. by rewrite Ha in Hx.
Qed.

Lemma attr_loop (id : Z) (body : string -> M surface_data unit) :
  (forall attrb s t,
     body attrb s t
     = (Ok tt, set_s_attribute (alter attr_after attrb (s_attribute s)) s,
        t ++ attr_events id s attrb)) ->
  forall l s t, NoDup l ->
    for_each l body s t
    = (Ok tt,
       set_s_attribute (foldl (fun m attrb => alter attr_after attrb m) (s_attribute s) l) s,
       t ++ concat (map (attr_events id s) l)).
Proof.
  intros Hbody l. induction l as [|x l IH]; intros s t Hnd; simpl.
  - rewrite app_nil_r. by destruct s.
  - inversion Hnd as [|? ? Hx Hnd']; subst.
    rewrite bind_unfold, Hbody, IH by done.
    f_equal. rewrite <- app_assoc. do 3 f_equal.
    apply map_ext_in. intros y Hy%list_elem_of_In. unfold attr_events. simpl.
    rewrite lookup_alter_ne; [done|]. by intros ->.
Qed.

(** A push of the surface properties never raises; it leaves the record
    [surface_after] and emits [surface_events]. *)
Lemma UpdateSurfaceProperties_run (id : Z) (s : surface_data) (t : list Event) :
  UpdateSurfaceProperties id s t = (Ok tt, surface_after s, t ++ surface_events id s).
Proof.
  unfold UpdateSurfaceProperties. rewrite bind_unfold.
  erewrite (attr_loop id); cycle 1.
  { intros attrb s0 t0. exact (attr_step id attrb s0 t0). }
  { unfold attr_names. repeat constructor; rewrite ?elem_of_cons, ?elem_of_nil; intuition congruence. }
  unfold surface_after, surface_events, draw_events, draw_after, position_events, attr_names.
  set (m' := foldl _ _ _). set (ev := concat _).
  destruct s as [m [all [ru rc rf] [mu mv md] [wu wv]] [pu px py pz] o].
  run_monad. cbn -[Z.ltb].
  destruct ru, mu, wu, pu, all; cbn -[Z.ltb];
    try (destruct (mv <? 0)); cbn -[Z.ltb];
    rewrite <- ?app_assoc; simpl; rewrite ?app_nil_r; reflexivity.
Qed.

Lemma attrs_after_lookup (m : gmap string attr) (k : string) :
  foldl (fun m attrb => alter attr_after attrb m) m attr_names !! k
  = if is_attr_name k then attr_after <$> m !! k else m !! k.
Proof.
  unfold attr_names, is_attr_name. simpl. rewrite !lookup_alter.
  destruct (String.eqb_spec k "color") as [->|?]; [done|].
  destruct (String.eqb_spec k "mask") as [->|?]; [done|].
  destruct (String.eqb_spec k "transp") as [->|?]; [done|].
  destruct (String.eqb_spec k "shine") as [->|?]; [done|].
  simpl. repeat case_decide; congruence.
Qed.

Lemma attr_after_idemp (a : attr) : attr_after (attr_after a) = attr_after a.
Proof.
  unfold attr_after, attr_keeps. destruct a as [[map|] v [|]]; simpl; try done.
  destruct (is_empty_str v) eqn:He; simpl; by rewrite ?He.
Qed.

Lemma surface_after_idemp (s : surface_data) : surface_after (surface_after s) = surface_after s.
Proof.
  unfold surface_after. cbn [s_attribute s_draw s_position s_object]. f_equal.
  - apply map_eq. intros k. rewrite !attrs_after_lookup.
    destruct (is_attr_name k); [|done].
    destruct (s_attribute s !! k); simpl; [|done]. by rewrite attr_after_idemp.
Qed.

Lemma attr_events_after (id : Z) (s : surface_data) (k : string) :
  attr_events id (surface_after s) k = [].
Proof.
  unfold attr_events, surface_after. cbn [s_attribute]. rewrite attrs_after_lookup.
  destruct (is_attr_name k) eqn:Hk.
  - destruct (s_attribute s !! k) as [a|]; simpl; [|done].
    unfold attr_after, attr_keeps, attr_call.
    destruct a as [[map|] v [|]]; simpl; try done.
    destruct (is_empty_str v) eqn:He; simpl; [|done]. by rewrite He.
  - destruct (s_attribute s !! k) as [a|]; [|done].
    destruct (a_update a); [|done]. unfold attr_call, is_attr_name in *.
    destruct (String.eqb k "color"), (String.eqb k "mask"), (String.eqb k "transp"),
      (String.eqb k "shine"); try discriminate;
      by destruct (a_map a), (is_empty_str (a_value a)).
Qed.

Lemma surface_events_after (id : Z) (s : surface_data) :
  surface_events id (surface_after s) = [].
Proof.
  unfold surface_events, attr_names. simpl. by rewrite !attr_events_after.
Qed.

Lemma pushed_app (l1 l2 : list Event) (g : string) :
  pushed (l1 ++ l2) g = pushed l1 g || pushed l2 g.
Proof. apply existsb_app. Qed.

(** The push of one record through [UpdateMapObjProperties]. *)
Lemma UpdateMapObjProperties_surface (w : World) (d : nviz_data) (s : surface_data)
    (o : object_rec) (t : list Event) :
  nv_surface d = Some (Dict s) -> s_object s = Some o ->
  UpdateMapObjProperties w d t
  = (Ok tt,
     set_nv_surface (Some (Dict (set_s_object (Some (set_o_init true o)) (surface_after s)))) d,
     t ++ surface_events (o_id o) s).
Proof.
  intros Hs Ho. unfold UpdateMapObjProperties. run_monad.
  rewrite Hs. simpl. rewrite Hs. simpl. rewrite Ho.
  rewrite UpdateSurfaceProperties_run. simpl. by rewrite Ho.
Qed.

Ltac split_elem H :=
  repeat (apply elem_of_cons in H as [->|H]); [..|by apply elem_of_nil in H].

Lemma pushed_attr_events (id : Z) (s : surface_data) (k g : string) :
  k ∈ attr_names -> g ∈ surface_groups ->
  pushed (attr_events id s k) g
  = String.eqb g k && dirty s g && negb (passed_over s g).
Proof.
  intros Hk Hg. unfold attr_names, surface_groups in *. simpl in Hg.
  split_elem Hk; split_elem Hg;
    unfold pushed, attr_events, dirty, passed_over, is_attr_name, attr_call; simpl;
    try (match goal with
         | |- context [s_attribute s !! ?k] =>
             destruct (s_attribute s !! k) as [[[map|] v [|]]|]
         end; simpl; try destruct (is_empty_str v); reflexivity).
Qed.

Lemma pushed_draw_events (id : Z) (s : surface_data) (g : string) :
  g ∈ surface_groups ->
  pushed (draw_events id (s_draw s)) g
  = (String.eqb g "resolution" || String.eqb g "mode" || String.eqb g "wire-color")
    && dirty s g.
Proof.
  intros Hg. unfold surface_groups in *. simpl in Hg.
  destruct s as [m [all [ru rc rf] [mu mv md] [wu wv]] p o].
  split_elem Hg; unfold pushed, draw_events, dirty; simpl;
    destruct ru, mu, wu; reflexivity.
Qed.

Lemma pushed_position_events (id : Z) (s : surface_data) (g : string) :
  g ∈ surface_groups ->
  pushed (position_events id (s_position s)) g = String.eqb g "position" && dirty s g.
Proof.
  intros Hg. unfold surface_groups in *. simpl in Hg.
  split_elem Hg; unfold pushed, position_events, dirty; simpl;
    destruct (p_update (s_position s)); reflexivity.
Qed.

Lemma pushed_surface_events (id : Z) (s : surface_data) (g : string) :
  g ∈ surface_groups ->
  pushed (surface_events id s) g = dirty s g && negb (passed_over s g).
Proof.
  intros Hg. unfold surface_events, attr_names. simpl concat.
  rewrite !pushed_app, pushed_draw_events, pushed_position_events by done.
  rewrite !pushed_attr_events by (done || (unfold attr_names; repeat constructor)).
  unfold surface_groups in *. simpl in Hg.
  split_elem Hg; unfold passed_over, is_attr_name; simpl;
    rewrite ?orb_false_r, ?andb_true_r, ?andb_false_r; try reflexivity;
    destruct (dirty s _); reflexivity.
Qed.

Lemma dirty_surface_after (s : surface_data) (g : string) :
  g ∈ surface_groups ->
  dirty (surface_after s) g = dirty s g && kept s g.
Proof.
  intros Hg. unfold surface_groups in *. simpl in Hg.
  split_elem Hg; unfold dirty, kept, is_attr_name; simpl String.eqb; cbv iota;
    unfold surface_after; cbn [s_attribute s_draw s_position draw_after d_resolution d_mode
                                 d_wire_color set_r_update r_update m_update
                                 set_w_update w_update set_p_update p_update];
    rewrite ?attrs_after_lookup, ?andb_false_r; try reflexivity;
    simpl; destruct (s_attribute s !! _) as [[[map|] v [|]]|]; simpl;
    unfold attr_after, attr_keeps; simpl; try destruct (is_empty_str v); reflexivity.
Qed.

(** C1, as the code has it: through [UpdateMapObjProperties], a group of
    a surface record is pushed only if it is dirty, and a dirty group is
    pushed unless it is passed over (an unset colour or shininess, or an
    empty string for value); after the pass only the attributes with an
    empty string are still dirty, and a second pass on the record does
    not touch the engine. *)
Theorem surface_push_dirty_only (w : World) (d : nviz_data) (s : surface_data)
    (o : object_rec) (t : list Event) :
  nv_surface d = Some (Dict s) -> s_object s = Some o ->
  exists d' s' evs,
    UpdateMapObjProperties w d t = (Ok tt, d', t ++ evs) /\
    nv_surface d' = Some (Dict s') /\
    (forall g, g ∈ surface_groups ->
       pushed evs g = dirty s g && negb (passed_over s g)) /\
    (forall g, g ∈ surface_groups -> dirty s' g = dirty s g && kept s g) /\
    (forall t', UpdateMapObjProperties w d' t' = (Ok tt, d', t')).
Proof.
  intros Hs Ho.
  eexists _, (set_s_object (Some (set_o_init true o)) (surface_after s)), _.
  split; [by apply UpdateMapObjProperties_surface|].
  split; [done|]. split; [|split].
  - intros g Hg. by apply pushed_surface_events.
  - intros g Hg. rewrite <- dirty_surface_after by done. by unfold dirty.
  - intros t'. erewrite UpdateMapObjProperties_surface; [|done|done].
    assert (Hafter : surface_after (set_s_object (Some (set_o_init true o)) (surface_after s))
                     = set_s_object (Some (set_o_init true o)) (surface_after s)).
    { transitivity (set_s_object (Some (set_o_init true o)) (surface_after (surface_after s)));
        [done|]. by rewrite surface_after_idemp. }
    assert (Hev : surface_events (o_id (set_o_init true o))
                    (set_s_object (Some (set_o_init true o)) (surface_after s)) = []).
    { transitivity (surface_events (o_id o) (surface_after s)); [done|].
      apply surface_events_after. }
    rewrite Hafter, Hev, app_nil_r. simpl. repeat f_equal.
Qed.

Lemma attr_events_no_target (id : Z) (s : surface_data) (k : string) (e : Event) :
  e ∈ attr_events id s k -> draw_target e = None.
Proof.
  unfold attr_events, attr_call.
  destruct (s_attribute s !! k) as [[[map|] v [|]]|]; simpl;
    try destruct (is_empty_str v);
    destruct (String.eqb k "color"), (String.eqb k "mask"), (String.eqb k "transp"),
      (String.eqb k "shine");
    rewrite ?elem_of_cons, ?elem_of_nil; intuition (subst; done).
Qed.

(** C5: with the draw group flagged apply-to-all, the resolution, style
    and wire colour calls of the push are aimed at the object -1, each
    dirty one of the three is pushed, and the flag is false afterwards,
    whatever the update flags were. *)
Theorem apply_to_all_targets_wildcard (id : Z) (s : surface_data) (t : list Event) :
  d_all (s_draw s) = true ->
  exists s' evs,
    UpdateSurfaceProperties id s t = (Ok tt, s', t ++ evs) /\
    d_all (s_draw s') = false /\
    (forall e i, e ∈ evs -> draw_target e = Some i -> i = -1) /\
    (forall g, g ∈ ["resolution"; "mode"; "wire-color"]%string ->
       pushed evs g = dirty s g).
Proof.
  intros Hall. exists (surface_after s), (surface_events id s).
  split; [apply UpdateSurfaceProperties_run|]. split; [done|]. split.
  - intros e i He Ht. unfold surface_events in He.
    rewrite !elem_of_app in He. destruct He as [He|[He|He]].
    + apply list_elem_of_In, in_concat in He as (l & Hl & He).
      apply in_map_iff in Hl as (k & <- & _).
      apply list_elem_of_In, attr_events_no_target in He. congruence.
    + unfold draw_events in He. rewrite Hall in He.
      destruct (r_update _), (m_update _), (w_update _); simpl in He;
        rewrite ?elem_of_cons, ?elem_of_nil in He;
        intuition (subst; simpl in Ht; congruence).
    + unfold position_events in He. destruct (p_update _);
        rewrite ?elem_of_cons, ?elem_of_nil in He; intuition (subst; done).
  - intros g Hg. rewrite pushed_surface_events
      by (unfold surface_groups, attr_names; simpl; rewrite !elem_of_cons in *; tauto).
    split_elem Hg; unfold passed_over, is_attr_name; simpl; by rewrite andb_true_r.
Qed.

(** ** Unloading *)

Lemma remove_first_elem `{EqDecision A} (x : A) (l : list A) :
  x ∈ l -> exists l', Py.remove_first x l = Some l' /\ length l = S (length l').
Proof.
  induction l as [|y l IH]; intros Hx; [by apply elem_of_nil in Hx|].
  simpl. destruct (decide (x = y)) as [->|Hne]; [by eexists|].
  apply elem_of_cons in Hx as [->|Hx]; [done|].
  destruct (IH Hx) as (l' & -> & Hlen). eexists. split; [done|]. simpl. by rewrite Hlen.
Qed.

Lemma tree_set_nviz (i : item) (d : option nviz_data) (w : World) :
  tree (set_nviz i d w) i = set_it_nviz d (tree w i).
Proof. unfold set_nviz. simpl. apply fn_lookup_insert. Qed.

Lemma GetLayerNames_layers (type : string) (w : World) :
  String.eqb type "constant" = false -> exists names, GetLayerNames type w = Ok names.
Proof. intros Ht. unfold GetLayerNames. rewrite Ht. by eexists. Qed.

Lemma unloadRaster_run (w : World) (i : item) (o : object_rec) (t : list Event) :
  ml_type (it_maplayer (tree w i)) = "raster"%string
  \/ ml_type (it_maplayer (tree w i)) = "3d-raster"%string ->
  raster_object w i = Some o ->
  i ∈ layers w ->
  exists w' gui,
    _unloadRaster i w t
    = (Ok tt, w',
       t ++ [Call (unload_call w i (o_id o));
             unload_log w i (display_ret t (unload_call w i (o_id o)))] ++ gui) /\
    forallb (fun e => negb (is_unload e)) gui = true /\
    raster_object w' i = None /\
    Py.remove_first i (layers w) = Some (layers w').
Proof.
  intros Htype Hobj Hin.
  destruct (remove_first_elem i (layers w) Hin) as (ls & Hls & _).
  unfold raster_object in Hobj. unfold _unloadRaster, unload_call, unload_log, update_ref.
  destruct (it_nviz (tree w i)) as [data|] eqn:Hdata; [|done]. simpl in Hobj.
  destruct Htype as [Ht|Ht]; rewrite Ht in *; simpl in Hobj |- *.
  - destruct (nv_surface data) as [[|s]|] eqn:Hs; try done. simpl in Hobj.
    run_monad. simpl. rewrite !Ht. simpl. rewrite Hdata. simpl. rewrite Hs. simpl.
    rewrite Hobj. simpl.
    destruct (display_ret t (Display.UnloadSurface (o_id o)) =? 0); simpl;
      rewrite Hdata; simpl; rewrite Hs; simpl; rewrite Hls; simpl;
      (destruct (has_nviz w); simpl; [eexists _, [_] | eexists _, []]);
      (split; [by rewrite <- ?app_assoc, ?app_nil_r|]); (split; [done|]);
      unfold raster_object; simpl; rewrite fn_lookup_insert; simpl; rewrite Ht; done.
  - destruct (nv_volume data) as [v|] eqn:Hv; try done. simpl in Hobj.
    run_monad. simpl. rewrite !Ht. simpl. rewrite Hdata. simpl. rewrite Hv. simpl.
    rewrite Hobj. simpl.
    destruct (display_ret t (Display.UnloadVolume (o_id o)) =? 0); simpl;
      rewrite Hdata; simpl; rewrite Hls; simpl;
      rewrite andb_false_r; simpl; eexists _, [];
      (split; [by rewrite <- ?app_assoc, ?app_nil_r|]); (split; [done|]);
      unfold raster_object; simpl; rewrite fn_lookup_insert; simpl; rewrite Ht, Hv; done.
Qed.

Lemma unload_vecType_run (w : World) (i : item) (layer : MapLayer) (vecType : string)
    (data : nviz_data) (v : vector_data) (t : list Event) :
  it_nviz (tree w i) = Some data -> nv_vector data = Some v ->
  exists w' evs data' v',
    unload_vecType i layer vecType w t = (Ok tt, w', t ++ evs) /\
    vector_object w' i vecType = None /\
    (forall vt, String.eqb vt "lines" <> String.eqb vecType "lines" ->
                vector_object w' i vt = vector_object w i vt) /\
    layers w' = layers w /\
    it_nviz (tree w' i) = Some data' /\ nv_vector data' = Some v' /\
    length (filter (fun e => is_unload e = true) evs)
    = match vector_object w i vecType with Some _ => 1%nat | None => 0%nat end.
Proof.
  intros Hdata Hv. unfold unload_vecType, update_ref, vector_object.
  run_monad. simpl. rewrite Hdata. simpl. rewrite Hv. simpl.
  destruct (String.eqb vecType "lines") eqn:Hvt.
  - destruct (v_lines v) as [|l] eqn:Hl; simpl; [|destruct (vl_object l) as [o|] eqn:Ho; simpl].
    + eexists w, [], _, _. rewrite app_nil_r, Hdata. simpl. rewrite Hv. simpl. rewrite Hl.
      repeat split; try done.
    + destruct (display_ret t (Display.UnloadVector (o_id o) false) =? 0); simpl;
        rewrite ?Hdata; simpl; eexists _, [_; _], _, _;
        (split; [by rewrite <- ?app_assoc|]);
        unfold set_nviz; cbn [tree set_tree]; rewrite !fn_lookup_insert; simpl;
        rewrite Hv; simpl; rewrite Hl; simpl;
        (split; [done|]);
        (split; [intros vt Hvt'; destruct (String.eqb vt "lines"); done|]);
        done.
    + eexists w, [], _, _. rewrite app_nil_r, Hdata. simpl. rewrite Hv. simpl. rewrite Hl.
      simpl. rewrite Ho. repeat split; try done.
  - destruct (v_points v) as [|p] eqn:Hp; simpl; [|destruct (vp_object p) as [o|] eqn:Ho; simpl].
    + eexists w, [], _, _. rewrite app_nil_r, Hdata. simpl. rewrite Hv. simpl. rewrite Hp.
      repeat split; try done.
    + destruct (display_ret t (Display.UnloadVector (o_id o) true) =? 0); simpl;
        rewrite ?Hdata; simpl; eexists _, [_; _], _, _;
        (split; [by rewrite <- ?app_assoc|]);
        unfold set_nviz; cbn [tree set_tree]; rewrite !fn_lookup_insert; simpl;
        rewrite Hv; simpl; rewrite Hp; simpl;
        (split; [done|]);
        (split; [intros vt Hvt'; destruct (String.eqb vt "lines"); done|]);
        done.
    + eexists w, [], _, _. rewrite app_nil_r, Hdata. simpl. rewrite Hv. simpl. rewrite Hp.
      simpl. rewrite Ho. repeat split; try done.
Qed.

Lemma UnloadVector_run (w : World) (i : item) (points : option bool)
    (data : nviz_data) (v : vector_data) (t : list Event) :
  it_nviz (tree w i) = Some data -> nv_vector data = Some v ->
  exists w' evs,
    UnloadVector i points w t = (Ok tt, w', t ++ evs) /\
    (forall vecType, vecType ∈ vecTypes_of points ["points"; "lines"]%string ->
                     vector_object w' i vecType = None) /\
    layers w' = layers w /\
    length (filter (fun e => is_unload e = true) evs)
    = length (filter (fun vt => is_Some (vector_object w i vt))
                (vecTypes_of points ["points"; "lines"]%string)).
Proof.
  intros Hdata Hv. unfold UnloadVector.
  rewrite bind_unfold. unfold get at 1. cbv zeta.
  rewrite bind_unfold. unfold require at 1. rewrite Hdata. unfold mret at 1, M_ret at 1.
  rewrite bind_unfold. unfold require at 1. rewrite Hv. unfold mret at 1, M_ret at 1.
  set (layer := it_maplayer (tree w i)).
  assert (Hone : forall vt, exists w' evs,
             for_each [vt] (unload_vecType i layer) w t = (Ok tt, w', t ++ evs) /\
             vector_object w' i vt = None /\ layers w' = layers w /\
             length (filter (fun e => is_unload e = true) evs)
             = length (filter (fun vt => is_Some (vector_object w i vt)) [vt])).
  { intros vt.
    destruct (unload_vecType_run w i layer vt data v t Hdata Hv)
      as (w' & evs & _ & _ & Hrun & Hnone & _ & Hl & _ & _ & Hcount).
    exists w', evs. simpl. rewrite bind_unfold, Hrun. split; [done|].
    split; [done|]. split; [done|]. rewrite Hcount.
    rewrite filter_cons, filter_nil.
    destruct (vector_object w i vt); simpl; try done.
    all: case_decide as Hd; try done.
    all: first [by (exfalso; apply Hd; eauto) | by destruct Hd]. }
  destruct points as [[|]|]; simpl vecTypes_of.
  - destruct (Hone "points"%string) as (w' & evs & Hrun & Hnone & Hl & Hcount).
    exists w', evs. repeat split; try done. by intros vt ->%list_elem_of_singleton.
  - destruct (Hone "lines"%string) as (w' & evs & Hrun & Hnone & Hl & Hcount).
    exists w', evs. repeat split; try done. by intros vt ->%list_elem_of_singleton.
  - destruct (unload_vecType_run w i layer "points" data v t Hdata Hv)
      as (w1 & evs1 & data1 & v1 & Hrun1 & Hnone1 & Hother1 & Hl1 & Hdata1 & Hv1 & Hcount1).
    destruct (unload_vecType_run w1 i layer "lines" data1 v1 (t ++ evs1) Hdata1 Hv1)
      as (w2 & evs2 & data2 & v2 & Hrun2 & Hnone2 & Hother2 & Hl2 & _ & _ & Hcount2).
    exists w2, (evs1 ++ evs2). simpl for_each.
    rewrite bind_unfold, Hrun1, bind_unfold, Hrun2. unfold mret, M_ret.
    split; [by rewrite app_assoc|]. split; [|split].
    + intros vt Hvt. apply elem_of_cons in Hvt as [->|Hvt].
      * rewrite Hother2; done.
      * by apply list_elem_of_singleton in Hvt as ->.
    + congruence.
    + rewrite list.filter_app, List.length_app, Hcount1, Hcount2, (Hother1 "lines"%string) by done.
      rewrite !filter_cons, filter_nil.
      destruct (vector_object w i "points"), (vector_object w i "lines"); simpl;
        repeat (case_decide as Hd; try done;
                try (by (exfalso; apply Hd; eauto)); try (by destruct Hd));
        done.
Qed.


(** ** Loading *)

Lemma SetMapObjProperties_no_id (w : World) (i : item) (id : Z) (nvizType : string)
    (t : list Event) :
  id <= 0 ->
  (ml_type (it_maplayer (tree w i)) = "raster"%string /\ nvizType = "surface"%string)
  \/ (ml_type (it_maplayer (tree w i)) = "3d-raster"%string /\ nvizType = "volume"%string) ->
  defaults_without_object ->
  raster_object w i = None ->
  exists r w' evs,
    SetMapObjProperties (TreeItem i) id nvizType w t = (r, w', t ++ evs) /\
    layers w' = layers w /\
    it_maplayer (tree w' i) = it_maplayer (tree w i) /\
    has_nviz w' = has_nviz w /\ selected w' = selected w /\
    raster_object w' i = None /\
    (it_nviz (tree w i) = None -> r = Ok tt) /\
    forallb (fun e => negb (is_load e)) evs = true.
Proof.
  intros Hid Htype (Hds & Hdv & _) Hobj.
  assert (Hid' : (0 <? id) = false) by lia.
  unfold raster_object in Hobj.
  unfold SetMapObjProperties, update_ref, ref_data. rewrite Hid'.
  destruct Htype as [[Ht ->]|[Ht ->]]; rewrite Ht in Hobj.
  - rewrite bind_unfold. unfold get at 1. rewrite !Ht.
    unfold complete_data, set_updates, set_raster_object.
    run_monad. simpl.
    remember SetSurfaceDefaultProp as ds eqn:Hdseq. clear Hdseq.
    destruct ds as [da db dc dobj]. simpl in Hds. subst dobj.
    destruct (it_nviz (tree w i)) as [[sf cn vo ve]|] eqn:Hdata.
    + destruct sf as [[|[a b c [o|]]]|], cn, vo, ve; simpl in *; try discriminate Hobj;
        unfold set_nviz; simpl;
        repeat (first [rewrite Hdata | rewrite fn_lookup_insert | progress simpl]);
        (first [ eexists _, _, [_]; split; [reflexivity|]
               | eexists _, _, []; split; [rewrite app_nil_r; reflexivity|] ]);
        unfold raster_object; simpl;
        repeat (first [rewrite Hdata | rewrite fn_lookup_insert | rewrite Ht
                      | progress simpl]);
        repeat split; done.
    + unfold set_nviz; simpl;
        repeat (first [rewrite Hdata | rewrite fn_lookup_insert | progress simpl]);
        eexists _, _, []; (split; [rewrite app_nil_r; reflexivity|]);
        unfold raster_object; simpl;
        repeat (first [rewrite Hdata | rewrite fn_lookup_insert | rewrite Ht
                      | progress simpl]);
        repeat split; done.
  - rewrite bind_unfold. unfold get at 1. rewrite !Ht.
    unfold complete_data, set_updates, set_raster_object.
    run_monad. simpl.
    destruct (it_nviz (tree w i)) as [[sf cn vo ve]|] eqn:Hdata.
    + destruct sf as [[|[a b c [o|]]]|], cn, vo as [[a' b' c' [o'|]]|], ve; simpl in *;
        try discriminate Hobj;
        unfold set_nviz; simpl;
        repeat (first [rewrite Hdata | rewrite fn_lookup_insert | progress simpl]);
        (first [ eexists _, _, [_]; split; [reflexivity|]
               | eexists _, _, []; split; [rewrite app_nil_r; reflexivity|] ]);
        unfold raster_object; simpl;
        repeat (first [rewrite Hdata | rewrite fn_lookup_insert | rewrite Ht
                      | rewrite Hdv | progress simpl]);
        repeat split; done.
    + unfold set_nviz; simpl;
        repeat (first [rewrite Hdata | rewrite fn_lookup_insert | progress simpl]);
        eexists _, _, []; (split; [rewrite app_nil_r; reflexivity|]);
        unfold raster_object; simpl;
        repeat (first [rewrite Hdata | rewrite fn_lookup_insert | rewrite Ht
                      | rewrite Hdv | progress simpl]);
        repeat split; done.
Qed.

Lemma loadRaster_failed (w : World) (i : item) (t : list Event) :
  ml_type (it_maplayer (tree w i)) = "raster"%string
  \/ ml_type (it_maplayer (tree w i)) = "3d-raster"%string ->
  display_ret t (load_call w i) < 0 ->
  defaults_without_object ->
  raster_object w i = None ->
  exists r w' msg evs,
    _loadRaster i w t
    = (r, w', t ++ [Call (load_call w i); WriteError msg] ++ evs) /\
    layers w' = layers w ++ [i] /\
    raster_object w' i = None /\
    (it_nviz (tree w i) = None -> r = Ok (Some (display_ret t (load_call w i)))) /\
    forallb (fun e => negb (is_load e)) evs = true.
Proof.
  intros Htype Hret Hdef Hobj. unfold load_call in *.
  assert (Hid : (display_ret t (load_call w i) <? 0) = true)
    by (unfold load_call; lia).
  unfold load_call in Hid.
  unfold _loadRaster. rewrite bind_unfold. unfold get at 1. cbv zeta.
  destruct Htype as [Ht|Ht]; rewrite Ht in *; simpl (String.eqb _ _) in *;
    cbv iota in *; cbn [orb negb]; cbv iota.
  - rewrite bind_unfold. rewrite bind_unfold. unfold call at 1.
    unfold mret at 1, M_ret at 1. rewrite bind_unfold. rewrite Hid. unfold emit at 1.
    rewrite bind_unfold. unfold modify at 1. rewrite bind_unfold.
    set (id := display_ret t (Display.LoadSurface (ml_name (it_maplayer (tree w i))))) in *.
    set (w1 := set_layers (layers w ++ [i]) w).
    set (t1 := (t ++ [Call _]) ++ [_]).
    destruct (SetMapObjProperties_no_id w1 i id "surface" t1) as
      (r & w' & evs & Hsm & Hl & Hml & Hnv & Hsel & Hobj' & Hok & Hload);
      [lia | left; by rewrite <- Ht | done | done |].
    rewrite Hsm. destruct r as [[]|e].
    + unfold GetLayerNames. run_monad. cbn [String.eqb Ascii.eqb Bool.eqb].
      destruct (has_nviz w' && bool_decide (selected w' = Some i)); cbv iota;
        [eexists _, _, _, (evs ++ [_; _]) | eexists _, _, _, (evs ++ [_])];
        (split; [subst t1; rewrite <- !app_assoc; reflexivity|]);
        (split; [by rewrite Hl|]); (split; [done|]); (split; [done|]);
        by rewrite forallb_app, Hload.
    + eexists _, _, _, evs.
      split; [subst t1; rewrite <- !app_assoc; reflexivity|].
      split; [by rewrite Hl|]. split; [done|]. split; [|done].
      intros Hnone. by specialize (Hok Hnone).
  - rewrite bind_unfold. rewrite bind_unfold. unfold call at 1.
    unfold mret at 1, M_ret at 1. rewrite bind_unfold. rewrite Hid. unfold emit at 1.
    rewrite bind_unfold. unfold modify at 1. rewrite bind_unfold.
    set (id := display_ret t (Display.LoadVolume (ml_name (it_maplayer (tree w i))))) in *.
    set (w1 := set_layers (layers w ++ [i]) w).
    set (t1 := (t ++ [Call _]) ++ [_]).
    destruct (SetMapObjProperties_no_id w1 i id "volume" t1) as
      (r & w' & evs & Hsm & Hl & Hml & Hnv & Hsel & Hobj' & Hok & Hload);
      [lia | right; by rewrite <- Ht | done | done |].
    rewrite Hsm. destruct r as [[]|e].
    + run_monad.
      destruct (has_nviz w' && bool_decide (selected w' = Some i)); cbv iota;
        eexists _, _, _, (evs ++ [_]);
        (split; [subst t1; rewrite <- !app_assoc; reflexivity|]);
        (split; [by rewrite Hl|]); (split; [done|]); (split; [done|]);
        by rewrite forallb_app, Hload.
    + eexists _, _, _, evs.
      split; [subst t1; rewrite <- !app_assoc; reflexivity|].
      split; [by rewrite Hl|]. split; [done|]. split; [|done].
      intros Hnone. by specialize (Hok Hnone).
Qed.

(** ** Invariants of the state *)

Section Preserves.
Context {S : Type} (P : S -> Prop).

Lemma preserves_ret {A} (a : A) : preserves P (mret a : M S A).
Proof. by intros s t. Qed.

Lemma preserves_skip : preserves P (skip : M S unit).
Proof. by intros s t. Qed.

Lemma preserves_raise {A} (e : exn) : preserves P (raise e : M S A).
Proof. by intros s t. Qed.

Lemma preserves_get : preserves P (get : M S S).
Proof. by intros s t. Qed.

Lemma preserves_read {A} (f : S -> outcome A) : preserves P (read f).
Proof. by intros s t. Qed.

Lemma preserves_lift {A} (o : outcome A) : preserves P (lift_outcome o : M S A).
Proof. by intros s t. Qed.

Lemma preserves_emit (e : Event) : preserves P (emit e : M S unit).
Proof. by intros s t. Qed.

Lemma preserves_call (c : engine_call) : preserves P (call c : M S Z).
Proof. by intros s t. Qed.

Lemma preserves_require {A} (e : exn) (o : option A) : preserves P (require e o : M S A).
Proof. intros s t. by destruct o. Qed.

Lemma preserves_modify (f : S -> S) :
  (forall s, P s -> P (f s)) -> preserves P (modify f).
Proof. intros Hf s t. apply Hf. Qed.

Lemma preserves_bind {A B} (m : M S A) (f : A -> M S B) :
  preserves P m -> (forall a, preserves P (f a)) -> preserves P (m ≫= f).
Proof.
  intros Hm Hf s t Hs. rewrite bind_unfold. specialize (Hm s t Hs).
  destruct (m s t) as [[[a|e] s'] t']; simpl in *; [by apply Hf|done].
Qed.

Lemma preserves_try {A} (m : M S A) (h : gmessage -> M S A) :
  preserves P m -> (forall g, preserves P (h g)) -> preserves P (try_GException m h).
Proof.
  intros Hm Hh s t Hs. unfold try_GException. specialize (Hm s t Hs).
  destruct (m s t) as [[[a|[]] s'] t']; simpl in *; try done. by apply Hh.
Qed.

Lemma preserves_for_each {A} (l : list A) (body : A -> M S unit) :
  (forall x, preserves P (body x)) -> preserves P (for_each l body).
Proof.
  intros Hbody. induction l as [|x l IH]; simpl; [apply preserves_ret|].
  apply preserves_bind; [apply Hbody|done].
Qed.

(** Two continuations that agree on the states with the invariant agree
    after a computation that keeps it. *)
Lemma bind_ext_preserves {A B} (m : M S A) (f g : A -> M S B) (s : S) (t : list Event) :
  preserves P m -> P s ->
  (forall a s' t', P s' -> f a s' t' = g a s' t') ->
  (m ≫= f) s t = (m ≫= g) s t.
Proof.
  intros Hm Hs Hfg. rewrite !bind_unfold. specialize (Hm s t Hs).
  destruct (m s t) as [[[a|e] s'] t']; simpl in *; [by apply Hfg|done].
Qed.

End Preserves.

Ltac preserves_step :=
  first
    [ apply preserves_bind; [|intros ?]
    | apply preserves_ret | apply preserves_skip | apply preserves_raise
    | apply preserves_get | apply preserves_read | apply preserves_lift
    | apply preserves_emit | apply preserves_call | apply preserves_require
    | apply preserves_try; [|intros ?]
    | match goal with
      | |- preserves _ (if ?b then _ else _) => destruct b
      | |- preserves _ (match ?x with _ => _ end) => destruct x
      end ].

(** The layers loaded so far stay in [self.layers] while properties are
    set and layers are loaded. *)
Lemma SetMapObjProperties_keeps_layers (i : item) (r : data_ref) (id : Z) (nvizType : string) :
  preserves (fun w => i ∈ layers w) (SetMapObjProperties r id nvizType).
Proof.
  unfold SetMapObjProperties, update_ref.
  repeat first [ preserves_step
               | apply preserves_modify; intros w Hw; destruct r; exact Hw ].
Qed.

Lemma loadRaster_keeps_layers (i j : item) :
  preserves (fun w => i ∈ layers w) (_loadRaster j).
Proof.
  unfold _loadRaster.
  repeat first [ apply SetMapObjProperties_keeps_layers
               | preserves_step
               | apply preserves_modify; intros w Hw; simpl;
                 apply elem_of_app; by left ].
Qed.

Lemma LoadVector_keeps_layers (i j : item) (points : option bool) :
  preserves (fun w => i ∈ layers w) (LoadVector j points).
Proof.
  unfold LoadVector.
  apply preserves_bind; [apply preserves_get|intros w0].
  destruct (negb _); [apply preserves_ret|].
  destruct points as [[|]|]; simpl;
    repeat first [ apply SetMapObjProperties_keeps_layers
                 | preserves_step
                 | apply preserves_modify; intros w Hw; simpl;
                   apply elem_of_app; by left ].
Qed.

(** A layer that is in [self.layers] is passed over by every load pass:
    the pass runs as if the layer were not in the list of checked items. *)
Lemma load_items_skips_loaded (i : item) (items : list item) :
  forall (w : World) (t : list Event),
    i ∈ layers w ->
    load_items items w t = load_items (filter (fun j => j <> i) items) w t.
Proof.
  induction items as [|j items IH]; intros w t Hi; [done|].
  rewrite filter_cons. destruct (decide (j <> i)) as [Hne|Heq].
  - cbn [load_items]. rewrite !(bind_unfold get). unfold get.
    destruct (bool_decide (j ∈ layers w)); [by apply IH|].
    destruct (Py.contains _ _); [done|].
    apply (bind_ext_preserves (fun w => i ∈ layers w)); [|done|].
    + apply preserves_try; [|intros ?; apply preserves_raise].
      destruct (VectorInfo _) as [npoints nlines].
      repeat first [ apply loadRaster_keeps_layers | apply LoadVector_keeps_layers
                   | preserves_step ].
    + intros [] w' t' Hw'. rewrite !(bind_unfold (modify _)). unfold modify. by apply IH.
  - assert (j = i) as -> by (destruct (decide (j = i)); [done|by destruct Heq]).
    cbn [load_items]. rewrite (bind_unfold get). unfold get.
    rewrite bool_decide_eq_true_2 by done. by apply IH.
Qed.

Lemma load_items_keeps_layers (i : item) (items : list item) :
  preserves (fun w => i ∈ layers w) (load_items items).
Proof.
  induction items as [|j items IH]; simpl; [apply preserves_skip|].
  apply preserves_bind; [apply preserves_get|intros w0].
  destruct (bool_decide _); [done|]. destruct (Py.contains _ _); [apply preserves_skip|].
  destruct (VectorInfo _) as [npoints nlines].
  repeat first [ apply loadRaster_keeps_layers | apply LoadVector_keeps_layers
               | exact IH
               | preserves_step
               | apply preserves_modify; intros w Hw; exact Hw ].
Qed.

Lemma rev_filter {A} (P : A -> Prop) `{forall x, Decision (P x)} (l : list A) :
  rev (filter P l) = filter P (rev l).
Proof.
  induction l as [|x l IH]; [done|].
  simpl. rewrite list.filter_app, <- IH, filter_cons.
  destruct (decide (P x)); simpl.
  - by rewrite filter_cons, decide_True, filter_nil by done.
  - by rewrite filter_cons, decide_False, filter_nil, app_nil_r by done.
Qed.

(** C10: when the engine answers a negative id, the raster or 3d raster is
    appended to [self.layers] all the same and gets no ['object'] record;
    a layer that is in [self.layers] is passed over by every later load
    pass, which runs as if the layer were not checked, and it is still in
    [self.layers] after the pass. *)
Theorem failed_load_stays_registered :
  (forall (w : World) (i : item) (t : list Event),
     ml_type (it_maplayer (tree w i)) = "raster"%string
     \/ ml_type (it_maplayer (tree w i)) = "3d-raster"%string ->
     display_ret t (load_call w i) < 0 ->
     defaults_without_object ->
     raster_object w i = None ->
     exists r w' msg evs,
       _loadRaster i w t
       = (r, w', t ++ [Call (load_call w i); WriteError msg] ++ evs) /\
       layers w' = layers w ++ [i] /\
       raster_object w' i = None /\
       (it_nviz (tree w i) = None -> r = Ok (Some (display_ret t (load_call w i)))) /\
       forallb (fun e => negb (is_load e)) evs = true) /\
  (forall (i : item) (listOfItems : list item) (w : World) (t : list Event),
     i ∈ layers w ->
     LoadDataLayers listOfItems w t
     = LoadDataLayers (filter (fun j => j <> i) listOfItems) w t /\
     i ∈ layers (LoadDataLayers listOfItems w t).1.2).
Proof.
  split.
  - intros w i t. apply loadRaster_failed.
  - intros i l w t Hi. unfold LoadDataLayers. split.
    + rewrite rev_filter. by apply load_items_skips_loaded.
    + by apply load_items_keeps_layers.
Qed.

(** ** Loading a vector *)

Lemma SetVectorFromCmd_set_nviz (i : item) (x : option nviz_data) (w : World)
    (d : vlines_data * vpoints_data) :
  SetVectorFromCmd i (set_nviz i x w) d = SetVectorFromCmd i w d.
Proof. unfold SetVectorFromCmd. by rewrite tree_set_nviz. Qed.

Lemma SetVectorFromCmd_ok (i : item) (w : World) (d : vlines_data * vpoints_data) :
  it_cmd (tree w i) <> [] ->
  exists v, SetVectorFromCmd i w d = Ok v /\
            vl_object v.1 = vl_object d.1 /\ vp_object v.2 = vp_object d.2.
Proof.
  intros Hcmd. unfold SetVectorFromCmd.
  destruct (it_cmd (tree w i)) as [|c opts]; [done|].
  destruct (negb _); [by eexists|]. destruct (cmd_color opts); by eexists.
Qed.

Lemma maplayer_set_nviz (i j : item) (x : option nviz_data) (w : World) :
  it_maplayer (tree (set_nviz i x w) j) = it_maplayer (tree w j).
Proof.
  unfold set_nviz. simpl. unfold insert, fn_insert.
  by destruct (decide (i = j)) as [->|?].
Qed.

Lemma GetLayerNames_set_nviz (type : string) (i : item) (x : option nviz_data) (w : World) :
  GetLayerNames type (set_nviz i x w) = GetLayerNames type w.
Proof.
  unfold GetLayerNames. destruct (String.eqb type "constant"); [done|].
  f_equal. change (layers (set_nviz i x w)) with (layers w).
  induction (layers w) as [|j l IH]; [done|].
  cbn [omap list_omap]. by rewrite IH, maplayer_set_nviz.
Qed.

Lemma vector_surface_set_nviz (i : item) (x : option nviz_data) (w : World) :
  vector_surface (set_nviz i x w) = vector_surface w.
Proof. unfold vector_surface. by rewrite GetLayerNames_set_nviz. Qed.

Lemma vector_surface_ok (w : World) : exists sr, vector_surface w = Ok sr.
Proof. unfold vector_surface, GetLayerNames. simpl. by eexists. Qed.


Lemma it_nviz_set_nviz (i : item) (x : option nviz_data) (w : World) :
  it_nviz (tree (set_nviz i x w) i) = x.
Proof. by rewrite tree_set_nviz. Qed.

Lemma update_ref_run (i : item) (f : nviz_data -> outcome nviz_data) (w : World)
    (t : list Event) (d d' : nviz_data) :
  it_nviz (tree w i) = Some d -> f d = Ok d' ->
  update_ref (TreeItem i) f w t = (Ok tt, set_nviz i (Some d') w, t).
Proof. intros Hd Hf. unfold update_ref. run_monad. simpl. rewrite Hd. simpl. by rewrite Hf. Qed.

Lemma frame_refl (i : item) (w : World) : frame i w w.
Proof. by repeat split. Qed.

Lemma frame_trans (i : item) (w1 w2 w3 : World) :
  frame i w1 w2 -> frame i w2 w3 -> frame i w1 w3.
Proof.
  intros (H1 & H2 & H3 & H4 & H5) (H1' & H2' & H3' & H4' & H5').
  split; [intros j; by rewrite H1', H1|]. repeat split; congruence.
Qed.

Lemma frame_set_nviz (i : item) (x : option nviz_data) (w : World) :
  frame i w (set_nviz i x w).
Proof.
  split; [intros j; apply maplayer_set_nviz|].
  repeat split; try (by rewrite tree_set_nviz); done.
Qed.

Lemma frame_set_layers (i : item) (l : list item) (w : World) :
  frame i w (set_layers l w).
Proof. by repeat split. Qed.

(** Properties set for a vector that has none yet. *)
Lemma SetMapObjProperties_vector_fresh (w : World) (i : item) (id : Z) (nvizType : string)
    (t : list Event) :
  id <= 0 ->
  not_data (it_nviz (tree w i)) = true ->
  ml_type (it_maplayer (tree w i)) = "vector"%string ->
  it_cmd (tree w i) <> [] ->
  defaults_without_object ->
  exists w' l p,
    SetMapObjProperties (TreeItem i) id nvizType w t = (Ok tt, w', t) /\
    vector_dicts w' i = Some (l, p) /\
    vl_object l = None /\ vp_object p = None /\
    layers w' = layers w /\ frame i w w'.
Proof.
  intros Hid Hnd Ht Hcmd (_ & _ & Hdl & Hdp & _).
  assert (Hid' : (0 <? id) = false) by lia.
  destruct (SetVectorFromCmd_ok i w SetVectorDefaultProp Hcmd) as (v & Hv & Hvl & Hvp).
  destruct (vector_surface_ok w) as (sr & Hsr).
  unfold SetMapObjProperties. rewrite Hid'.
  rewrite (bind_unfold get). unfold get at 1. rewrite !Ht.
  cbn [String.eqb Ascii.eqb Bool.eqb]. cbv iota.
  rewrite bind_unfold. unfold read at 1, ref_data at 1. rewrite bind_unfold, Hnd.
  rewrite bind_unfold. unfold modify at 1.
  rewrite bind_unfold.
  erewrite update_ref_run; [|apply it_nviz_set_nviz|reflexivity].
  rewrite (bind_unfold get). unfold get at 1.
  rewrite bind_unfold.
  erewrite update_ref_run;
    [|apply it_nviz_set_nviz|rewrite !SetVectorFromCmd_set_nviz, Hv; reflexivity].
  rewrite (bind_unfold get). unfold get at 1.
  rewrite bind_unfold.
  erewrite update_ref_run;
    [|apply it_nviz_set_nviz|rewrite !vector_surface_set_nviz, Hsr; reflexivity].
  rewrite (bind_unfold get). unfold get at 1.
  erewrite update_ref_run;
    [|apply it_nviz_set_nviz|rewrite !vector_surface_set_nviz, Hsr; reflexivity].
  unfold skip, mret, M_ret. eexists _, _, _. split; [reflexivity|].
  unfold vector_dicts. rewrite it_nviz_set_nviz. simpl.
  split; [reflexivity|]. split; [simpl in *; congruence|].
  split; [simpl in *; congruence|].
  split; [done|].
  repeat (eapply frame_trans; [|apply frame_set_nviz]). apply frame_refl.
Qed.

Lemma vector_dicts_inv (w : World) (i : item) (l : vlines_data) (p : vpoints_data) :
  vector_dicts w i = Some (l, p) ->
  it_nviz (tree w i) = Some (mk_nviz None None None (Some (mk_vector (Dict l) (Dict p)))).
Proof.
  unfold vector_dicts.
  destruct (it_nviz (tree w i)) as [[[?|] [?|] [?|] [[[|l'] [|p']]|]]|]; try done.
  by intros [= -> ->].
Qed.

(** Properties set again for a vector that has its dictionaries: they are
    marked for update, and a positive id is recorded. *)
Lemma SetMapObjProperties_vector_again (w : World) (i : item) (id : Z) (nvizType : string)
    (t : list Event) (l : vlines_data) (p : vpoints_data) :
  vector_dicts w i = Some (l, p) ->
  ml_type (it_maplayer (tree w i)) = "vector"%string ->
  nvizType = "lines"%string \/ nvizType = "points"%string ->
  exists w' l' p',
    SetMapObjProperties (TreeItem i) id nvizType w t
    = (Ok tt, w', t ++ [PostUpdateProperties (TreeItem i)]) /\
    vector_dicts w' i = Some (l', p') /\
    o_id <$> vl_object l'
    = (if String.eqb nvizType "lines" && (0 <? id) then Some id else o_id <$> vl_object l) /\
    o_id <$> vp_object p'
    = (if String.eqb nvizType "points" && (0 <? id) then Some id else o_id <$> vp_object p) /\
    layers w' = layers w /\ frame i w w'.
Proof.
  intros Hd%vector_dicts_inv Ht Hn.
  unfold SetMapObjProperties.
  rewrite (bind_unfold get). unfold get at 1. rewrite !Ht.
  cbn [String.eqb Ascii.eqb Bool.eqb orb]. cbv iota.
  rewrite bind_unfold. unfold read at 1, ref_data at 1. rewrite Hd.
  cbn [not_data]. rewrite bind_unfold. rewrite bind_unfold.
  erewrite update_ref_run; [|exact Hd|reflexivity].
  rewrite bind_unfold.
  erewrite update_ref_run; [|apply it_nviz_set_nviz|reflexivity].
  unfold emit at 1.
  destruct (0 <? id) eqn:Hid.
  - destruct Hn as [-> | ->]; (erewrite update_ref_run; [|apply it_nviz_set_nviz|reflexivity]);
      eexists _, _, _; (split; [reflexivity|]);
      unfold vector_dicts; rewrite it_nviz_set_nviz; simpl;
      (split; [reflexivity|]); simpl;
      (split; [by destruct (vl_object l)|]); (split; [by destruct (vp_object p)|]);
      (split; [done|]);
      repeat (eapply frame_trans; [|apply frame_set_nviz]); apply frame_refl.
  - unfold skip, mret, M_ret. eexists _, _, _. split; [reflexivity|].
    unfold vector_dicts. rewrite it_nviz_set_nviz. simpl. split; [reflexivity|]. simpl.
    rewrite !andb_false_r.
    split; [by destruct (vl_object l)|]. split; [by destruct (vp_object p)|].
    split; [done|].
    repeat (eapply frame_trans; [|apply frame_set_nviz]); apply frame_refl.
Qed.

Lemma vector_object_dicts (w : World) (i : item) (l : vlines_data) (p : vpoints_data) :
  vector_dicts w i = Some (l, p) ->
  vector_object w i "lines" = vl_object l /\ vector_object w i "points" = vp_object p.
Proof. intros Hd%vector_dicts_inv. unfold vector_object. by rewrite Hd. Qed.

Lemma vector_object_fresh (w : World) (i : item) (vt : string) :
  not_data (it_nviz (tree w i)) = true -> vector_object w i vt = None.
Proof.
  unfold vector_object.
  by destruct (it_nviz (tree w i)) as [[[?|] [?|] [?|] [?|]]|].
Qed.

(** The properties of a loadable vector set without an id. *)
Lemma SetMapObjProperties_vector_prepare (w : World) (i : item) (nvizType : string)
    (t : list Event) :
  loadable_vector w i -> defaults_without_object ->
  nvizType = "lines"%string \/ nvizType = "points"%string ->
  exists w' pre l p,
    SetMapObjProperties (TreeItem i) (-1) nvizType w t = (Ok tt, w', t ++ pre) /\
    forallb (fun e => negb (is_load e)) pre = true /\
    vector_dicts w' i = Some (l, p) /\
    o_id <$> vl_object l = o_id <$> vector_object w i "lines" /\
    o_id <$> vp_object p = o_id <$> vector_object w i "points" /\
    layers w' = layers w /\ frame i w w'.
Proof.
  intros (Ht & [[Hnd Hcmd]|[[l p] Hd]]) Hdef Hn.
  - destruct (SetMapObjProperties_vector_fresh w i (-1) nvizType t)
      as (w' & l & p & Hrun & Hd & Hl & Hp & Hls & Hfr); try done.
    exists w', [], l, p. rewrite app_nil_r, !vector_object_fresh, Hl, Hp by done.
    done.
  - destruct (SetMapObjProperties_vector_again w i (-1) nvizType t l p)
      as (w' & l' & p' & Hrun & Hd' & Hl & Hp & Hls & Hfr); try done.
    exists w', [PostUpdateProperties (TreeItem i)], l', p'.
    destruct (vector_object_dicts w i l p Hd) as [-> ->].
    rewrite andb_false_r in Hl, Hp. done.
Qed.

Lemma LoadVector_run (w : World) (i : item) (b : bool) (t : list Event) :
  loadable_vector w i -> defaults_without_object ->
  exists w' pre post l' p',
    let c := Display.LoadVector (ml_name (it_maplayer (tree w i))) b in
    let id := display_ret (t ++ pre) c in
    LoadVector i (Some b) w t = (Ok (Some id), w', t ++ pre ++ [Call c] ++ post) /\
    forallb (fun e => negb (is_load e)) pre = true /\
    forallb (fun e => negb (is_load e)) post = true /\
    vector_dicts w' i = Some (l', p') /\
    o_id <$> vp_object p'
    = (if b && (0 <? id) then Some id else o_id <$> vector_object w i "points") /\
    o_id <$> vl_object l'
    = (if negb b && (0 <? id) then Some id else o_id <$> vector_object w i "lines") /\
    layers w' = layers w ++ [i] /\ frame i w w'.
Proof.
  intros Hload Hdef. pose proof Hload as (Ht & _).
  destruct (SetMapObjProperties_vector_prepare w i (if b then "points" else "lines")%string t)
    as (w1 & pre & l1 & p1 & Hrun1 & Hpre & Hd1 & Hl1 & Hp1 & Hls1 & Hfr1);
    [done|done|destruct b; auto|].
  pose proof Hfr1 as (Hml1 & _).
  set (c := Display.LoadVector (ml_name (it_maplayer (tree w i))) b).
  set (id := display_ret (t ++ pre) c).
  set (vt := (if b then "points" else "lines")%string) in *.
  set (t2 := (t ++ pre) ++ [Call c] ++
             (if id <? 0 then [WriteError (MsgVectorLoadFailed (ml_name (it_maplayer (tree w i))) vt)]
              else [])).
  destruct (SetMapObjProperties_vector_again w1 i id vt t2 l1 p1)
    as (w2 & l2 & p2 & Hrun2 & Hd2 & Hl2 & Hp2 & Hls2 & Hfr2);
    [done|by rewrite Hml1|subst vt; destruct b; auto|].
  assert (Hfr : frame i w w2) by (by eapply frame_trans).
  pose proof Hfr2 as (_ & _ & _ & Hnv2 & Hsel2).
  set (logged := if id <? 0
                 then [WriteError (MsgVectorLoadFailed (ml_name (it_maplayer (tree w i))) vt)]
                 else []) in *.
  set (gui := if has_nviz w2 && bool_decide (selected w2 = Some i)
              then [Gui (UpdatePage "vector")] else []).
  exists (set_layers (layers w2 ++ [i]) w2), pre,
    (logged ++ [PostUpdateProperties (TreeItem i); PostUpdateProperties (TreeItem i)] ++ gui),
    l2, p2.
  cbv zeta. fold c. fold id.
  split.
  - unfold LoadVector. rewrite (bind_unfold get). unfold get at 1. rewrite Ht.
    cbn [String.eqb Ascii.eqb Bool.eqb negb]. cbv iota.
    rewrite bind_unfold.
    assert (Hfirst : (match Some b with
                      | None => SetMapObjProperties (TreeItem i) (-1) "lines" ;;
                                SetMapObjProperties (TreeItem i) (-1) "points"
                      | Some true => SetMapObjProperties (TreeItem i) (-1) "points"
                      | Some false => SetMapObjProperties (TreeItem i) (-1) "lines"
                      end) w t = (Ok tt, w1, t ++ pre))
      by (subst vt; by destruct b).
    rewrite Hfirst. clear Hfirst.
    rewrite bind_unfold.
    assert (Hloop : foldl
              (fun (acc : M World Z) (vecType : string) =>
                 acc ;;
                 id0 ← (if String.eqb vecType "lines"
                        then call (Display.LoadVector (ml_name (it_maplayer (tree w i))) false)
                        else call (Display.LoadVector (ml_name (it_maplayer (tree w i))) true));
                 (if id0 <? 0
                  then emit (WriteError (MsgVectorLoadFailed
                                           (ml_name (it_maplayer (tree w i))) vecType))
                  else skip) ;;
                 SetMapObjProperties (TreeItem i) id0 vecType ;;
                 mret id0)
              (mret (-1)) (vecTypes_of (Some b) ["points"; "lines"]%string) w1 (t ++ pre)
            = (Ok id, w2, t2 ++ [PostUpdateProperties (TreeItem i)])).
    { assert (Ht2 : t2 = ((t ++ pre) ++ [Call c]) ++ logged)
        by (subst t2; apply app_assoc).
      subst vt c. destruct b; cbn [vecTypes_of foldl];
        rewrite bind_unfold; unfold mret at 1, M_ret at 1;
        rewrite bind_unfold; cbn [String.eqb Ascii.eqb Bool.eqb]; cbv iota;
        unfold call at 1; fold id; rewrite bind_unfold;
        subst logged; destruct (id <? 0);
        first [unfold emit at 1 | unfold skip at 1, mret at 1, M_ret at 1];
        rewrite ?app_nil_r in Ht2; rewrite bind_unfold, <- Ht2, Hrun2; reflexivity. }
    rewrite Hloop. run_monad. cbn [has_nviz selected set_layers]. fold gui.
    subst gui t2. destruct (has_nviz w2 && bool_decide (selected w2 = Some i));
      cbv iota; rewrite <- ?app_assoc; simpl; rewrite ?app_nil_r; reflexivity.
  - split; [done|]. split.
    { subst logged gui. rewrite !forallb_app.
      destruct (id <? 0), (has_nviz w2 && _); reflexivity. }
    split; [done|].
    rewrite Hp2, Hl2, Hl1, Hp1. subst vt.
    split; [by destruct b|]. split; [by destruct b|].
    split; [simpl; congruence|].
    eapply frame_trans; [exact Hfr|apply frame_set_layers].
Qed.

Lemma load_calls_none (l : list Event) :
  forallb (fun e => negb (is_load e)) l = true -> load_calls l = [].
Proof.
  unfold load_calls. induction l as [|e l IH]; [done|]. simpl.
  intros [He Hl]%andb_true_iff. rewrite filter_cons, IH by done.
  destruct (is_load e); [done|]. by rewrite decide_False.
Qed.

Lemma load_calls_app (l1 l2 : list Event) :
  load_calls (l1 ++ l2) = load_calls l1 ++ load_calls l2.
Proof. apply list.filter_app. Qed.

Lemma load_calls_one (e : Event) : is_load e = true -> load_calls [e] = [e].
Proof.
  intros He. unfold load_calls. by rewrite filter_cons, decide_True, filter_nil.
Qed.

Lemma loadable_vector_after (w w' : World) (i : item) (l : vlines_data) (p : vpoints_data) :
  loadable_vector w i -> frame i w w' -> vector_dicts w' i = Some (l, p) ->
  loadable_vector w' i.
Proof.
  intros (Ht & _) (Hml & _) Hd. split; [by rewrite Hml|]. right. by rewrite Hd.
Qed.

(** One sub-object loaded: the call is there, and its id is recorded. *)
Lemma LoadVector_slot (w : World) (i : item) (b : bool) (t : list Event) :
  loadable_vector w i -> defaults_without_object ->
  exists w' evs r,
    LoadVector i (Some b) w t = (Ok r, w', t ++ evs) /\
    load_calls evs = [Call (Display.LoadVector (ml_name (it_maplayer (tree w i))) b)] /\
    slot_recorded t evs w' i (ml_name (it_maplayer (tree w i))) b /\
    o_id <$> vector_object w' i (vecType_of (negb b))
    = o_id <$> vector_object w i (vecType_of (negb b)) /\
    loadable_vector w' i /\ frame i w w' /\
    (forall j, j ∈ layers w -> j ∈ layers w').
Proof.
  intros Hload Hdef.
  destruct (LoadVector_run w i b t Hload Hdef)
    as (w' & pre & post & l' & p' & Hrun & Hpre & Hpost & Hd & Hp & Hl & Hls & Hfr).
  cbv zeta in *. eexists w', (pre ++ [Call _] ++ post), _.
  split; [exact Hrun|].
  destruct (vector_object_dicts w' i l' p' Hd) as [Hol Hop].
  split; [|split; [|split; [|split; [|split]]]].
  - rewrite !load_calls_app, (load_calls_none pre), (load_calls_none post),
      load_calls_one by done. reflexivity.
  - exists pre, post. split; [done|]. intros Hid.
    apply Z.ltb_lt in Hid. rewrite Hid in Hp, Hl.
    destruct b; simpl in *; by rewrite ?Hop, ?Hol.
  - destruct b; simpl in *; by rewrite ?Hop, ?Hol.
  - by eapply loadable_vector_after.
  - done.
  - intros j Hj. rewrite Hls. apply elem_of_app. by left.
Qed.

Lemma slot_recorded_later (t evs evs' : list Event) (w' w'' : World) (i : item)
    (name : string) (b : bool) :
  slot_recorded t evs w' i name b ->
  o_id <$> vector_object w'' i (vecType_of b) = o_id <$> vector_object w' i (vecType_of b) ->
  slot_recorded t (evs ++ evs') w'' i name b.
Proof.
  intros (pre & post & -> & Hid) Hsame. exists pre, (post ++ evs').
  split; [by rewrite <- !app_assoc|]. intros Hpos. rewrite Hsame. by apply Hid.
Qed.

Lemma slot_recorded_earlier (t evs evs' : list Event) (w' : World) (i : item)
    (name : string) (b : bool) :
  slot_recorded (t ++ evs) evs' w' i name b ->
  slot_recorded t (evs ++ evs') w' i name b.
Proof.
  intros (pre & post & -> & Hid). exists (evs ++ pre), post.
  split; [by rewrite <- !app_assoc|]. by rewrite app_assoc.
Qed.

(** The body of the load pass for a vector: points if there are point
    features, lines if there are line features. *)
Lemma load_vector_by_count (w : World) (i : item) (t : list Event) (npoints nlines : Z) :
  loadable_vector w i -> defaults_without_object ->
  exists w' evs,
    ((if 0 <? npoints then LoadVector i (Some true) ;; skip else skip) ;;
     (if 0 <? nlines then LoadVector i (Some false) ;; skip else skip)) w t
    = (Ok tt, w', t ++ evs) /\
    load_calls evs
    = (if 0 <? npoints
       then [Call (Display.LoadVector (ml_name (it_maplayer (tree w i))) true)] else [])
      ++ (if 0 <? nlines
          then [Call (Display.LoadVector (ml_name (it_maplayer (tree w i))) false)] else []) /\
    (0 < npoints -> slot_recorded t evs w' i (ml_name (it_maplayer (tree w i))) true) /\
    (0 < nlines -> slot_recorded t evs w' i (ml_name (it_maplayer (tree w i))) false) /\
    (npoints <= 0 ->
     o_id <$> vector_object w' i "points" = o_id <$> vector_object w i "points") /\
    (nlines <= 0 ->
     o_id <$> vector_object w' i "lines" = o_id <$> vector_object w i "lines").
Proof.
  intros Hload Hdef.
  destruct (Z.ltb_spec 0 npoints) as [Hnp|Hnp], (Z.ltb_spec 0 nlines) as [Hnl|Hnl].
  - destruct (LoadVector_slot w i true t Hload Hdef)
      as (w1 & evs1 & r1 & Hrun1 & Hc1 & Hs1 & Ho1 & Hload1 & Hfr1 & _).
    destruct (LoadVector_slot w1 i false (t ++ evs1) Hload1 Hdef)
      as (w2 & evs2 & r2 & Hrun2 & Hc2 & Hs2 & Ho2 & _).
    destruct Hfr1 as (Hml & _). rewrite Hml in Hc2, Hs2.
    exists w2, (evs1 ++ evs2). rewrite !bind_unfold, Hrun1. unfold skip at 1, mret, M_ret.
    rewrite !bind_unfold, Hrun2. unfold skip, mret, M_ret.
    split; [by rewrite app_assoc|]. split; [by rewrite load_calls_app, Hc1, Hc2|].
    split; [intros _; by apply (slot_recorded_later _ _ _ w1)|].
    split; [intros _; by apply slot_recorded_earlier|]. split; intros; lia.
  - destruct (LoadVector_slot w i true t Hload Hdef)
      as (w1 & evs1 & r1 & Hrun1 & Hc1 & Hs1 & Ho1 & _).
    exists w1, evs1. rewrite !bind_unfold, Hrun1. unfold skip, mret, M_ret.
    split; [done|]. split; [by rewrite Hc1|]. split; [done|].
    split; [intros; lia|]. split; [intros; lia|]. intros _; exact Ho1.
  - destruct (LoadVector_slot w i false t Hload Hdef)
      as (w1 & evs1 & r1 & Hrun1 & Hc1 & Hs1 & Ho1 & _).
    exists w1, evs1. unfold skip, mret, M_ret. rewrite bind_unfold. cbv beta iota.
    rewrite bind_unfold, Hrun1.
    split; [done|]. split; [by rewrite Hc1|]. split; [intros; lia|].
    split; [done|]. split; [intros _; exact Ho1|]. intros; lia.
  - exists w, []. rewrite app_nil_r. repeat split; intros; (done || lia).
Qed.

Lemma load_call_elem (e : Event) (evs : list Event) :
  is_load e = true -> e ∈ evs <-> e ∈ load_calls evs.
Proof.
  intros He. unfold load_calls. rewrite list_elem_of_filter. tauto.
Qed.

(** The items at the end of the list that are loaded already are passed
    over. *)
Lemma load_items_loaded_prefix (loaded rest : list item) (w : World) (t : list Event) :
  (forall j, j ∈ loaded -> j ∈ layers w) ->
  load_items (loaded ++ rest) w t = load_items rest w t.
Proof.
  induction loaded as [|j loaded IH]; intros Hin; [done|].
  cbn [app load_items]. rewrite (bind_unfold get). unfold get.
  rewrite bool_decide_eq_true_2 by (apply Hin, list_elem_of_here).
  apply IH. intros k Hk. by apply Hin, list_elem_of_further.
Qed.

(** C6: in a load pass (the tool window being there to tell the numbers
    of features), a checked vector that is not loaded yet is loaded as
    points if and only if it has point features, and as lines if and only
    if it has line features; the id the engine gives for a sub-object is
    recorded (when positive) in the ['object'] entry of that sub-object of
    the layer, and a sub-object that is not loaded keeps what it had.  This
    is what the pass does when it comes to the vector, whatever the list of
    checked layers is: the layers after it in the list, taken before it,
    are loaded already, and the pass goes on with those before it. *)
Theorem vector_load_by_feature_count (w : World) (i : item) (t : list Event)
    (npoints nlines : Z) :
  has_nviz w = true ->
  it_type (tree w i) = "vector"%string ->
  loadable_vector w i ->
  defaults_without_object ->
  i ∉ layers w ->
  Py.contains " " (ml_name (it_maplayer (tree w i))) = false ->
  VectorInfo (it_maplayer (tree w i)) = (npoints, nlines) ->
  let name := ml_name (it_maplayer (tree w i)) in
  exists w' evs,
    LoadDataLayers [i] w t = (Ok tt, w', t ++ evs) /\
    (Call (Display.LoadVector name true) ∈ evs <-> 0 < npoints) /\
    (Call (Display.LoadVector name false) ∈ evs <-> 0 < nlines) /\
    load_calls evs
    = (if 0 <? npoints then [Call (Display.LoadVector name true)] else [])
      ++ (if 0 <? nlines then [Call (Display.LoadVector name false)] else []) /\
    (0 < npoints -> slot_recorded t evs w' i name true) /\
    (0 < nlines -> slot_recorded t evs w' i name false) /\
    (npoints <= 0 ->
     o_id <$> vector_object w' i "points" = o_id <$> vector_object w i "points") /\
    (nlines <= 0 ->
     o_id <$> vector_object w' i "lines" = o_id <$> vector_object w i "lines") /\
    (forall before after : list item,
       (forall j, j ∈ after -> j ∈ layers w) ->
       LoadDataLayers (before ++ i :: after) w t = LoadDataLayers before w' (t ++ evs)).
Proof.
  intros Hnviz Htype Hload Hdef Hnot Hname Hinfo name.
  destruct (load_vector_by_count w i t npoints nlines Hload Hdef)
    as (w' & evs & Hrun & Hcalls & Hsp & Hsl & Hop & Hol).
  assert (Hstep : forall rest,
            load_items (i :: rest) w t = load_items rest (set_init false w') (t ++ evs)).
  { intros rest. cbn [load_items].
    rewrite (bind_unfold get). unfold get at 1.
    rewrite bool_decide_eq_false_2 by done. rewrite Hname, Htype, Hnviz, Hinfo.
    cbn [String.eqb Ascii.eqb Bool.eqb negb]. cbv iota.
    rewrite bind_unfold. unfold try_GException. rewrite Hrun.
    by unfold modify, skip, mret, M_ret. }
  exists (set_init false w'), evs. fold name in Hcalls, Hsp, Hsl.
  split; [|split; [|split; [|split; [|split; [|split; [|split; [|split]]]]]]]; try done.
  - unfold LoadDataLayers. cbn [rev app]. by rewrite Hstep.
  - rewrite load_call_elem, Hcalls by done.
    destruct (Z.ltb_spec 0 npoints), (Z.ltb_spec 0 nlines); simpl;
      rewrite ?elem_of_cons, ?elem_of_nil; split; intros; try lia; try tauto;
      intuition congruence.
  - rewrite load_call_elem, Hcalls by done.
    destruct (Z.ltb_spec 0 npoints), (Z.ltb_spec 0 nlines); simpl;
      rewrite ?elem_of_cons, ?elem_of_nil; split; intros; try lia; try tauto;
      intuition congruence.
  - intros before after Hafter. unfold LoadDataLayers.
    rewrite rev_app_distr. cbn [rev]. rewrite <- app_assoc.
    rewrite load_items_loaded_prefix
      by (intros j Hj; apply Hafter; by apply list_elem_of_In, in_rev, list_elem_of_In).
    cbn [app]. by rewrite Hstep.
Qed.

(** ** Scene command *)

(** C4: with no raster layer loaded and no constant surface, the command
    is not built and nothing is raised: the call returns, and what comes
    back in the place of the command is the message, whatever the view,
    the light and the other layers are. *)
Theorem Nviz_cmd_command_insufficient (w : World) :
  rasters_of w = [] -> constants w = [] ->
  Nviz_cmd_command w = Ok (gettext "At least one raster map required")
  /\ forall e, Nviz_cmd_command w <> Raise e.
Proof.
  intros Hr Hc. unfold Nviz_cmd_command. rewrite Hr, Hc. split; [done|]. by intros e.
Qed.

(** *** Strings as lists of characters *)

Lemma list_ascii_app (s1 s2 : string) :
  list_ascii_of_string (s1 +:+ s2) = list_ascii_of_string s1 ++ list_ascii_of_string s2.
Proof. induction s1 as [|c s1 IH]; simpl; [done|]. by rewrite IH. Qed.

Lemma string_app_cons (c : ascii) (s1 s2 : string) :
  String c s1 +:+ s2 = String c (s1 +:+ s2).
Proof. done. Qed.

Lemma string_app_assoc (s1 s2 s3 : string) : (s1 +:+ s2) +:+ s3 = s1 +:+ (s2 +:+ s3).
Proof. induction s1 as [|c s1 IH]; [done|]. by rewrite !string_app_cons, IH. Qed.

Lemma string_app_nil_r (s : string) : s +:+ "" = s.
Proof. induction s as [|c s IH]; [done|]. by rewrite string_app_cons, IH. Qed.

Lemma string_of_list_ascii_app (l1 l2 : list ascii) :
  string_of_list_ascii (l1 ++ l2) = string_of_list_ascii l1 +:+ string_of_list_ascii l2.
Proof. induction l1 as [|c l1 IH]; simpl; [done|]. by rewrite IH. Qed.

(** *** [strip] *)

Lemma rstrip_list_snoc_in (cs l : list ascii) (c : ascii) :
  Py.mem_ascii c cs = true -> Py.rstrip_list cs (l ++ [c]) = Py.rstrip_list cs l.
Proof.
  intros Hc. induction l as [|x l IH]; simpl; [by rewrite Hc|]. by rewrite IH.
Qed.

Lemma rstrip_list_snoc_out (cs l : list ascii) (c : ascii) :
  Py.mem_ascii c cs = false -> Py.rstrip_list cs (l ++ [c]) = l ++ [c].
Proof.
  intros Hc. induction l as [|x l IH]; simpl; [by rewrite Hc|].
  rewrite IH. by destruct (l ++ [c]) eqn:E; [destruct l; discriminate E|].
Qed.

(** [accumulate] over the values, each followed by a comma. *)
Lemma accumulate_map {A B} (init : string) (h : B -> string) (f : A -> B) (l : list A) :
  accumulate init (fun x => h (f x)) l = accumulate init h (map f l).
Proof.
  unfold accumulate. revert init. induction l as [|x l IH]; intros init; simpl; [done|].
  apply IH.
Qed.

Lemma accumulate_app {A} (init : string) (h : A -> string) (l1 l2 : list A) :
  accumulate (accumulate init h l1) h l2 = accumulate init h (l1 ++ l2).
Proof. unfold accumulate. by rewrite foldl_app. Qed.

Lemma accumulate_cons {A} (init : string) (h : A -> string) (x : A) (l : list A) :
  accumulate init h (x :: l) = accumulate (init +:+ h x) h l.
Proof. done. Qed.

Lemma accumulate_prefix {A} (init : string) (h : A -> string) (l : list A) :
  accumulate init h l = init +:+ accumulate "" h l.
Proof.
  unfold accumulate. revert init. induction l as [|x l IH]; intros init; simpl.
  - by rewrite string_app_nil_r.
  - change ("" +:+ h x) with (h x).
    rewrite (IH (init +:+ h x)), (IH (h x)). by rewrite string_app_assoc.
Qed.

Lemma accumulate_commas_cons (v : string) (vs : list string) :
  accumulate "" (fun v => v +:+ ",") (v :: vs) = String.concat "," (v :: vs) +:+ ",".
Proof.
  revert v. induction vs as [|v' vs IH]; intros v; [done|].
  rewrite accumulate_cons, accumulate_prefix. change ("" +:+ (v +:+ ",")) with (v +:+ ",").
  rewrite IH. change (String.concat "," (v :: v' :: vs))
    with (v +:+ "," +:+ String.concat "," (v' :: vs)).
  by rewrite !string_app_assoc.
Qed.

Lemma accumulate_commas (key : string) (vs : list string) :
  vs <> [] ->
  accumulate key (fun v => v +:+ ",") vs = key +:+ String.concat "," vs +:+ ",".
Proof.
  intros Hvs. destruct vs as [|v vs]; [done|].
  by rewrite accumulate_prefix, accumulate_commas_cons.
Qed.

(** *** Tokens *)

Lemma plain_chars_app (l1 l2 : list ascii) :
  plain_chars (l1 ++ l2) = plain_chars l1 && plain_chars l2.
Proof. apply forallb_app. Qed.

Lemma plain_chars_no_comma (l : list ascii) :
  plain_chars l = true -> forallb (fun c => negb (Ascii.eqb c ",")) l = true.
Proof.
  induction l as [|c l IH]; [done|]. unfold plain_chars in *. simpl.
  intros [Hc Hl]%andb_true_iff. rewrite (IH Hl), andb_true_r.
  by destruct (Ascii.eqb c ",").
Qed.

Lemma is_token_last (v : string) :
  is_token v = true ->
  exists l c, list_ascii_of_string v = l ++ [c] /\ Py.mem_ascii c [","; " "]%char = false.
Proof.
  unfold is_token. intros [Hne Hp]%andb_true_iff.
  destruct (list_ascii_of_string v) as [|c l _] eqn:E using rev_ind.
  - destruct v; [done|discriminate E].
  - exists l, c. split; [done|]. rewrite plain_chars_app in Hp.
    apply andb_true_iff in Hp as [_ Hc]. unfold plain_chars in Hc. simpl in Hc.
    rewrite andb_true_r in Hc. by apply negb_true_iff in Hc.
Qed.

Lemma uint_plain (d : Decimal.uint) :
  plain_chars (list_ascii_of_string (NilEmpty.string_of_uint d)) = true.
Proof. induction d; simpl; try done. Qed.

Lemma str_of_Z_token (n : Z) : is_token (Py.str_of_Z n) = true.
Proof.
  unfold Py.str_of_Z, is_token. destruct (Z.to_int n) as [d|d]; simpl.
  - destruct d; simpl; try done; apply uint_plain.
  - destruct d; simpl; try done; apply uint_plain.
Qed.

(** *** [split] and the first field *)

Lemma split_list_first (sep : ascii) (l r : list ascii) :
  forallb (fun c => negb (Ascii.eqb c sep)) l = true ->
  Py.split_list sep (l ++ sep :: r) = l :: Py.split_list sep r.
Proof.
  induction l as [|c l IH]; simpl.
  - by rewrite Ascii.eqb_refl.
  - intros [Hc Hl]%andb_true_iff. apply negb_true_iff in Hc. by rewrite Hc, (IH Hl).
Qed.

Lemma first_field_comma (s rest : string) :
  plain_chars (list_ascii_of_string s) = true ->
  first_field (s +:+ "," +:+ rest) = s.
Proof.
  intros Hs. unfold first_field, Py.split. rewrite list_ascii_app.
  change (list_ascii_of_string ("," +:+ rest)) with (","%char :: list_ascii_of_string rest).
  rewrite split_list_first by by apply plain_chars_no_comma.
  simpl. apply string_of_list_ascii_of_string.
Qed.

Lemma concat_cons_comma (v : string) (vs : list string) :
  exists rest, String.concat "," (v :: vs) +:+ "," = v +:+ "," +:+ rest.
Proof.
  destruct vs as [|v' vs].
  - by exists ""%string.
  - exists (String.concat "," (v' :: vs) +:+ ",")%string.
    change (String.concat "," (v :: v' :: vs))
      with (v +:+ "," +:+ String.concat "," (v' :: vs)).
    by rewrite !string_app_assoc.
Qed.

(** The first field of an accumulated list is the key with the first
    value. *)
Lemma first_field_accumulate (key v : string) (vs : list string) :
  plain_chars (list_ascii_of_string key) = true ->
  is_token v = true ->
  first_field (accumulate key (fun v => v +:+ ",") (v :: vs)) = key +:+ v.
Proof.
  intros Hk [_ Hv]%andb_true_iff. rewrite accumulate_commas by done.
  destruct (concat_cons_comma v vs) as [rest ->].
  rewrite <- string_app_assoc. apply first_field_comma.
  by rewrite list_ascii_app, plain_chars_app, Hk, Hv.
Qed.

(** *** [strip] of an accumulated list *)

Lemma concat_last (vs : list string) :
  vs <> [] -> Forall (fun v => is_token v = true) vs ->
  exists l c, list_ascii_of_string (String.concat "," vs) = l ++ [c]
              /\ Py.mem_ascii c [","; " "]%char = false.
Proof.
  intros Hne Hvs. induction Hvs as [|v vs Hv Hvs IH]; [done|].
  destruct vs as [|v' vs].
  - by apply is_token_last.
  - destruct IH as (l & c & Hl & Hc); [done|]. 
    exists (list_ascii_of_string v ++ ","%char :: l), c. split; [|done].
    change (String.concat "," (v :: v' :: vs))
      with (v +:+ "," +:+ String.concat "," (v' :: vs)).
    rewrite !list_ascii_app, Hl. simpl. by rewrite <- app_assoc.
Qed.

Lemma strip_accumulate (k : ascii) (key' : string) (vs : list string) :
  Py.mem_ascii k [","; " "]%char = false ->
  vs <> [] -> Forall (fun v => is_token v = true) vs ->
  Py.strip ", " (accumulate (String k key') (fun v => v +:+ ",") vs)
  = String k key' +:+ String.concat "," vs.
Proof.
  intros Hk Hne Hvs. rewrite accumulate_commas by done.
  destruct (concat_last vs Hne Hvs) as (l & c & Hl & Hc).
  unfold Py.strip. rewrite !list_ascii_app, Hl.
  cbn [list_ascii_of_string Py.lstrip_list app]. rewrite Hk.
  change (k :: (list_ascii_of_string key' ++ (l ++ [c]) ++ [","%char]))
    with ((k :: list_ascii_of_string key') ++ (l ++ [c]) ++ [","%char]).
  rewrite !app_assoc. rewrite rstrip_list_snoc_in by done.
  rewrite rstrip_list_snoc_out by done.
  rewrite <- !app_assoc, <- Hl.
  change (k :: list_ascii_of_string key') with (list_ascii_of_string (String k key')).
  rewrite <- list_ascii_app. apply string_of_list_ascii_of_string.
Qed.

(** *** The flag *)

Lemma flag_a_of_empty (first : draw) (draws : list draw) :
  foldl (fun flag_a nvizData =>
           if bool_decide (first ≠ nvizData) then ""%string else flag_a) ""%string draws
  = ""%string.
Proof. induction draws as [|d draws IH]; simpl; [done|]. by case_bool_decide. Qed.

Lemma flag_a_of_spec (first : draw) (draws : list draw) :
  flag_a_of first draws
  = if forallb (fun d => bool_decide (first = d)) draws then "-a "%string else ""%string.
Proof.
  unfold flag_a_of. generalize "-a "%string as init.
  induction draws as [|d draws IH]; intros init; simpl; [done|].
  case_bool_decide as Hd.
  - rewrite bool_decide_false by done. simpl. apply flag_a_of_empty.
  - rewrite bool_decide_true by (by destruct (decide (first = d))). simpl. apply IH.
Qed.

Lemma identical_forallb (d : draw) (draws : list draw) :
  d ∈ draws -> identical draws -> forallb (fun d' => bool_decide (d = d')) draws = true.
Proof.
  intros Hd Hall. apply forallb_forall. intros d' Hd'%list_elem_of_In.
  apply bool_decide_eq_true. by apply Hall.
Qed.

Lemma differ_forallb (d : draw) (draws : list draw) :
  (exists d1 d2, d1 ∈ draws /\ d2 ∈ draws /\ d1 ≠ d2) ->
  forallb (fun d' => bool_decide (d = d')) draws = false.
Proof.
  intros (d1 & d2 & H1 & H2 & Hne). apply not_true_is_false. intros Hall.
  rewrite forallb_forall in Hall. apply Hne.
  transitivity d; [symmetry|];
    eapply bool_decide_eq_true, Hall, list_elem_of_In; eassumption.
Qed.

(** *** The draw mode in the scene command *)

Lemma accumulate_values {A B} (key : string) (f : A -> string) (g : B -> string)
    (l1 : list A) (l2 : list B) :
  accumulate (accumulate key (fun x => f x +:+ ",") l1) (fun y => g y +:+ ",") l2
  = accumulate key (fun v => v +:+ ",") (map f l1 ++ map g l2).
Proof.
  rewrite (accumulate_map key (fun v => v +:+ ",") f l1).
  rewrite (accumulate_map _ (fun v => v +:+ ",") g l2).
  apply accumulate_app.
Qed.

Lemma collect_Forall2 {A B} (f : A -> outcome B) (l : list A) (ys : list B) :
  Forall2 (fun x y => f x = Ok y) l ys -> collect f l = Ok ys.
Proof. induction 1 as [|x y l ys Hx _ IH]; simpl; [done|]. by rewrite Hx, IH. Qed.

Lemma draw_tokens_values (d : draw) :
  draw_tokens d = true ->
  is_token (md_mode (m_desc (d_mode d))) = true
  /\ is_token (md_style (m_desc (d_mode d))) = true
  /\ is_token (md_shading (m_desc (d_mode d))) = true
  /\ is_token (w_value (d_wire_color d)) = true.
Proof.
  unfold draw_tokens. intros [[[? ?]%andb_true_iff ?]%andb_true_iff ?]%andb_true_iff.
  done.
Qed.

(** The six accumulated lists, as the code builds them. *)
Lemma draw_mode_cmd_unfold (first : string * surface_data)
    (rest : list (string * surface_data)) (consts : list constant_data) :
  let draws := map (fun ns => s_draw ns.2) (first :: rest) in
  let list_of {A B} (key : string) (f : A -> string) (g : B -> string) l1 l2 :=
    accumulate key (fun v => v +:+ ",") (map f l1 ++ map g l2) in
  let subcmds :=
    [ list_of "mode=" (fun d => md_mode (m_desc (d_mode d))) (fun _ => "fine") draws consts;
      list_of "resolution_fine=" (fun d => Py.str_of_Z (r_fine (d_resolution d)))
        (fun c => Py.str_of_Z (c_resolution c)) draws consts;
      list_of "resolution_coarse=" (fun d => Py.str_of_Z (r_coarse (d_resolution d)))
        (fun c => Py.str_of_Z (c_resolution c)) draws consts;
      list_of "shading=" (fun d => md_shading (m_desc (d_mode d))) (fun _ => "gouraud")
        draws consts;
      list_of "style=" (fun d => md_style (m_desc (d_mode d))) (fun _ => "surface")
        draws consts;
      list_of "wire_color=" (fun d => w_value (d_wire_color d)) (fun _ => "0:0:0")
        draws consts ]%string in
  draw_mode_cmd (first :: rest) consts
  = if forallb (fun d => bool_decide (s_draw first.2 = d)) draws then
      let mode := map (fun subcmd => first_field subcmd +:+ " ") subcmds in
      let m n := nth n mode ""%string in
      "-a " +:+ m 0%nat
      +:+ (if Py.contains "fine" (m 0%nat) then m 1%nat
           else if Py.contains "coarse" (m 0%nat) then m 2%nat
           else if Py.contains "both" (m 0%nat) then m 2%nat +:+ m 1%nat
           else "")
      +:+ (if Py.contains "flat" (m 3%nat) then m 3%nat else "")
      +:+ (if Py.contains "wire" (m 4%nat) then m 4%nat else "")
      +:+ (if Py.contains "coarse" (m 0%nat)
              || Py.contains "both" (m 0%nat) && Py.contains "wire" (m 3%nat)
           then m 5%nat else "")
    else accumulate "" (fun subcmd => Py.strip ", " subcmd +:+ " ") subcmds.
Proof.
  intros draws list_of subcmds. unfold draw_mode_cmd. fold draws.
  rewrite flag_a_of_spec. subst subcmds list_of. cbv beta.
  rewrite <- !accumulate_values.
  destruct (forallb _ draws).
  - by rewrite bool_decide_true.
  - rewrite bool_decide_false by (intros Hne; by apply Hne). done.
Qed.

Lemma tokens_values {B} (f : draw -> string) (g : B -> string)
    (surfaces : list (string * surface_data)) (consts : list B) :
  Forall (fun ns => draw_tokens (s_draw ns.2) = true) surfaces ->
  (forall d, draw_tokens d = true -> is_token (f d) = true) ->
  (forall c, is_token (g c) = true) ->
  Forall (fun v => is_token v = true) (map f (map (fun ns => s_draw ns.2) surfaces) ++ map g consts).
Proof.
  intros Hs Hf Hg. apply Forall_app. split.
  - induction Hs as [|ns surfaces Hns _ IH]; simpl; constructor; [by apply Hf|done].
  - induction consts as [|c consts IH]; simpl; constructor; [apply Hg|done].
Qed.

Ltac solve_token :=
  first [ assumption | apply str_of_Z_token | reflexivity
        | intros ? [? [? [? ?]]]%draw_tokens_values; solve_token
        | intros ?; solve_token ].

(** All the draw dictionaries being the same, the flag is written, and
    one value per sub-attribute that is written. *)
Lemma draw_mode_cmd_compact (first : string * surface_data)
    (rest : list (string * surface_data)) (consts : list constant_data) :
  Forall (fun ns => draw_tokens (s_draw ns.2) = true) (first :: rest) ->
  identical (map (fun ns => s_draw ns.2) (first :: rest)) ->
  draw_mode_cmd (first :: rest) consts = spec_draw_compact (s_draw first.2).
Proof.
  intros Htok Hid. pose proof (draw_mode_cmd_unfold first rest consts) as Hu.
  cbv zeta in Hu. rewrite Hu. clear Hu.
  rewrite (identical_forallb (s_draw first.2)) by (done || apply list_elem_of_here).
  inversion Htok as [|? ? [? [? [? ?]]]%draw_tokens_values _]; subst.
  cbn [map nth app].
  rewrite !first_field_accumulate by solve_token.
  unfold spec_draw_compact, join_values. cbn [String.concat].
  by rewrite !string_app_assoc.
Qed.

Lemma accumulate_six {A} (h : A -> string) (a b c d e f : A) :
  accumulate "" h [a; b; c; d; e; f] = h a +:+ h b +:+ h c +:+ h d +:+ h e +:+ h f.
Proof.
  unfold accumulate. cbn [foldl]. change (""%string +:+ h a) with (h a).
  by rewrite !string_app_assoc.
Qed.

(** Two draw dictionaries being different, the six lists are written. *)
Lemma draw_mode_cmd_lists (first : string * surface_data)
    (rest : list (string * surface_data)) (consts : list constant_data) :
  Forall (fun ns => draw_tokens (s_draw ns.2) = true) (first :: rest) ->
  (exists d1 d2, d1 ∈ map (fun ns => s_draw ns.2) (first :: rest)
                 /\ d2 ∈ map (fun ns => s_draw ns.2) (first :: rest) /\ d1 ≠ d2) ->
  draw_mode_cmd (first :: rest) consts
  = spec_draw_lists (map (fun ns => s_draw ns.2) (first :: rest)) consts.
Proof.
  intros Htok Hne. pose proof (draw_mode_cmd_unfold first rest consts) as Hu.
  cbv zeta in Hu. rewrite Hu. clear Hu.
  rewrite (differ_forallb (s_draw first.2)) by done.
  rewrite accumulate_six.
  rewrite !strip_accumulate;
    [ | first [ reflexivity | by cbn [map app] | apply tokens_values; solve_token ] ..].
  unfold spec_draw_lists, join_values.
  by rewrite !string_app_assoc.
Qed.

Lemma collect_constants (ds : list nviz_data) (consts : list constant_data) :
  Forall2 (fun d c => nv_constant d = Some c) ds consts ->
  collect constant_entry ds = Ok consts.
Proof.
  intros Hc. apply collect_Forall2.
  induction Hc as [|d c ds consts Hd _ IH]; [constructor|].
  constructor; [|done]. unfold constant_entry. by rewrite Hd.
Qed.

(** C3 (as amended).  With at least one raster layer loaded, and the
    mode, style, shading and wire colour of every raster layer non-empty
    words without comma or blank, the scene command is [nviz_cmd], the
    elevation part, the draw mode, the colours and the view, where the
    draw mode is: when the draw dictionaries of all raster layers are
    identical, the flag [-a] and a single value per sub-attribute that is
    written, taken from any of the layers; when two of them differ, no
    flag and one comma-joined list per sub-attribute (mode, fine
    resolution, coarse resolution, shading, style, wire colour) over the
    raster layers in the order of [self.layers], followed by the constants
    with [fine], their resolution, [gouraud], [surface] and [0:0:0]. *)
Theorem Nviz_cmd_command_draw_mode (w : World) (surfaces : list (string * surface_data))
    (consts : list constant_data) (colors tail : string) :
  rasters_of w ≠ [] ->
  Forall2 (fun i ns => raster_surface w i = Ok ns) (rasters_of w) surfaces ->
  Forall2 (fun d c => nv_constant d = Some c) (constants w) consts ->
  Forall (fun ns => draw_tokens (s_draw ns.2) = true) surfaces ->
  color_cmd surfaces consts = Ok colors ->
  view_cmd w = Ok tail ->
  let draws := map (fun ns => s_draw ns.2) surfaces in
  let pre := "nviz_cmd " +:+ elevation_cmd (map fst surfaces) consts in
  (identical draws ->
   forall d, d ∈ draws ->
   Nviz_cmd_command w = Ok (pre +:+ spec_draw_compact d +:+ colors +:+ tail))
  /\ ((exists d1 d2, d1 ∈ draws /\ d2 ∈ draws /\ d1 ≠ d2) ->
      Nviz_cmd_command w = Ok (pre +:+ spec_draw_lists draws consts +:+ colors +:+ tail)).
Proof.
  intros Hr Hs Hc Htok Hcol Hview draws pre.
  assert (Hcmd : forall D, draw_mode_cmd surfaces consts = D ->
                 Nviz_cmd_command w = Ok (pre +:+ D +:+ colors +:+ tail)).
  { intros D HD. unfold Nviz_cmd_command. cbv zeta.
    assert (is_nil (rasters_of w) = false) as -> by by destruct (rasters_of w).
    cbn [andb negb].
    rewrite (collect_constants _ _ Hc).
    rewrite (collect_Forall2 _ _ _ Hs), HD, Hcol, Hview.
    subst pre. unfold elevation_cmd.
    rewrite <- (accumulate_map "elevation_map=" (fun n : string => n +:+ ",") fst surfaces).
    destruct consts as [|c consts]; cbn [is_nil negb]; by rewrite !string_app_assoc. }
  split.
  - intros Hid d Hd. apply Hcmd. destruct surfaces as [|first rest].
    + by apply elem_of_nil in Hd.
    + rewrite draw_mode_cmd_compact by done. f_equal. apply Hid; [|done].
      apply list_elem_of_here.
  - intros Hne. apply Hcmd. destruct surfaces as [|first rest].
    + destruct Hne as (d1 & _ & Hd1 & _). by apply elem_of_nil in Hd1.
    + by apply draw_mode_cmd_lists.
Qed.

(** * Further properties *)

(** ** Looking up object ids *)

Lemma layer_id_miss (w : World) (ls : list item) (type name : string)
    (vsubtyp : option string) :
  (forall i, i ∈ ls -> ml_type (it_maplayer (tree w i)) = type ->
             ml_name (it_maplayer (tree w i)) <> name) ->
  layer_id w ls type name vsubtyp = Ok (IdInt (-1)).
Proof.
  induction ls as [|i ls IH]; intros Hls; [done|].
  cbn [layer_id]. cbv zeta.
  destruct (String.eqb_spec type (ml_type (it_maplayer (tree w i)))) as [Ht|Ht];
    cbn [negb orb].
  - destruct (String.eqb_spec name (ml_name (it_maplayer (tree w i)))) as [Hn|Hn];
      cbn [negb].
    + exfalso. apply (Hls i); [apply list_elem_of_here|done|done].
    + apply IH. intros j Hj. apply Hls. by apply list_elem_of_further.
  - apply IH. intros j Hj. apply Hls. by apply list_elem_of_further.
Qed.

(** X1: [GetLayerId] answers -1 for a name that no loaded layer of the
    type has, for every type but ['constant']. *)
Theorem GetLayerId_unknown_name (w : World) (type name : string) (vsubtyp : option string) :
  type <> "constant"%string ->
  (forall i, i ∈ layers w -> ml_type (it_maplayer (tree w i)) = type ->
             ml_name (it_maplayer (tree w i)) <> name) ->
  GetLayerId type name vsubtyp w = Ok (IdInt (-1)).
Proof.
  intros Ht Hls. unfold GetLayerId. destruct (_ <? 1); [done|].
  destruct (String.eqb_spec type "constant") as [|_]; [done|].
  by apply layer_id_miss.
Qed.

(** X2: in [GetLayerId] the first loaded raster of the name decides: its
    object id is the answer, whatever layers follow it. *)
Theorem GetLayerId_raster_first_match (w : World) (name : string) (vsubtyp : option string)
    (pre post : list item) (i : item) (o : object_rec) :
  name <> ""%string ->
  layers w = pre ++ i :: post ->
  (forall j, j ∈ pre -> ml_type (it_maplayer (tree w j)) = "raster"%string ->
             ml_name (it_maplayer (tree w j)) <> name) ->
  ml_type (it_maplayer (tree w i)) = "raster"%string ->
  ml_name (it_maplayer (tree w i)) = name ->
  raster_object w i = Some o ->
  GetLayerId "raster" name vsubtyp w = Ok (IdInt (o_id o)).
Proof.
  intros Hname Hls Hpre Ht Hn Ho. unfold GetLayerId.
  assert ((Z.of_nat (String.length name) <? 1) = false) as ->
    by (destruct name; [done|apply Z.ltb_ge; cbn [String.length]; lia]).
  cbn [String.eqb Ascii.eqb Bool.eqb]. rewrite Hls. clear Hls.
  induction pre as [|j pre IH]; cbn [app layer_id]; cbv zeta.
  - rewrite Ht, Hn, !String.eqb_refl. cbn [negb orb].
    unfold raster_object in Ho. rewrite Ht in Ho.
    destruct (it_nviz (tree w i)) as [data|]; [|done]. simpl in Ho.
    destruct (nv_surface data) as [[|s]|]; try done. simpl in Ho. by rewrite Ho.
  - destruct (String.eqb_spec "raster" (ml_type (it_maplayer (tree w j)))) as [Htj|Htj];
      cbn [negb orb].
    + destruct (String.eqb_spec name (ml_name (it_maplayer (tree w j)))) as [Hnj|Hnj];
        cbn [negb].
      * exfalso. apply (Hpre j); [apply list_elem_of_here|done|done].
      * apply IH. intros k Hk. apply Hpre. by apply list_elem_of_further.
    + apply IH. intros k Hk. apply Hpre. by apply list_elem_of_further.
Qed.

Lemma string_length_app (s1 s2 : string) :
  String.length (s1 +:+ s2) = (String.length s1 + String.length s2)%nat.
Proof. induction s1 as [|c s1 IH]; [done|]. rewrite string_app_cons. simpl. by rewrite IH. Qed.

Lemma str_of_Z_length (n : Z) : (0 < String.length (Py.str_of_Z n))%nat.
Proof.
  pose proof (str_of_Z_token n) as [Hne _]%andb_true_iff.
  destruct (Py.str_of_Z n); [done|simpl; lia].
Qed.

Lemma constant_id_found (all cs : list nviz_data) (names : list string) (n : nat)
    (name : string) :
  constant_names cs = Ok names -> NoDup names -> names !! n = Some name ->
  exists d c o, cs !! n = Some d /\ nv_constant d = Some c /\ c_object c = Some o
                /\ constant_id all cs name = Ok (IdInt (co_id o)).
Proof.
  revert names n. induction cs as [|d cs IH]; intros names n Hnames Hnd Hn.
  - simpl in Hnames. injection Hnames as <-. done.
  - simpl in Hnames |- *.
    destruct (nv_constant d) as [c|] eqn:Hc; [|done].
    destruct (c_object c) as [o|] eqn:Ho; [|done].
    destruct (co_name o) as [k|] eqn:Hk; [|done].
    destruct (constant_names cs) as [ns|] eqn:Hns; [|done].
    injection Hnames as <-. inversion Hnd as [|? ? Hnotin Hnd']; subst.
    destruct n as [|n]; simpl in Hn.
    + injection Hn as <-. rewrite String.eqb_refl. by exists d, c, o.
    + destruct (String.eqb_spec (gettext "constant#" +:+ Py.str_of_Z k) name) as [Heq|_].
      * exfalso. apply Hnotin. rewrite Heq. by eapply list_elem_of_lookup_2.
      * destruct (IH ns n eq_refl Hnd' Hn) as (d' & c' & o' & ? & ? & ? & ?).
        by exists d', c', o'.
Qed.

Lemma constant_names_length (cs : list nviz_data) (names : list string) (n : nat)
    (name : string) :
  constant_names cs = Ok names -> names !! n = Some name ->
  (0 < String.length name)%nat.
Proof.
  revert names n. induction cs as [|d cs IH]; intros names n Hnames Hn.
  - simpl in Hnames. injection Hnames as <-. done.
  - simpl in Hnames.
    destruct (nv_constant d) as [c|]; [|done].
    destruct (c_object c) as [o|]; [|done].
    destruct (co_name o) as [k|]; [|done].
    destruct (constant_names cs) as [ns|] eqn:Hns; [|done].
    injection Hnames as <-. destruct n as [|n]; simpl in Hn.
    + injection Hn as <-. rewrite string_length_app.
      pose proof (str_of_Z_length k). lia.
    + by apply (IH ns n).
Qed.

(** X3: the names that [GetLayerNames] gives for the constants lead back
    to their ids: when the names are all different, [GetLayerId] answers
    the n-th name with the object id of the n-th constant. *)
Theorem constant_names_ids (w : World) (names : list string) (n : nat) (name : string) :
  GetLayerNames "constant" w = Ok names -> NoDup names -> names !! n = Some name ->
  exists d c o, constants w !! n = Some d /\ nv_constant d = Some c /\ c_object c = Some o
                /\ GetLayerId "constant" name None w = Ok (IdInt (co_id o)).
Proof.
  intros Hnames Hnd Hn. unfold GetLayerNames in Hnames. simpl in Hnames.
  destruct (constant_id_found (constants w) (constants w) names n name Hnames Hnd Hn)
    as (d & c & o & Hd & Hc & Ho & Hid).
  exists d, c, o. repeat (split; [done|]). unfold GetLayerId.
  pose proof (constant_names_length _ _ _ _ Hnames Hn).
  assert ((Z.of_nat (String.length name) <? 1) = false) as -> by (apply Z.ltb_ge; lia).
  done.
Qed.

(** ** Vector properties *)

(** Looking up the reference surfaces changes nothing in the dictionary. *)
Lemma update_surface_refs_state {S} (w : World) (sr : surf_ref)
    (attach detach : pyid -> engine_call) (s : S) (t : list Event) :
  (update_surface_refs w sr attach detach s t).1.2 = s.
Proof.
  assert (Hp : preserves (fun x => x = s) (update_surface_refs (S := S) w sr attach detach)).
  { unfold update_surface_refs. apply preserves_for_each. intros n.
    repeat preserves_step. }
  by apply Hp.
Qed.

Lemma vlines_clean (d : vlines_data) :
  vm_update (vl_mode d) = false ->
  set_vl_mode (set_vm_update false (vl_mode d)) d = d.
Proof. destruct d as [? ? [? ? ?] ? ?]. simpl. by intros ->. Qed.

Lemma UpdateVectorLinesProperties_clean (w : World) (id : Z) (d : vlines_data)
    (t : list Event) :
  pu (vl_color d) = false -> pu (vl_width d) = false -> pu (vl_height d) = false ->
  vm_update (vl_mode d) = false ->
  UpdateVectorLinesProperties w id d t = (Ok tt, d, t).
Proof.
  intros Hc Hw Hh Hm. unfold UpdateVectorLinesProperties. run_monad.
  cbn. rewrite Hc, Hw, Hm. cbn. rewrite Hh. cbn. rewrite Hm.
  destruct (vm_surface (vl_mode d)); cbn; by rewrite vlines_clean.
Qed.

(** X4: when [UpdateVectorLinesProperties] returns, no update flag is left
    in the dictionary, and a second pass over it calls nothing and changes
    nothing. *)
Theorem UpdateVectorLinesProperties_settles (w : World) (id : Z) (d d' : vlines_data)
    (t t' : list Event) :
  UpdateVectorLinesProperties w id d t = (Ok tt, d', t') ->
  pu (vl_color d') = false /\ pu (vl_width d') = false /\ pu (vl_height d') = false
  /\ vm_update (vl_mode d') = false
  /\ forall t2, UpdateVectorLinesProperties w id d' t2 = (Ok tt, d', t2).
Proof.
  intros Hrun.
  assert (Hflags : pu (vl_color d') = false /\ pu (vl_width d') = false
                   /\ pu (vl_height d') = false /\ vm_update (vl_mode d') = false).
  { revert Hrun. unfold UpdateVectorLinesProperties.
    destruct d as [[c cu] [wd wu] [ty mu sf] [h hu] ob].
    run_monad. cbn [pu pv vl_color vl_width vl_mode vl_height vm_update vm_type vm_surface].
    destruct cu, wu, mu, hu, (String.eqb ty "flat"), sf as [sr|]; cbn;
      try (intros [= <- _]; done);
      match goal with
      | |- context [update_surface_refs w ?sr ?a ?b ?s ?t] =>
          pose proof (update_surface_refs_state w sr a b s t) as Hst;
          destruct (update_surface_refs w sr a b s t) as [[[[]|e] s1] t1];
          simpl in Hst; subst s1; cbn; intros [= <- _]; done
      end. }
  destruct Hflags as (Hc & Hw & Hh & Hm). repeat (split; [done|]).
  intros t2. by apply UpdateVectorLinesProperties_clean.
Qed.

(** X5: lines drawn flat are not draped: a mode update of flat lines
    passes [flat] to the engine, drops the reference surfaces from the
    dictionary and attaches or detaches none. *)
Theorem UpdateVectorLinesProperties_flat (w : World) (id : Z) (d : vlines_data)
    (t : list Event) :
  vm_type (vl_mode d) = "flat"%string ->
  pu (vl_color d) || pu (vl_width d) || vm_update (vl_mode d) = true ->
  exists d',
    UpdateVectorLinesProperties w id d t
    = (Ok tt, d',
       t ++ [Call (Display.SetVectorLineMode id (pv (vl_color d)) (pv (vl_width d)) true)]
         ++ (if pu (vl_height d)
             then [Call (Display.SetVectorLineHeight id (pv (vl_height d)))] else []))
    /\ vm_surface (vl_mode d') = None.
Proof.
  intros Hflat Hdirty. unfold UpdateVectorLinesProperties. run_monad.
  rewrite Hdirty, Hflat. cbn. destruct (pu (vl_height d)); cbn.
  - eexists. split; [by rewrite <- app_assoc|done].
  - eexists. split; [done|done].
Qed.

(** X6: when the engine refuses the point mode (-1: layer not found, -2:
    unable to set), [UpdateVectorPointsProperties] raises after this one
    call and leaves the dictionary as it was, update flags included. *)
Theorem UpdateVectorPointsProperties_engine_error (w : World) (id : Z) (d : vpoints_data)
    (t : list Event) :
  let c := Display.SetVectorPointMode id (pv (vp_color d)) (pv (vp_width d))
             (pv (vp_size d)) (pv (vp_marker d) + 1) in
  pu (vp_size d) || pu (vp_width d) || pu (vp_marker d) || pu (vp_color d) = true ->
  display_ret t c = -1 \/ display_ret t c = -2 ->
  UpdateVectorPointsProperties w id d t
  = (Raise (GException (if display_ret t c =? -1 then PointLayerNotFound id
                        else PointUnableToSet id)), d, t ++ [Call c]).
Proof.
  intros c Hdirty Hret. unfold UpdateVectorPointsProperties. run_monad.
  rewrite Hdirty. fold c. by destruct Hret as [-> | ->].
Qed.

(** ** The colour of a vector from its command *)

Lemma split_list_no_sep (sep : ascii) (l : list ascii) :
  forallb (fun c => negb (Ascii.eqb c sep)) l = true -> Py.split_list sep l = [l].
Proof.
  induction l as [|c l IH]; simpl; [done|].
  intros [Hc Hl]%andb_true_iff. apply negb_true_iff in Hc. by rewrite Hc, (IH Hl).
Qed.

Lemma split_color (v : string) :
  forallb (fun c => negb (Ascii.eqb c "=")) (list_ascii_of_string v) = true ->
  Py.split "=" ("color=" +:+ v) = ["color"%string; v].
Proof.
  intros Hv. unfold Py.split.
  change (list_ascii_of_string ("color=" +:+ v))
    with (list_ascii_of_string "color" ++ "="%char :: list_ascii_of_string v).
  rewrite split_list_first by done. rewrite split_list_no_sep by done.
  simpl. by rewrite string_of_list_ascii_of_string.
Qed.

Lemma cmd_color_skip (acc : option string) (opts : list string) :
  Forall (fun opt => is_color_opt opt = false) opts ->
  foldl (fun acc opt =>
           match Py.split "=" opt with
           | [key; value] => if String.eqb key "color" then Some value else acc
           | _ => acc
           end) acc opts = acc.
Proof.
  intros Hopts. revert acc.
  induction Hopts as [|opt opts Hopt _ IH]; intros acc; cbn [foldl]; [done|].
  unfold is_color_opt in Hopt.
  destruct (Py.split "=" opt) as [|key [|value [|]]]; try apply IH.
  rewrite Hopt. apply IH.
Qed.

(** X7: [SetVectorFromCmd] takes the colour of the last [color=] option
    of a [d.vect] command for both the lines and the points, and changes
    nothing else. *)
Theorem SetVectorFromCmd_last_color (i : item) (w : World) (pre post : list string)
    (v : string) (data : vlines_data * vpoints_data) :
  it_cmd (tree w i) = "d.vect"%string :: pre ++ ("color=" +:+ v)%string :: post ->
  forallb (fun c => negb (Ascii.eqb c "=")) (list_ascii_of_string v) = true ->
  Forall (fun opt => is_color_opt opt = false) post ->
  SetVectorFromCmd i w data
  = Ok (set_vl_color (set_pv v (vl_color data.1)) data.1,
        set_vp_color (set_pv v (vp_color data.2)) data.2).
Proof.
  intros Hcmd Hv Hpost. unfold SetVectorFromCmd. rewrite Hcmd. simpl negb. cbv iota.
  unfold cmd_color. rewrite foldl_app. cbn [foldl]. rewrite split_color by done.
  simpl String.eqb. cbv iota. by rewrite cmd_color_skip.
Qed.

(** ** Constants *)

(** X8: a constant has no update flags: every [UpdateMapObjProperties]
    on its dictionary sends its colour, its value and its resolution (for
    fine and coarse alike) to the engine and marks the object as
    initialised, so that a second event repeats the three calls. *)
Theorem UpdateMapObjProperties_constant (w : World) (d : nviz_data) (c : constant_data)
    (o : const_object) (t : list Event) :
  nv_surface d = None -> nv_constant d = Some c -> c_object c = Some o ->
  let push := [Call (Display.SetSurfaceColor (co_id o) false (VStr (c_color c)));
               Call (Display.SetSurfaceTopo (co_id o) false (VInt (c_value c)));
               Call (Display.SetSurfaceRes (co_id o) (c_resolution c) (c_resolution c))] in
  let d' := set_nv_constant (Some (set_c_object (Some (set_co_init true o)) c)) d in
  UpdateMapObjProperties w d t = (Ok tt, d', t ++ push)
  /\ forall t2, UpdateMapObjProperties w d' t2 = (Ok tt, d', t2 ++ push).
Proof.
  intros Hs Hc Ho push d'.
  assert (Hrun : forall d0 c0 o0 t0,
            nv_surface d0 = None -> nv_constant d0 = Some c0 -> c_object c0 = Some o0 ->
            co_id o0 = co_id o ->
            c_color c0 = c_color c -> c_value c0 = c_value c ->
            c_resolution c0 = c_resolution c ->
            UpdateMapObjProperties w d0 t0
            = (Ok tt, set_nv_constant (Some (set_c_object (Some (set_co_init true o0)) c0)) d0,
               t0 ++ push)).
  { intros d0 c0 o0 t0 Hs0 Hc0 Ho0 E0 E1 E2 E3.
    unfold UpdateMapObjProperties, UpdateConstantProperties.
    run_monad. rewrite Hs0, Hc0. cbn. rewrite Hc0. cbn. rewrite Ho0. cbn.
    rewrite Ho0, E0, E1, E2, E3. cbn. by rewrite <- !app_assoc. }
  split; [by apply Hrun|]. intros t2.
  rewrite (Hrun d' (set_c_object (Some (set_co_init true o)) c) (set_co_init true o) t2);
    try done.
Qed.

(** ** Look here *)

(** X9: a left click in look-here mode asks the engine to look at the
    pixel, counted from the bottom of the window, takes the new focus from
    the engine and goes back to the default mode, once; the perspective is
    not touched.  In another mode the click is only passed on. *)
Theorem OnMouseAction_look_here (w : World) (x y : Z) (t : list Event) :
  (mouse_use w = "lookHere"%string -> has_nviz w = true ->
   let look := [Call (Display.LookHere x ((client_size (toolwin w)).2 - y)); Gui Refresh] in
   OnMouseAction (LeftDown x y) w t
   = (Ok tt, set_mouse_use "default" (set_focus (display_focus (t ++ look)) w),
      t ++ look ++ [Call Display.GetFocus; Gui (ToggleHere false); Gui SetCursorDefault;
                    Gui EventSkip]))
  /\ (mouse_use w <> "lookHere"%string ->
      OnMouseAction (LeftDown x y) w t = (Ok tt, w, t ++ [Gui EventSkip])).
Proof.
  split.
  - intros Hm Hn. unfold OnMouseAction. run_monad. cbn. rewrite Hm. cbn. rewrite Hn. cbn.
    by rewrite <- !app_assoc.
  - intros Hm. unfold OnMouseAction. run_monad. cbn.
    by destruct (String.eqb_spec (mouse_use w) "lookHere").
Qed.

(** ** Is a layer loaded *)

(** X10: for a raster layer that has its surface dictionary, [IsLoaded]
    tells whether the ['object'] record is there. *)
Theorem IsLoaded_raster (w : World) (i : item) (data : nviz_data) (s : pydict surface_data) :
  ml_type (it_maplayer (tree w i)) = "raster"%string ->
  it_nviz (tree w i) = Some data -> nv_surface data = Some s ->
  IsLoaded i w = Ok (match raster_object w i with Some _ => 1 | None => 0 end).
Proof.
  intros Ht Hd Hs. unfold IsLoaded, raster_object. cbv zeta. rewrite Hd, Ht.
  assert (not_data (Some data) = false) as ->
    by (destruct data as [[?|] [?|] [?|] [?|]]; simpl in *; congruence).
  cbn. rewrite Hs. cbn. destruct (pydict_get s ≫= s_object) as [o|] eqn:Ho.
  - rewrite bool_decide_true by by eexists. done.
  - rewrite bool_decide_false by (by intros [? ?]). done.
Qed.

(** X11: for a vector layer, [IsLoaded] never answers 1: it answers 0 as
    long as the layer has no properties, and raises [KeyError] once it has
    some (it reads the key ['vlines']), in particular when the lines or
    the points are loaded. *)
Theorem IsLoaded_vector (w : World) (i : item) :
  ml_type (it_maplayer (tree w i)) = "vector"%string ->
  IsLoaded i w = (if not_data (it_nviz (tree w i)) then Ok 0 else Raise (KeyError "vlines"))
  /\ forall vt o, vector_object w i vt = Some o -> IsLoaded i w = Raise (KeyError "vlines").
Proof.
  intros Ht.
  assert (Hrun : IsLoaded i w
                 = if not_data (it_nviz (tree w i)) then Ok 0 else Raise (KeyError "vlines")).
  { unfold IsLoaded. cbv zeta. rewrite Ht.
    destruct (it_nviz (tree w i)) as [data|]; [|done].
    by destruct (not_data (Some data)). }
  split; [done|]. intros vt o Ho. rewrite Hrun. unfold vector_object in Ho.
  destruct (it_nviz (tree w i)) as [data|]; [|done]. simpl in Ho.
  destruct data as [[?|] [?|] [?|] [?|]]; simpl in *; done.
Qed.

(** ** Deleting a constant *)

Lemma constant_names_app (cs1 cs2 : list nviz_data) (names : list string) :
  constant_names (cs1 ++ cs2) = Ok names ->
  exists n1 n2, constant_names cs1 = Ok n1 /\ constant_names cs2 = Ok n2
                /\ names = n1 ++ n2.
Proof.
  revert names. induction cs1 as [|d cs1 IH]; intros names; simpl.
  - intros Hn. by exists [], names.
  - destruct (nv_constant d) as [c|]; [|done].
    destruct (c_object c) as [o|]; [|done].
    destruct (co_name o) as [k|]; [|done].
    destruct (constant_names (cs1 ++ cs2)) as [ns|] eqn:Hns; [|done].
    intros [= <-]. destruct (IH ns eq_refl) as (n1 & n2 & -> & -> & ->).
    by eexists _, n2.
Qed.

Lemma constant_names_length_eq (cs : list nviz_data) (names : list string) :
  constant_names cs = Ok names -> length names = length cs.
Proof.
  revert names. induction cs as [|d cs IH]; intros names; simpl.
  - by intros [= <-].
  - destruct (nv_constant d) as [c|]; [|done].
    destruct (c_object c) as [o|]; [|done].
    destruct (co_name o) as [k|]; [|done].
    destruct (constant_names cs) as [ns|] eqn:Hns; [|done].
    intros [= <-]. simpl. by rewrite (IH ns).
Qed.

Lemma delete_middle {A} (pre post : list A) (x : A) :
  delete (length pre) (pre ++ x :: post) = pre ++ post.
Proof. induction pre as [|y pre IH]; [done|]. simpl. by rewrite <- IH. Qed.

Lemma index_middle {A} (pre post : list A) (x : A) (index : Z) :
  index = Z.of_nat (length pre) \/ index = - Z.of_nat (S (length post)) ->
  Py.index (pre ++ x :: post) index = Some x.
Proof.
  intros Hindex. unfold Py.index. rewrite List.length_app. cbn [length].
  destruct Hindex as [-> | ->].
  - rewrite (proj2 (Z.leb_le _ _)) by lia. by rewrite Nat2Z.id, list_lookup_middle.
  - rewrite (proj2 (Z.leb_gt _ _)) by lia. rewrite (proj2 (Z.leb_le _ _)) by lia.
    apply list_lookup_middle. lia.
Qed.

Lemma del_index_middle {A} (pre post : list A) (x : A) (index : Z) :
  index = Z.of_nat (length pre) \/ index = - Z.of_nat (S (length post)) ->
  del_index (pre ++ x :: post) index = pre ++ post.
Proof.
  intros Hindex. unfold del_index. rewrite List.length_app. cbn [length].
  destruct Hindex as [-> | ->].
  - rewrite (proj2 (Z.leb_le _ _)) by lia. by rewrite Nat2Z.id, delete_middle.
  - rewrite (proj2 (Z.leb_gt _ _)) by lia.
    replace (Z.to_nat _) with (length pre) by lia. apply delete_middle.
Qed.

(** X12: [DeleteConstant] takes one constant out of [self.constants],
    counted from the front or, with a negative index, from the back: the
    engine unloads its surface, the constants after it move up by one, and
    so do their names in [GetLayerNames]; an index outside the list raises
    [IndexError] before anything is done. *)
Theorem DeleteConstant_index (w : World) (t : list Event) :
  (forall pre post d c o,
     constants w = pre ++ d :: post -> nv_constant d = Some c -> c_object c = Some o ->
     forall index,
       index = Z.of_nat (length pre) \/ index = - Z.of_nat (S (length post)) ->
       DeleteConstant index w t
       = (Ok tt, set_constants (pre ++ post) w, t ++ [Call (Display.UnloadSurface (co_id o))])
       /\ forall names,
            GetLayerNames "constant" w = Ok names ->
            GetLayerNames "constant" (set_constants (pre ++ post) w)
            = Ok (delete (length pre) names))
  /\ (forall index,
        Z.of_nat (length (constants w)) <= index
        \/ index < - Z.of_nat (length (constants w)) ->
        DeleteConstant index w t = (Raise IndexError, w, t)).
Proof.
  split.
  - intros pre post d c o Hcs Hc Ho index Hindex. split.
    + unfold DeleteConstant. run_monad. rewrite Hcs.
      rewrite (index_middle pre post d index Hindex). cbn. rewrite Hc. cbn. rewrite Ho. cbn.
      by rewrite Hcs, (del_index_middle pre post d index Hindex).
    + intros names. unfold GetLayerNames. cbn. rewrite Hcs. intros Hnames.
      destruct (constant_names_app pre (d :: post) names Hnames) as (n1 & n2 & H1 & H2 & ->).
      simpl in H2. rewrite Hc, Ho in H2.
      destruct (co_name o) as [k|]; [|done].
      destruct (constant_names post) as [np|] eqn:Hnp; [|done].
      injection H2 as <-.
      rewrite <- (constant_names_length_eq _ _ H1), delete_middle.
      clear Hnames Hcs Hindex. revert n1 H1. induction pre as [|d0 pre IH]; intros n1; simpl.
      * intros [= <-]. by rewrite Hnp.
      * destruct (nv_constant d0) as [c0|]; [|done].
        destruct (c_object c0) as [o0|]; [|done].
        destruct (co_name o0) as [k0|]; [|done].
        destruct (constant_names pre) as [ns|] eqn:Hns; [|done].
        intros [= <-]. by rewrite (IH ns eq_refl).
  - intros index Hindex. unfold DeleteConstant, Py.index. run_monad.
    destruct (Z.leb_spec 0 index) as [Hpos|Hneg].
    + rewrite lookup_ge_None_2 by lia. done.
    + rewrite (proj2 (Z.leb_gt _ _)) by lia. done.
Qed.

(** ** Reset *)

Lemma remove_first_middle `{EqDecision A} (x : A) (pre post : list A) :
  x ∉ pre -> Py.remove_first x (pre ++ x :: post) = Some (pre ++ post).
Proof.
  induction pre as [|y pre IH]; intros Hx; simpl.
  - by rewrite decide_True.
  - apply not_elem_of_cons in Hx as [Hne Hx].
    rewrite decide_False by done. by rewrite (IH Hx).
Qed.

(** Unloading a raster leaves the other layers and the flag [init] as
    they are. *)
Lemma unloadRaster_keeps_others (w0 : World) (i : item) :
  preserves (fun w => (forall j, j <> i -> tree w j = tree w0 j) /\ init w = init w0
                      /\ it_maplayer (tree w i) = it_maplayer (tree w0 i))
    (_unloadRaster i).
Proof.
  unfold _unloadRaster, update_ref.
  repeat first
    [ preserves_step
    | apply preserves_modify; intros w (Hw & Hinit & Hml); simpl;
      (split; [intros j Hj; rewrite ?fn_lookup_insert_ne by done; by apply Hw|]);
      (split; [done|]); rewrite ?fn_lookup_insert; done ].
Qed.

Lemma raster_object_tree (w w' : World) (i : item) :
  tree w' i = tree w i -> raster_object w' i = raster_object w i.
Proof. intros Ht. unfold raster_object. by rewrite Ht. Qed.

(** One step of the loop on a loaded raster. *)
Lemma unload_layer_raster (w : World) (i : item) (kept rest : list item) (t : list Event) :
  layers w = kept ++ i :: rest -> i ∉ kept ->
  (ml_type (it_maplayer (tree w i)) = "raster"%string
   \/ ml_type (it_maplayer (tree w i)) = "3d-raster"%string) ->
  is_Some (raster_object w i) ->
  exists w' evs,
    unload_layer i w t = (Ok tt, w', t ++ evs)
    /\ layers w' = kept ++ rest
    /\ raster_object w' i = None
    /\ (forall j, j <> i -> tree w' j = tree w j)
    /\ init w' = init w
    /\ length (filter (fun e => is_unload e = true) evs) = 1%nat.
Proof.
  intros Hls Hnot Htype [o Ho].
  assert (Hin : i ∈ layers w)
    by (rewrite Hls; apply elem_of_app; right; apply list_elem_of_here).
  destruct (unloadRaster_run w i o t Htype Ho Hin) as (w' & gui & Hrun & Hgui & Hnone & Hrm).
  pose proof (unloadRaster_keeps_others w i w t) as Hkeep.
  rewrite Hrun in Hkeep. simpl in Hkeep.
  destruct Hkeep as (Hothers & Hinit & _); [done|].
  exists w', ([Call (unload_call w i (o_id o));
               unload_log w i (display_ret t (unload_call w i (o_id o)))] ++ gui).
  split.
  { unfold unload_layer. rewrite bind_unfold. unfold get. cbv zeta.
    unfold UnloadRaster, UnloadRaster3d.
    destruct Htype as [-> | ->]; exact Hrun. }
  split.
  { rewrite Hls, remove_first_middle in Hrm by done. by injection Hrm as <-. }
  repeat (split; [done|]).
  rewrite list.filter_app.
  assert (filter (fun e => is_unload e = true) gui = []) as ->.
  { clear -Hgui. induction gui as [|e gui IH]; [done|]. simpl in Hgui.
    apply andb_true_iff in Hgui as [He Hgui]. apply negb_true_iff in He.
    rewrite filter_cons, decide_False by congruence. by apply IH. }
  unfold unload_call, unload_log.
  destruct (String.eqb _ "raster"), (_ =? 0); done.
Qed.

Lemma NoDup_middle {A} (pre post : list A) (x : A) :
  NoDup (pre ++ x :: post) -> NoDup (pre ++ post) /\ (x ∉ pre) /\ (x ∉ post).
Proof.
  rewrite !list.NoDup_app. intros (Hpre & Hdis & Hpost).
  inversion Hpost as [|? ? Hx Hpost']; subst. split; [|split; [|done]].
  - split; [done|]. split; [|done]. intros y Hy Hy'. apply (Hdis y Hy). by right.
  - intros Hin. apply (Hdis x Hin). by left.
Qed.

Lemma visited_elem_bound {A} (n : nat) :
  forall (l : list A) (x : A), (length l <= n)%nat -> x ∈ visited l -> x ∈ l.
Proof.
  induction n as [|n IH]; intros [|a [|b l]] x Hlen; simpl in *; try done; try lia.
  rewrite !elem_of_cons. intros [-> | Hin]; [by left|].
  right. right. apply IH; [lia|done].
Qed.

Lemma visited_elem {A} (l : list A) (x : A) : x ∈ visited l -> x ∈ l.
Proof. by apply (visited_elem_bound (length l)). Qed.

(** The loop of [Reset] on loaded rasters: every visit takes the visited
    item off the list, so that the item after it is stepped over. *)
Lemma for_layers_unload_rasters (fuel : nat) :
  forall (rest kept : list item) (w : World) (t : list Event),
    layers w = kept ++ rest -> NoDup (kept ++ rest) ->
    (length rest < fuel)%nat ->
    (forall i, i ∈ rest ->
       (ml_type (it_maplayer (tree w i)) = "raster"%string
        \/ ml_type (it_maplayer (tree w i)) = "3d-raster"%string)
       /\ is_Some (raster_object w i)) ->
    exists w' evs,
      for_layers fuel (length kept) unload_layer w t = (Ok true, w', t ++ evs)
      /\ layers w' = kept ++ stepped_over rest
      /\ init w' = init w
      /\ (forall j, j ∉ visited rest -> tree w' j = tree w j)
      /\ (forall j, j ∈ visited rest -> raster_object w' j = None)
      /\ length (filter (fun e => is_unload e = true) evs) = length (visited rest).
Proof.
  induction fuel as [|fuel IH]; intros rest kept w t Hls Hnd Hfuel Hrest; [lia|].
  cbn [for_layers]. rewrite bind_unfold. unfold get.
  destruct rest as [|x rest].
  - rewrite app_nil_r in Hls. rewrite Hls, lookup_ge_None_2 by lia.
    exists w, []. rewrite !app_nil_r. repeat (split; [done|]).
    split; [|done]. by intros j ?%elem_of_nil.
  - rewrite Hls, list_lookup_middle by done.
    destruct (NoDup_middle kept rest x Hnd) as (Hnd1 & Hxk & Hxr).
    destruct (Hrest x) as [Htx Hox]; [by left|].
    destruct (unload_layer_raster w x kept rest t Hls Hxk Htx Hox)
      as (w1 & evs1 & Hrun1 & Hls1 & Hnone1 & Hothers1 & Hinit1 & Hcount1).
    rewrite bind_unfold, Hrun1.
    destruct rest as [|y rest].
    + destruct fuel as [|fuel]; [simpl in Hfuel; lia|].
      cbn [for_layers]. rewrite bind_unfold. unfold get.
      rewrite app_nil_r in Hls1. rewrite Hls1, lookup_ge_None_2 by lia.
      exists w1, evs1. cbn [visited stepped_over]. rewrite app_nil_r.
      repeat (split; [done|]). split; [|split; [|done]].
      * intros j Hj. apply Hothers1. intros ->. apply Hj, list_elem_of_here.
      * intros j Hj. apply list_elem_of_singleton in Hj. by subst.
    + destruct (IH rest (kept ++ [y]) w1 (t ++ evs1))
        as (w' & evs & Hrun & Hls' & Hinit' & Hothers' & Hnone' & Hcount').
      * by rewrite Hls1, <- app_assoc.
      * by rewrite <- app_assoc.
      * simpl in Hfuel. lia.
      * intros i Hi. assert (i <> x) by (intros ->; apply Hxr; by right).
        rewrite (raster_object_tree w w1), Hothers1 by (by rewrite ?Hothers1).
        apply Hrest. by do 2 right.
      * rewrite List.length_app in Hrun. cbn [length] in Hrun.
        replace (length kept + 1)%nat with (S (length kept)) in Hrun by lia.
        exists w', (evs1 ++ evs). cbn [visited stepped_over].
        split; [by rewrite Hrun, <- app_assoc|].
        split; [by rewrite Hls', <- app_assoc|].
        split; [congruence|].
        split; [|split].
        -- intros j Hj. apply not_elem_of_cons in Hj as [Hjx Hj].
           rewrite Hothers' by done. by apply Hothers1.
        -- intros j Hj. apply elem_of_cons in Hj as [-> | Hj]; [|by apply Hnone'].
           assert (x ∉ visited rest) as Hxv
             by (intros Hin; apply Hxr; right; by apply visited_elem).
           by rewrite (raster_object_tree w1 w') by (by apply Hothers').
        -- rewrite list.filter_app, List.length_app, Hcount1, Hcount'. done.
Qed.

Lemma stepped_over_elem_bound {A} (n : nat) :
  forall (l : list A) (x : A), (length l <= n)%nat -> x ∈ stepped_over l -> x ∈ l.
Proof.
  induction n as [|n IH]; intros [|a [|b l]] x Hlen; simpl in *;
    try (by intros ?%elem_of_nil); try lia.
  rewrite !elem_of_cons. intros [-> | Hin]; [right; by left|].
  right. right. apply IH; [lia|done].
Qed.

Lemma stepped_over_elem {A} (l : list A) (x : A) : x ∈ stepped_over l -> x ∈ l.
Proof. by apply (stepped_over_elem_bound (length l)). Qed.

Lemma stepped_over_not_visited_bound {A} (n : nat) :
  forall (l : list A) (x : A),
    (length l <= n)%nat -> NoDup l -> x ∈ stepped_over l -> x ∉ visited l.
Proof.
  induction n as [|n IH]; intros [|a [|b l]] x Hlen Hnd; simpl in *;
    try (by intros ?%elem_of_nil); try lia.
  inversion Hnd as [|? ? Ha Hnd']; subst. inversion Hnd' as [|? ? Hb Hnd'']; subst.
  apply not_elem_of_cons in Ha as [Hab Ha].
  rewrite !elem_of_cons. intros [-> | Hs] [Hxa | Hv].
  - by apply Hab.
  - by apply Hb, visited_elem.
  - subst. by apply Ha, stepped_over_elem.
  - revert Hv. apply IH; [lia|done|done].
Qed.

(** X13: [Reset] unloads only every other raster.  Its loop runs over
    [self.layers] while each unload takes the current item off this list,
    so that the item after it is stepped over: of loaded rasters (or 3d
    rasters) that are all different, those at the positions 0, 2, 4, ...
    are unloaded, with one engine call each, and those at the positions
    1, 3, 5, ... stay in [self.layers] with their ['object'] records;
    [init] is cleared. *)
Theorem Reset_rasters_every_other (w : World) (t : list Event) :
  NoDup (layers w) ->
  (forall i, i ∈ layers w ->
     (ml_type (it_maplayer (tree w i)) = "raster"%string
      \/ ml_type (it_maplayer (tree w i)) = "3d-raster"%string)
     /\ is_Some (raster_object w i)) ->
  exists w' evs,
    Reset w t = (Ok true, w', t ++ evs)
    /\ layers w' = stepped_over (layers w)
    /\ init w' = false
    /\ (forall j, j ∈ stepped_over (layers w) -> raster_object w' j = raster_object w j)
    /\ (forall j, j ∈ visited (layers w) -> raster_object w' j = None)
    /\ length (filter (fun e => is_unload e = true) evs) = length (visited (layers w)).
Proof.
  intros Hnd Hall.
  destruct (for_layers_unload_rasters (S (length (layers w))) (layers w) [] w t)
    as (w' & evs & Hrun & Hls & Hinit & Hothers & Hnone & Hcount); try done; [lia|].
  exists (set_init false w'), evs. unfold Reset. rewrite bind_unfold. unfold get at 1.
  simpl length in Hrun. rewrite bind_unfold, Hrun.
  split; [done|]. split; [done|]. split; [done|]. split; [|split; [|done]].
  - intros j Hj. apply (raster_object_tree w (set_init false w')). simpl.
    apply Hothers. by apply (stepped_over_not_visited_bound (length (layers w))).
  - intros j Hj. rewrite <- (Hnone j Hj). by apply raster_object_tree.
Qed.

(** ** Scene command: when it is built *)

Lemma split_list_cons (sep : ascii) (l : list ascii) :
  exists p ps, Py.split_list sep l = p :: ps.
Proof.
  induction l as [|c l (p & ps & IH)]; simpl; [by eexists _, _|].
  destruct (Ascii.eqb c sep); [by eexists _, _|]. rewrite IH. by eexists _, _.
Qed.

(** A string that goes on after [key=] has a second field. *)
Lemma split_second (key rest : string) :
  forallb (fun c => negb (Ascii.eqb c "=")) (list_ascii_of_string key) = true ->
  is_Some (Py.split "=" (key +:+ "=" +:+ rest) !! 1%nat).
Proof.
  intros Hkey. unfold Py.split. rewrite list_ascii_app.
  change (list_ascii_of_string ("=" +:+ rest)) with ("="%char :: list_ascii_of_string rest).
  rewrite split_list_first by done.
  destruct (split_list_cons "=" (list_ascii_of_string rest)) as (p & ps & ->).
  by eexists.
Qed.

(** The colours are written without an error. *)
Lemma color_cmd_ok (surfaces : list (string * surface_data)) (consts : list constant_data) :
  exists colors, color_cmd surfaces consts = Ok colors.
Proof.
  unfold color_cmd.
  set (step := fun (acc : string * string) (ns : string * surface_data) => _).
  assert (Hfold : forall l ra rb, exists ra' rb',
            foldl step ("color_map=" +:+ ra, "color=" +:+ rb)%string l
            = ("color_map=" +:+ ra', "color=" +:+ rb')%string).
  { induction l as [|ns l IH]; intros ra rb; [by eexists _, _|].
    cbn [foldl]. unfold step at 2. cbn [fst snd].
    destruct (s_attribute ns.2 !! "color"%string) as [a|].
    - destruct (bool_decide (a_map a = Some true)).
      + change ("color_map=" +:+ ra +:+ str (a_value a) +:+ ",")%string
          with (("color_map=" +:+ ra) +:+ str (a_value a) +:+ ",")%string.
        rewrite string_app_assoc. apply IH.
      + change ("color=" +:+ rb +:+ str (a_value a) +:+ ",")%string
          with (("color=" +:+ rb) +:+ str (a_value a) +:+ ",")%string.
        rewrite string_app_assoc. apply IH.
    - rewrite string_app_assoc. apply IH. }
  destruct (Hfold surfaces ""%string ""%string) as (ra & rb & Hf).
  change ("color_map=" +:+ "")%string with "color_map="%string in Hf.
  change ("color=" +:+ "")%string with "color="%string in Hf.
  rewrite Hf. rewrite (accumulate_prefix ("color=" +:+ rb)), string_app_assoc.
  destruct (split_second "color_map" ra eq_refl) as [pm Hpm].
  destruct (split_second "color" (rb +:+ accumulate "" (fun c => c_color c +:+ ",") consts)
              eq_refl) as [pv Hpv].
  change ("color_map" +:+ "=" +:+ ra)%string with ("color_map=" +:+ ra)%string in Hpm.
  change ("color" +:+ "=" +:+ ?r)%string with ("color=" +:+ r)%string in Hpv.
  rewrite Hpm, Hpv. by eexists.
Qed.

Lemma view_cmd_ok (w : World) :
  has_nviz w = true -> exists tail, view_cmd w = Ok tail.
Proof. intros Hn. unfold view_cmd. rewrite Hn. by eexists. Qed.

(** X14: [Nviz_cmd_command] gives a command, which starts with
    [nviz_cmd ], whenever the tool window is there, a raster or a constant
    is loaded, every constant has its ['constant'] dictionary and every
    loaded raster its surface dictionary. *)
Theorem Nviz_cmd_command_returns (w : World) (surfaces : list (string * surface_data))
    (consts : list constant_data) :
  has_nviz w = true ->
  rasters_of w <> [] \/ constants w <> [] ->
  Forall2 (fun i ns => raster_surface w i = Ok ns) (rasters_of w) surfaces ->
  Forall2 (fun d c => nv_constant d = Some c) (constants w) consts ->
  exists args, Nviz_cmd_command w = Ok ("nviz_cmd " +:+ args).
Proof.
  intros Hn Hsome Hs Hc. unfold Nviz_cmd_command. cbv zeta.
  assert (is_nil (rasters_of w) && is_nil (constants w) = false) as ->
    by (destruct Hsome, (rasters_of w), (constants w); done).
  rewrite (collect_constants _ _ Hc).
  destruct (view_cmd_ok w Hn) as [tail ->].
  destruct (is_nil (rasters_of w)); cbn [negb].
  - destruct (is_nil consts); cbn [negb]; rewrite ?string_app_assoc; by eexists.
  - rewrite (collect_Forall2 _ _ _ Hs).
    destruct (color_cmd_ok surfaces consts) as [colors ->].
    destruct (is_nil consts); cbn [negb]; rewrite ?string_app_assoc; by eexists.
Qed.

(** X15: without the tool window ([self.lmgr] has no attribute [nviz]),
    [Nviz_cmd_command] raises [AttributeError] when it comes to the
    fringe, although everything before it can be written. *)
Theorem Nviz_cmd_command_no_toolwindow (w : World) (surfaces : list (string * surface_data))
    (consts : list constant_data) :
  has_nviz w = false ->
  rasters_of w <> [] \/ constants w <> [] ->
  Forall2 (fun i ns => raster_surface w i = Ok ns) (rasters_of w) surfaces ->
  Forall2 (fun d c => nv_constant d = Some c) (constants w) consts ->
  Nviz_cmd_command w = Raise AttributeError.
Proof.
  intros Hn Hsome Hs Hc. unfold Nviz_cmd_command. cbv zeta.
  assert (is_nil (rasters_of w) && is_nil (constants w) = false) as ->
    by (destruct Hsome, (rasters_of w), (constants w); done).
  rewrite (collect_constants _ _ Hc).
  assert (view_cmd w = Raise AttributeError) as -> by (unfold view_cmd; by rewrite Hn).
  destruct (is_nil (rasters_of w)); cbn [negb]; [done|].
  rewrite (collect_Forall2 _ _ _ Hs).
  by destruct (color_cmd_ok surfaces consts) as [colors ->].
Qed.

(** X16: with constants only, the command names their values and goes on
    with the view at once: the draw mode and the colours of the constants
    are written only when a raster is loaded. *)
Theorem Nviz_cmd_command_constants_only (w : World) (consts : list constant_data)
    (tail : string) :
  rasters_of w = [] -> consts <> [] ->
  Forall2 (fun d c => nv_constant d = Some c) (constants w) consts ->
  view_cmd w = Ok tail ->
  Nviz_cmd_command w
  = Ok ("nviz_cmd "
        +:+ join_values "elevation_value=" (map (fun c => Py.str_of_Z (c_value c)) consts)
        +:+ tail).
Proof.
  intros Hr Hne Hc Hview. unfold Nviz_cmd_command. cbv zeta. rewrite Hr.
  assert (is_nil (constants w) = false) as ->.
  { destruct Hc; [done|done]. }
  cbn [is_nil andb negb]. rewrite (collect_constants _ _ Hc), Hview.
  assert (is_nil consts = false) as -> by by destruct consts.
  cbn [negb].
  rewrite (accumulate_map "elevation_value=" (fun v => v +:+ ",")
             (fun c => Py.str_of_Z (c_value c)) consts).
  rewrite strip_accumulate.
  - unfold join_values. by rewrite !string_app_assoc.
  - reflexivity.
  - by destruct consts.
  - clear. induction consts; constructor; [apply str_of_Z_token|done].
Qed.

(** ** Loading and unloading together *)

(** X17: a layer whose name has a blank stops the load pass: when it is
    the first checked layer that is not loaded yet, counted from the end of
    the list, [LoadDataLayers] returns at once; neither this layer nor any
    layer before it in the list is loaded, and nothing is changed. *)
Theorem LoadDataLayers_blank_name_stops (w : World) (pre loaded : list item) (i : item)
    (t : list Event) :
  (forall j, j ∈ loaded -> j ∈ layers w) ->
  i ∉ layers w ->
  Py.contains " " (ml_name (it_maplayer (tree w i))) = true ->
  LoadDataLayers (pre ++ i :: loaded) w t = (Ok tt, w, t).
Proof.
  intros Hloaded Hi Hblank. unfold LoadDataLayers.
  rewrite rev_app_distr. cbn [rev]. rewrite <- app_assoc.
  rewrite load_items_loaded_prefix
    by (intros j Hj; apply Hloaded; by apply list_elem_of_In, in_rev, list_elem_of_In).
  cbn [app load_items]. rewrite (bind_unfold get). unfold get.
  rewrite bool_decide_eq_false_2 by done. by rewrite Hblank.
Qed.

(** Loading a raster leaves the map layers of the tree as they are. *)
Lemma SetMapObjProperties_keeps_maplayers (w0 : World) (r : data_ref) (id : Z)
    (nvizType : string) :
  preserves (fun w => forall j, it_maplayer (tree w j) = it_maplayer (tree w0 j))
    (SetMapObjProperties r id nvizType).
Proof.
  unfold SetMapObjProperties, update_ref.
  repeat first
    [ preserves_step
    | apply preserves_modify; intros w Hw j; destruct r; cbn [set_ref_data];
      rewrite ?maplayer_set_nviz; apply Hw
    | apply preserves_modify; intros w Hw j; cbn [set_ref_data];
      rewrite ?maplayer_set_nviz; apply Hw ].
Qed.

Lemma loadRaster_keeps_maplayers (w0 : World) (i : item) :
  preserves (fun w => forall j, it_maplayer (tree w j) = it_maplayer (tree w0 j))
    (_loadRaster i).
Proof.
  unfold _loadRaster.
  repeat first [ apply SetMapObjProperties_keeps_maplayers
               | preserves_step
               | apply preserves_modify; intros w Hw j; apply Hw ].
Qed.

(** A raster that has no ['object'] record cannot be unloaded. *)
Lemma unloadRaster_no_object (w : World) (i : item) (t : list Event) :
  ml_type (it_maplayer (tree w i)) = "raster"%string
  \/ ml_type (it_maplayer (tree w i)) = "3d-raster"%string ->
  raster_object w i = None ->
  exists e, _unloadRaster i w t = (Raise e, w, t).
Proof.
  intros Htype Hobj. unfold raster_object in Hobj. unfold _unloadRaster.
  rewrite bind_unfold. unfold get at 1. cbv zeta.
  destruct Htype as [Ht|Ht]; rewrite Ht in *; cbn [String.eqb Ascii.eqb Bool.eqb] in *;
    cbn [orb negb]; cbv iota.
  - destruct (it_nviz (tree w i)) as [data|]; [|by eexists]. simpl in Hobj.
    run_monad. destruct (nv_surface data) as [[|s]|]; try by eexists.
    simpl in Hobj |- *. rewrite Hobj. by eexists.
  - destruct (it_nviz (tree w i)) as [data|]; [|by eexists]. simpl in Hobj.
    run_monad. destruct (nv_volume data) as [v|]; try by eexists.
    simpl in Hobj |- *. rewrite Hobj. by eexists.
Qed.

(** X18: a raster whose load failed is stuck.  It is in [self.layers]
    without an ['object'] record, so that unloading it raises before the
    engine is called and leaves it in [self.layers], where every later
    load pass steps over it. *)
Theorem failed_load_is_stuck (w : World) (i : item) (t : list Event) :
  ml_type (it_maplayer (tree w i)) = "raster"%string
  \/ ml_type (it_maplayer (tree w i)) = "3d-raster"%string ->
  display_ret t (load_call w i) < 0 ->
  defaults_without_object ->
  it_nviz (tree w i) = None ->
  exists w' t' e,
    _loadRaster i w t = (Ok (Some (display_ret t (load_call w i))), w', t')
    /\ i ∈ layers w'
    /\ _unloadRaster i w' t' = (Raise e, w', t')
    /\ forall l t2, LoadDataLayers l w' t2
                    = LoadDataLayers (filter (fun j => j <> i) l) w' t2.
Proof.
  intros Htype Hret Hdef Hnone.
  assert (Hobj : raster_object w i = None) by (unfold raster_object; by rewrite Hnone).
  destruct (loadRaster_failed w i t Htype Hret Hdef Hobj)
    as (r & w' & msg & evs & Hrun & Hls & Hobj' & Hr & _).
  rewrite (Hr Hnone) in Hrun.
  pose proof (loadRaster_keeps_maplayers w i w t (fun j => eq_refl)) as Hml.
  rewrite Hrun in Hml. simpl in Hml.
  assert (Hin : i ∈ layers w')
    by (rewrite Hls; apply elem_of_app; right; apply list_elem_of_here).
  destruct (unloadRaster_no_object w' i (t ++ [Call (load_call w i); WriteError msg] ++ evs))
    as [e He]; [by rewrite Hml|done|].
  eexists w', _, e. split; [exact Hrun|]. split; [done|]. split; [done|].
  intros l t2. unfold LoadDataLayers. rewrite rev_filter. by apply load_items_skips_loaded.
Qed.

(** X19: a vector that was unloaded is not loaded again.  [UnloadVector]
    removes the ['object'] records but leaves the item in [self.layers],
    and every later load pass steps over an item that is there. *)
Theorem unloaded_vector_not_reloaded (w : World) (i : item) (points : option bool)
    (data : nviz_data) (v : vector_data) (t : list Event) :
  it_nviz (tree w i) = Some data -> nv_vector data = Some v ->
  i ∈ layers w ->
  exists w' evs,
    UnloadVector i points w t = (Ok tt, w', t ++ evs)
    /\ (forall vecType, vecType ∈ vecTypes_of points ["points"; "lines"]%string ->
                        vector_object w' i vecType = None)
    /\ i ∈ layers w'
    /\ forall l t2, LoadDataLayers l w' t2
                    = LoadDataLayers (filter (fun j => j <> i) l) w' t2.
Proof.
  intros Hdata Hv Hin.
  destruct (UnloadVector_run w i points data v t Hdata Hv)
    as (w' & evs & Hrun & Hnone & Hls & _).
  exists w', evs. split; [done|]. split; [done|].
  assert (Hin' : i ∈ layers w') by by rewrite Hls.
  split; [done|].
  intros l t2. unfold LoadDataLayers. rewrite rev_filter. by apply load_items_skips_loaded.
Qed.

(** ** A raster that loads *)

(** Setting the properties of a raster that has none yet, with the id the
    engine gave. *)
Lemma SetMapObjProperties_fresh_raster (w : World) (i : item) (id : Z) (nvizType : string)
    (t : list Event) :
  (ml_type (it_maplayer (tree w i)) = "raster"%string /\ nvizType = "surface"%string)
  \/ (ml_type (it_maplayer (tree w i)) = "3d-raster"%string /\ nvizType = "volume"%string) ->
  it_nviz (tree w i) = None ->
  0 < id ->
  exists w',
    SetMapObjProperties (TreeItem i) id nvizType w t = (Ok tt, w', t) /\
    layers w' = layers w /\
    has_nviz w' = has_nviz w /\ selected w' = selected w /\
    raster_object w' i = Some (new_object id).
Proof.
  intros Htype Hnone Hid.
  assert (Hid' : (0 <? id) = true) by lia.
  unfold SetMapObjProperties, update_ref, ref_data. rewrite Hid'.
  rewrite bind_unfold. unfold get at 1.
  destruct Htype as [[Ht ->]|[Ht ->]]; rewrite !Ht;
    unfold set_raster_object; run_monad; simpl; rewrite Hnone; simpl;
    unfold set_nviz; simpl;
    repeat (first [rewrite fn_lookup_insert | progress simpl]);
    eexists; (split; [reflexivity|]);
    unfold raster_object; simpl;
    repeat (first [rewrite fn_lookup_insert | rewrite Ht | progress simpl]);
    repeat split; done.
Qed.

Lemma loadRaster_succeeded (w : World) (i : item) (t : list Event) :
  ml_type (it_maplayer (tree w i)) = "raster"%string
  \/ ml_type (it_maplayer (tree w i)) = "3d-raster"%string ->
  it_nviz (tree w i) = None ->
  0 < display_ret t (load_call w i) ->
  exists w' evs,
    _loadRaster i w t
    = (Ok (Some (display_ret t (load_call w i))), w', t ++ [Call (load_call w i)] ++ evs) /\
    layers w' = layers w ++ [i] /\
    raster_object w' i = Some (new_object (display_ret t (load_call w i))) /\
    forallb (fun e => negb (is_load e)) evs = true /\
    forallb (fun e => negb (is_unload e)) evs = true.
Proof.
  intros Htype Hnone Hret. unfold load_call in *.
  unfold _loadRaster. rewrite bind_unfold. unfold get at 1. cbv zeta.
  destruct Htype as [Ht|Ht]; rewrite Ht in *; simpl (String.eqb _ _) in *;
    cbv iota in *; cbn [orb negb]; cbv iota.
  - rewrite bind_unfold. rewrite bind_unfold. unfold call at 1.
    unfold mret at 1, M_ret at 1. rewrite bind_unfold.
    set (id := display_ret t (Display.LoadSurface (ml_name (it_maplayer (tree w i))))) in *.
    assert ((id <? 0) = false) as -> by lia.
    unfold skip at 1, mret at 1, M_ret at 1.
    rewrite bind_unfold. unfold modify at 1. rewrite bind_unfold.
    set (w1 := set_layers (layers w ++ [i]) w).
    destruct (SetMapObjProperties_fresh_raster w1 i id "surface" (t ++ [Call (Display.LoadSurface
                (ml_name (it_maplayer (tree w i))))]))
      as (w' & Hsm & Hl & Hnv & Hsel & Hobj'); [left; by rewrite <- Ht | done | done |].
    rewrite Hsm. unfold GetLayerNames. run_monad. cbn [String.eqb Ascii.eqb Bool.eqb].
    destruct (has_nviz w' && bool_decide (selected w' = Some i)); cbv iota;
      [eexists _, [_; _] | eexists _, [_]];
      (split; [rewrite <- !app_assoc; reflexivity|]);
      (split; [by rewrite Hl|]); (split; [done|]); done.
  - rewrite bind_unfold. rewrite bind_unfold. unfold call at 1.
    unfold mret at 1, M_ret at 1. rewrite bind_unfold.
    set (id := display_ret t (Display.LoadVolume (ml_name (it_maplayer (tree w i))))) in *.
    assert ((id <? 0) = false) as -> by lia.
    unfold skip at 1, mret at 1, M_ret at 1.
    rewrite bind_unfold. unfold modify at 1. rewrite bind_unfold.
    set (w1 := set_layers (layers w ++ [i]) w).
    destruct (SetMapObjProperties_fresh_raster w1 i id "volume" (t ++ [Call (Display.LoadVolume
                (ml_name (it_maplayer (tree w i))))]))
      as (w' & Hsm & Hl & Hnv & Hsel & Hobj'); [right; by rewrite <- Ht | done | done |].
    rewrite Hsm. run_monad.
    destruct (has_nviz w' && bool_decide (selected w' = Some i)); cbv iota;
      eexists _, [_];
      (split; [rewrite <- !app_assoc; reflexivity|]);
      (split; [by rewrite Hl|]); (split; [done|]); done.
Qed.

(** X20: loading a raster (or 3d raster) that has no properties yet and
    unloading it again is a round trip.  When the engine answers the load
    with a positive id, the item is appended to [self.layers] and the id
    is recorded; the unload passes this same id to the engine, removes the
    record and gives [self.layers] back as it was before the load. *)
Theorem load_unload_raster_roundtrip (w : World) (i : item) (t : list Event) :
  ml_type (it_maplayer (tree w i)) = "raster"%string
  \/ ml_type (it_maplayer (tree w i)) = "3d-raster"%string ->
  it_nviz (tree w i) = None ->
  i ∉ layers w ->
  let id := display_ret t (load_call w i) in
  0 < id ->
  exists w1 t1 w2 evs,
    _loadRaster i w t = (Ok (Some id), w1, t1)
    /\ layers w1 = layers w ++ [i]
    /\ o_id <$> raster_object w1 i = Some id
    /\ _unloadRaster i w1 t1 = (Ok tt, w2, t1 ++ [Call (unload_call w i id)] ++ evs)
    /\ forallb (fun e => negb (is_unload e)) evs = true
    /\ layers w2 = layers w
    /\ raster_object w2 i = None.
Proof.
  intros Htype Hnone Hnot id Hid.
  destruct (loadRaster_succeeded w i t Htype Hnone Hid)
    as (w1 & evs1 & Hrun1 & Hls1 & Hobj1 & _ & _).
  pose proof (loadRaster_keeps_maplayers w i w t (fun j => eq_refl)) as Hml.
  rewrite Hrun1 in Hml. simpl in Hml.
  assert (Hin : i ∈ layers w1)
    by (rewrite Hls1; apply elem_of_app; right; apply list_elem_of_here).
  destruct (unloadRaster_run w1 i (new_object id) (t ++ [Call (load_call w i)] ++ evs1))
    as (w2 & gui & Hrun2 & Hgui & Hobj2 & Hrm); [by rewrite Hml|done|done|].
  rewrite Hls1, remove_first_middle in Hrm by done.
  rewrite app_nil_r in Hrm. injection Hrm as Hls2.
  eexists w1, _, w2, (_ :: gui).
  split; [exact Hrun1|]. split; [done|]. split; [by rewrite Hobj1|].
  split; [|split; [|split; [done|done]]].
  - rewrite Hrun2. unfold unload_call. rewrite Hml. reflexivity.
  - cbn [forallb]. rewrite Hgui, andb_true_r. unfold unload_log.
    by destruct (String.eqb _ _), (_ =? 0).
Qed.

(** ** A cutting plane that is not there *)

(** X21: when [event.current] is no position of [self.cplanes] (the list
    is empty until [InitCPlanes] has run), [UpdateCPlane] calls the engine
    for nothing: it raises [IndexError] at the first listed group that it
    knows, and returns when it knows none of the listed groups. *)
Theorem UpdateCPlane_no_plane (w : World) (t : list Event) (event : CPlaneEvent) :
  Py.index (cplanes w) (ev_current event) = None ->
  UpdateCPlane event w t
  = (if existsb is_cplane_group (ev_update event) then Raise IndexError else Ok tt, w, t).
Proof.
  intros Hp. unfold UpdateCPlane. cbv zeta.
  induction (ev_update event) as [|each l IH]; [done|].
  cbn [for_each existsb]. rewrite bind_unfold. unfold is_cplane_group at 1.
  destruct (String.eqb each "rotation") eqn:Hr.
  - run_monad. by rewrite Hp.
  - destruct (String.eqb each "position") eqn:Hpo.
    + run_monad. by rewrite Hp.
    + destruct (String.eqb each "shading") eqn:Hs.
      * run_monad. by rewrite Hp.
      * cbn [orb]. rewrite <- IH. by run_monad.
Qed.

(** ** A vector with points and lines *)

(** X22: a vector that has points and lines is registered twice.  The
    load pass (the tool window being there to tell the numbers of
    features) calls [LoadVector] once for the points and once for the
    lines, and each call appends the item to [self.layers]. *)
Theorem vector_registered_twice (w : World) (i : item) (t : list Event)
    (npoints nlines : Z) :
  has_nviz w = true ->
  it_type (tree w i) = "vector"%string ->
  loadable_vector w i ->
  defaults_without_object ->
  i ∉ layers w ->
  Py.contains " " (ml_name (it_maplayer (tree w i))) = false ->
  VectorInfo (it_maplayer (tree w i)) = (npoints, nlines) ->
  0 < npoints -> 0 < nlines ->
  exists w' evs,
    LoadDataLayers [i] w t = (Ok tt, w', t ++ evs)
    /\ layers w' = layers w ++ [i; i].
Proof.
  intros Hnviz Htype Hload Hdef Hnot Hname Hinfo Hnp Hnl.
  destruct (LoadVector_run w i true t Hload Hdef)
    as (w1 & pre1 & post1 & l1 & p1 & Hrun1 & _ & _ & Hd1 & _ & _ & Hls1 & Hfr1).
  cbv zeta in Hrun1.
  pose proof (loadable_vector_after w w1 i l1 p1 Hload Hfr1 Hd1) as Hload1.
  destruct (LoadVector_run w1 i false (t ++ pre1 ++ [Call (Display.LoadVector
              (ml_name (it_maplayer (tree w i))) true)] ++ post1) Hload1 Hdef)
    as (w2 & pre2 & post2 & l2 & p2 & Hrun2 & _ & _ & _ & _ & _ & Hls2 & _).
  cbv zeta in Hrun2.
  eexists (set_init false w2), _. split.
  - unfold LoadDataLayers. cbn [rev app load_items].
    rewrite (bind_unfold get). unfold get at 1.
    rewrite bool_decide_eq_false_2 by done. rewrite Hname, Htype, Hnviz, Hinfo.
    cbn [String.eqb Ascii.eqb Bool.eqb negb]. cbv iota.
    assert ((0 <? npoints) = true) as -> by lia.
    assert ((0 <? nlines) = true) as -> by lia.
    rewrite bind_unfold. unfold try_GException.
    rewrite !bind_unfold, Hrun1. unfold skip at 1, mret at 1, M_ret at 1.
    rewrite !bind_unfold, Hrun2. unfold skip, mret, M_ret, modify.
    rewrite <- !app_assoc. reflexivity.
  - cbn [layers set_init]. by rewrite Hls2, Hls1, <- app_assoc.
Qed.

(** X27: without the tool window no vector is loaded.  When the load pass
    comes to a checked vector that is not loaded yet, it asks the tool
    window for the numbers of features; if the window is not there, the
    pass ends with an [AttributeError], which the handler of the loop does
    not catch: no engine call is made, nothing is loaded, and the layers
    before the vector in the list are not looked at. *)
Theorem LoadDataLayers_vector_no_toolwindow (w : World) (before after : list item)
    (i : item) (t : list Event) :
  has_nviz w = false ->
  it_type (tree w i) = "vector"%string ->
  i ∉ layers w ->
  Py.contains " " (ml_name (it_maplayer (tree w i))) = false ->
  (forall j, j ∈ after -> j ∈ layers w) ->
  LoadDataLayers (before ++ i :: after) w t = (Raise AttributeError, w, t).
Proof.
  intros Hnviz Htype Hnot Hname Hafter. unfold LoadDataLayers.
  rewrite rev_app_distr. cbn [rev]. rewrite <- app_assoc.
  rewrite load_items_loaded_prefix
    by (intros j Hj; apply Hafter; by apply list_elem_of_In, in_rev, list_elem_of_In).
  cbn [app load_items]. rewrite (bind_unfold get). unfold get at 1.
  rewrite bool_decide_eq_false_2 by done. rewrite Hname, Htype, Hnviz.
  cbn [String.eqb Ascii.eqb Bool.eqb negb]. cbv iota.
  by rewrite bind_unfold.
Qed.

(** ** Reset and the vectors *)

(** Unloading a vector leaves the other layers, the map layers and the
    flag [init] as they are. *)
Lemma UnloadVector_keeps_others (w0 : World) (i : item) (points : option bool) :
  preserves (fun w => (forall j, j <> i -> tree w j = tree w0 j)
                      /\ (forall j, it_maplayer (tree w j) = it_maplayer (tree w0 j))
                      /\ init w = init w0)
    (UnloadVector i points).
Proof.
  unfold UnloadVector. apply preserves_bind; [apply preserves_get|intros w1].
  cbv zeta. apply preserves_bind; [apply preserves_require|intros data].
  apply preserves_bind; [apply preserves_require|intros v].
  apply preserves_for_each. intros vt. unfold unload_vecType, update_ref.
  repeat first
    [ preserves_step
    | apply preserves_modify; intros w (Hw & Hml & Hinit); cbn [set_ref_data];
      (split; [intros j Hj; unfold set_nviz; cbn [tree set_tree];
               rewrite fn_lookup_insert_ne by done; by apply Hw|]);
      (split; [intros j; rewrite maplayer_set_nviz; apply Hml|]); done ].
Qed.

Lemma UnloadVector_both (w : World) (i : item) (data : nviz_data) (v : vector_data)
    (t : list Event) :
  it_nviz (tree w i) = Some data -> nv_vector data = Some v ->
  exists w' evs data' v',
    UnloadVector i None w t = (Ok tt, w', t ++ evs) /\
    vector_object w' i "points" = None /\ vector_object w' i "lines" = None /\
    layers w' = layers w /\
    it_nviz (tree w' i) = Some data' /\ nv_vector data' = Some v' /\
    (forall j, j <> i -> tree w' j = tree w j) /\
    (forall j, it_maplayer (tree w' j) = it_maplayer (tree w j)) /\
    init w' = init w.
Proof.
  intros Hdata Hv.
  set (layer := it_maplayer (tree w i)).
  destruct (unload_vecType_run w i layer "points" data v t Hdata Hv)
    as (w1 & evs1 & data1 & v1 & Hrun1 & Hnone1 & Hother1 & Hl1 & Hdata1 & Hv1 & _).
  destruct (unload_vecType_run w1 i layer "lines" data1 v1 (t ++ evs1) Hdata1 Hv1)
    as (w2 & evs2 & data2 & v2 & Hrun2 & Hnone2 & Hother2 & Hl2 & Hdata2 & Hv2 & _).
  assert (Hrun : UnloadVector i None w t = (Ok tt, w2, t ++ evs1 ++ evs2)).
  { unfold UnloadVector. rewrite bind_unfold. unfold get at 1. cbv zeta.
    rewrite bind_unfold. unfold require at 1. rewrite Hdata. unfold mret at 1, M_ret at 1.
    rewrite bind_unfold. unfold require at 1. rewrite Hv. unfold mret at 1, M_ret at 1.
    cbn [vecTypes_of for_each]. fold layer.
    rewrite bind_unfold, Hrun1, bind_unfold, Hrun2. unfold mret, M_ret.
    by rewrite app_assoc. }
  pose proof (UnloadVector_keeps_others w i None w t) as Hkeep.
  rewrite Hrun in Hkeep. simpl in Hkeep.
  destruct Hkeep as (Hothers & Hml & Hinit); [done|].
  exists w2, (evs1 ++ evs2), data2, v2.
  split; [done|]. split; [by rewrite Hother2|]. split; [done|].
  split; [congruence|]. done.
Qed.

Lemma vector_object_tree (w w' : World) (i : item) (vt : string) :
  tree w' i = tree w i -> vector_object w' i vt = vector_object w i vt.
Proof. intros Ht. unfold vector_object. by rewrite Ht. Qed.

(** The loop of [Reset] on vectors: no visit changes the list, and every
    item from the position on is visited. *)
Lemma for_layers_unload_vectors (fuel : nat) :
  forall (pos : nat) (w : World) (t : list Event),
    (length (layers w) - pos < fuel)%nat ->
    (forall i, i ∈ layers w ->
       ml_type (it_maplayer (tree w i)) = "vector"%string
       /\ exists data v, it_nviz (tree w i) = Some data /\ nv_vector data = Some v) ->
    exists w' evs,
      for_layers fuel pos unload_layer w t = (Ok true, w', t ++ evs)
      /\ layers w' = layers w
      /\ init w' = init w
      /\ (forall j, j ∈ drop pos (layers w) ->
            vector_object w' j "points" = None /\ vector_object w' j "lines" = None)
      /\ (forall j, j ∉ drop pos (layers w) -> tree w' j = tree w j).
Proof.
  induction fuel as [|fuel IH]; intros pos w t Hfuel Hall; [lia|].
  cbn [for_layers]. rewrite bind_unfold. unfold get.
  destruct (layers w !! pos) as [i|] eqn:Hpos.
  - assert (Hin : i ∈ layers w) by by eapply list_elem_of_lookup_2.
    destruct (Hall i Hin) as (Ht & data & v & Hdata & Hv).
    destruct (UnloadVector_both w i data v t Hdata Hv)
      as (w1 & evs1 & data1 & v1 & Hrun1 & Hp1 & Hl1 & Hls1 & Hdata1 & Hv1 & Hothers1
          & Hml1 & Hinit1).
    assert (Hstep : unload_layer i w t = (Ok tt, w1, t ++ evs1)).
    { unfold unload_layer. rewrite bind_unfold. unfold get. cbv zeta. by rewrite Ht. }
    rewrite bind_unfold, Hstep.
    destruct (IH (S pos) w1 (t ++ evs1)) as (w' & evs & Hrun & Hls' & Hinit' & Hnone' & Hsame').
    + rewrite Hls1. apply lookup_lt_Some in Hpos. lia.
    + intros j Hj. rewrite Hls1 in Hj. rewrite Hml1.
      destruct (decide (j = i)) as [->|Hne].
      * split; [done|]. by exists data1, v1.
      * rewrite (Hothers1 j Hne). destruct (Hall j Hj) as (? & ?). done.
    + exists w', (evs1 ++ evs). rewrite Hls1 in *.
      split; [by rewrite Hrun, app_assoc|]. split; [done|]. split; [congruence|].
      rewrite (drop_S _ _ _ Hpos). split.
      * intros j Hj. destruct (decide (j ∈ drop (S pos) (layers w))) as [Hd|Hd];
          [by apply Hnone'|].
        apply elem_of_cons in Hj as [-> | Hj]; [|done].
        by rewrite !(vector_object_tree w1 w') by (by apply Hsame').
      * intros j Hj. apply not_elem_of_cons in Hj as [Hne Hj].
        rewrite (Hsame' j Hj). by apply Hothers1.
  - exists w, []. rewrite app_nil_r. apply lookup_ge_None_1 in Hpos.
    rewrite drop_ge by done. repeat (split; [done|]). split; [|done].
    by intros j ?%elem_of_nil.
Qed.

(** X23: [Reset] leaves the vectors in [self.layers].  Of loaded vectors
    it removes the ['object'] records of the points and of the lines, but
    [UnloadVector] does not take the item off the list; so after [Reset]
    (which clears [init]) every later load pass steps over these vectors:
    they are not loaded again. *)
Theorem Reset_vectors_stay (w : World) (t : list Event) :
  (forall i, i ∈ layers w ->
     ml_type (it_maplayer (tree w i)) = "vector"%string
     /\ exists data v, it_nviz (tree w i) = Some data /\ nv_vector data = Some v) ->
  exists w' evs,
    Reset w t = (Ok true, w', t ++ evs)
    /\ layers w' = layers w
    /\ init w' = false
    /\ (forall i vt, i ∈ layers w -> vector_object w' i vt = None)
    /\ (forall i l t2, i ∈ layers w ->
          LoadDataLayers l w' t2 = LoadDataLayers (filter (fun j => j <> i) l) w' t2).
Proof.
  intros Hall.
  destruct (for_layers_unload_vectors (S (length (layers w))) 0 w t)
    as (w' & evs & Hrun & Hls & Hinit & Hnone & _); [lia|done|].
  exists (set_init false w'), evs. unfold Reset. rewrite bind_unfold. unfold get at 1.
  rewrite bind_unfold, Hrun.
  split; [done|]. split; [done|]. split; [done|]. split.
  - intros i vt Hi. destruct (Hnone i) as [Hp Hl]; [by rewrite drop_0|].
    rewrite (vector_object_tree w' (set_init false w')) by done.
    unfold vector_object in *.
    destruct (it_nviz (tree w' i)) as [data|]; [|done]. simpl in *.
    destruct (nv_vector data) as [v|]; [|done]. simpl in *.
    by destruct (String.eqb vt "lines").
  - intros i l t2 Hi. unfold LoadDataLayers. rewrite rev_filter.
    apply load_items_skips_loaded. cbn [layers set_init]. by rewrite Hls.
Qed.

(** ** Volumes *)

(** A loop whose body always returns and keeps an invariant returns and
    keeps it. *)
Lemma for_each_ok {S A} (P : S -> Prop) (l : list A) (body : A -> M S unit) :
  (forall x s t, P s -> exists s' evs, body x s t = (Ok tt, s', t ++ evs) /\ P s') ->
  forall s t, P s -> exists s' evs, for_each l body s t = (Ok tt, s', t ++ evs) /\ P s'.
Proof.
  intros Hbody. induction l as [|x l IH]; intros s t Hs.
  - exists s, []. by rewrite app_nil_r.
  - destruct (Hbody x s t Hs) as (s1 & evs1 & Hrun1 & Hs1).
    destruct (IH s1 (t ++ evs1) Hs1) as (s2 & evs2 & Hrun2 & Hs2).
    exists s2, (evs1 ++ evs2). cbn [for_each].
    rewrite bind_unfold, Hrun1, Hrun2. by rewrite app_assoc.
Qed.

(** What the loop over the isosurfaces leaves alone. *)
Lemma pop_iso_update_draw (d0 : volume_data) (n : nat) (attrb : string) (d : volume_data) :
  vo_resolution d = vo_resolution d0 /\ vo_shading d = vo_shading d0
  /\ length (vo_isosurface d) = length (vo_isosurface d0) /\ vo_object d = vo_object d0 ->
  vo_resolution (pop_iso_update n attrb d) = vo_resolution d0
  /\ vo_shading (pop_iso_update n attrb d) = vo_shading d0
  /\ length (vo_isosurface (pop_iso_update n attrb d)) = length (vo_isosurface d0)
  /\ vo_object (pop_iso_update n attrb d) = vo_object d0.
Proof.
  intros (Hr & Hs & Hl & Ho). unfold pop_iso_update. cbn. by rewrite length_alter.
Qed.

Lemma isosurface_attr_ok (id : Z) (d0 : volume_data) (n : nat) (attrb : string)
    (d : volume_data) (t : list Event) :
  let P := fun d : volume_data =>
    vo_resolution d = vo_resolution d0 /\ vo_shading d = vo_shading d0
    /\ length (vo_isosurface d) = length (vo_isosurface d0) /\ vo_object d = vo_object d0 in
  P d ->
  exists d' evs,
    (data ← get;
     match vo_isosurface data !! n ≫= (fun isosurf : gmap string attr => isosurf !! attrb) with
     | None => skip
     | Some a =>
         if negb (a_update a) then skip
         else
           let value := a_value a in
           match a_map a with
           | None =>
               (if String.eqb attrb "mask" then
                  call (Display.UnsetIsosurfaceMask id (Z.of_nat n)) ;; skip
                else if String.eqb attrb "transp" then
                  call (Display.UnsetIsosurfaceTransp id (Z.of_nat n)) ;; skip
                else if String.eqb attrb "emit" then
                  call (Display.UnsetIsosurfaceEmit id (Z.of_nat n)) ;; skip
                else skip) ;;
               modify (pop_iso_update n attrb)
           | Some map =>
               if is_empty_str value then skip
               else
                 (if String.eqb attrb "color" then
                    call (Display.SetIsosurfaceColor id (Z.of_nat n) map (VStr (str value))) ;; skip
                  else if String.eqb attrb "mask" then
                    call (Display.SetIsosurfaceMask id (Z.of_nat n) false (VStr (str value))) ;; skip
                  else if String.eqb attrb "transp" then
                    call (Display.SetIsosurfaceTransp id (Z.of_nat n) map (VStr (str value))) ;; skip
                  else if String.eqb attrb "shine" then
                    call (Display.SetIsosurfaceShine id (Z.of_nat n) map (VStr (str value))) ;; skip
                  else if String.eqb attrb "emit" then
                    call (Display.SetIsosurfaceEmit id (Z.of_nat n) map (VStr (str value))) ;; skip
                  else skip) ;;
                 modify (pop_iso_update n attrb)
           end
     end) d t = (Ok tt, d', t ++ evs) /\ P d'.
Proof.
  intros P HP. rewrite bind_unfold. unfold get at 1.
  destruct (vo_isosurface d !! n ≫= _) as [a|];
    [|exists d, []; by rewrite app_nil_r].
  destruct (a_update a); cbn [negb]; [|exists d, []; by rewrite app_nil_r].
  cbv zeta. destruct (a_map a) as [map|].
  - destruct (is_empty_str (a_value a)); [exists d, []; by rewrite app_nil_r|].
    destruct (String.eqb attrb "color"), (String.eqb attrb "mask"),
      (String.eqb attrb "transp"), (String.eqb attrb "shine"), (String.eqb attrb "emit");
      run_monad;
      first [ exists (pop_iso_update n attrb d), [];
              split; [by rewrite app_nil_r|by apply pop_iso_update_draw]
            | eexists (pop_iso_update n attrb d), [_];
              split; [reflexivity|by apply pop_iso_update_draw] ].
  - destruct (String.eqb attrb "mask"), (String.eqb attrb "transp"),
      (String.eqb attrb "emit");
      run_monad;
      first [ exists (pop_iso_update n attrb d), [];
              split; [by rewrite app_nil_r|by apply pop_iso_update_draw]
            | eexists (pop_iso_update n attrb d), [_];
              split; [reflexivity|by apply pop_iso_update_draw] ].
Qed.

(** X24: [UpdateVolumeProperties] always returns.  After it the resolution
    and the shading are not marked for update any more; the resolution is
    the same, a shading that was not negative is the same (a negative one
    is calculated, and nothing is sent to the engine for it), and the
    isosurfaces are as many as before. *)
Theorem UpdateVolumeProperties_settles_draw (id : Z) (d : volume_data) (t : list Event) :
  exists d' evs,
    UpdateVolumeProperties id d t = (Ok tt, d', t ++ evs)
    /\ pu (vo_resolution d') = false /\ pu (vo_shading d') = false
    /\ pv (vo_resolution d') = pv (vo_resolution d)
    /\ (0 <= pv (vo_shading d) -> pv (vo_shading d') = pv (vo_shading d))
    /\ length (vo_isosurface d') = length (vo_isosurface d)
    /\ vo_object d' = vo_object d.
Proof.
  unfold UpdateVolumeProperties.
  set (body := fun n : nat => for_each ["color"; "mask"; "transp"; "shine"; "emit"]%string _).
  assert (Hloop : forall (l : list nat) d1 t1,
            exists d' evs,
              for_each l body d1 t1 = (Ok tt, d', t1 ++ evs)
              /\ vo_resolution d' = vo_resolution d1 /\ vo_shading d' = vo_shading d1
              /\ length (vo_isosurface d') = length (vo_isosurface d1)
              /\ vo_object d' = vo_object d1).
  { intros l d1 t1.
    apply (for_each_ok (fun x => vo_resolution x = vo_resolution d1
                                 /\ vo_shading x = vo_shading d1
                                 /\ length (vo_isosurface x) = length (vo_isosurface d1)
                                 /\ vo_object x = vo_object d1)); [|done].
    intros n s t2 Hs. subst body. cbv beta.
    apply (for_each_ok _ _ _ (fun attrb s' t' Hs' =>
      isosurface_attr_ok id d1 n attrb s' t' Hs')). exact Hs. }
  clearbody body.
  destruct d as [[r ru] [sh su] iso ob].
  destruct ru, su; [destruct (Z.ltb_spec sh 0)| |destruct (Z.ltb_spec sh 0)|];
    run_monad; cbn [vo_resolution vo_shading pu pv set_vo_resolution set_vo_shading set_pu
                    set_pv vo_isosurface vo_object];
    rewrite ?(proj2 (Z.ltb_lt _ _)), ?(proj2 (Z.ltb_ge _ _)) by done;
    cbn [vo_resolution vo_shading pu pv set_vo_resolution set_vo_shading set_pu
         set_pv vo_isosurface vo_object];
    match goal with
    | |- context [for_each ?l body ?d1 ?t1] =>
        destruct (Hloop l d1 t1) as (d' & evs & Hrun & Hr & Hs & Hl & Ho);
        rewrite Hrun
    end;
    first [ eexists d', (_ :: evs); split; [by rewrite <- app_assoc|]
          | eexists d', evs; split; [reflexivity|] ];
    rewrite Hr, Hs, Hl, Ho; repeat split; try done; cbn; intros; lia.
Qed.

(** ** A vector set up for the first time *)

(** X25: the first [SetMapObjProperties] on a vector (no properties yet,
    a command to take the colour from, no id to record) drapes it on the
    loaded rasters: the reference surfaces of its lines and of its points
    are the names that [GetLayerNames] gives for the rasters, in the order
    of [self.layers], all shown; no event is posted. *)
Theorem fresh_vector_draped (w : World) (i : item) (id : Z) (nvizType : string)
    (t : list Event) :
  id <= 0 ->
  not_data (it_nviz (tree w i)) = true ->
  ml_type (it_maplayer (tree w i)) = "vector"%string ->
  it_cmd (tree w i) <> [] ->
  exists w' l p names,
    SetMapObjProperties (TreeItem i) id nvizType w t = (Ok tt, w', t) /\
    vector_dicts w' i = Some (l, p) /\
    GetLayerNames "raster" w = Ok names /\
    vm_surface (vl_mode l) = Some (mk_surf_ref names (map (fun _ => true) names)) /\
    vm_surface (vp_mode p) = Some (mk_surf_ref names (map (fun _ => true) names)).
Proof.
  intros Hid Hnd Ht Hcmd.
  assert (Hid' : (0 <? id) = false) by lia.
  destruct (SetVectorFromCmd_ok i w SetVectorDefaultProp Hcmd) as (v & Hv & Hvl & Hvp).
  destruct (GetLayerNames_layers "raster" w eq_refl) as [names Hnames].
  assert (Hsr : vector_surface w = Ok (mk_surf_ref names (map (fun _ => true) names)))
    by (unfold vector_surface; by rewrite Hnames).
  unfold SetMapObjProperties. rewrite Hid'.
  rewrite (bind_unfold get). unfold get at 1. rewrite !Ht.
  cbn [String.eqb Ascii.eqb Bool.eqb]. cbv iota.
  rewrite bind_unfold. unfold read at 1, ref_data at 1. rewrite bind_unfold, Hnd.
  rewrite bind_unfold. unfold modify at 1.
  rewrite bind_unfold.
  erewrite update_ref_run; [|apply it_nviz_set_nviz|reflexivity].
  rewrite (bind_unfold get). unfold get at 1.
  rewrite bind_unfold.
  erewrite update_ref_run;
    [|apply it_nviz_set_nviz|rewrite !SetVectorFromCmd_set_nviz, Hv; reflexivity].
  rewrite (bind_unfold get). unfold get at 1.
  rewrite bind_unfold.
  erewrite update_ref_run;
    [|apply it_nviz_set_nviz|rewrite !vector_surface_set_nviz, Hsr; reflexivity].
  rewrite (bind_unfold get). unfold get at 1.
  erewrite update_ref_run;
    [|apply it_nviz_set_nviz|rewrite !vector_surface_set_nviz, Hsr; reflexivity].
  unfold skip, mret, M_ret. eexists _, _, _, names. split; [reflexivity|].
  unfold vector_dicts. rewrite it_nviz_set_nviz. simpl.
  split; [reflexivity|]. split; [done|]. split; reflexivity.
Qed.

(** ** Point properties *)

Lemma vpoints_clean_run (w : World) (id : Z) (d : vpoints_data) (t : list Event) :
  pu (vp_size d) = false -> pu (vp_width d) = false -> pu (vp_marker d) = false ->
  pu (vp_color d) = false -> pu (vp_height d) = false -> vm_update (vp_mode d) = false ->
  UpdateVectorPointsProperties w id d t = (Ok tt, d, t).
Proof.
  intros Hs Hw Hm Hc Hh Hu. unfold UpdateVectorPointsProperties. run_monad.
  cbn. rewrite Hs, Hw, Hm, Hc. cbn. rewrite Hh. cbn. by rewrite Hu.
Qed.

(** X26: when [UpdateVectorPointsProperties] returns, no update flag is
    left on the size, the width, the marker, the colour, the height or the
    mode, and a second pass over the dictionary calls nothing and changes
    nothing. *)
Theorem UpdateVectorPointsProperties_settles (w : World) (id : Z) (d d' : vpoints_data)
    (t t' : list Event) :
  UpdateVectorPointsProperties w id d t = (Ok tt, d', t') ->
  pu (vp_size d') = false /\ pu (vp_width d') = false /\ pu (vp_marker d') = false
  /\ pu (vp_color d') = false /\ pu (vp_height d') = false
  /\ vm_update (vp_mode d') = false
  /\ forall t2, UpdateVectorPointsProperties w id d' t2 = (Ok tt, d', t2).
Proof.
  intros Hrun.
  assert (Hflags : pu (vp_size d') = false /\ pu (vp_width d') = false
                   /\ pu (vp_marker d') = false /\ pu (vp_color d') = false
                   /\ pu (vp_height d') = false /\ vm_update (vp_mode d') = false).
  { revert Hrun. unfold UpdateVectorPointsProperties.
    destruct d as [[s su] [wd wu] [m mu] [c cu] [ty vu sf] [h hu] ob].
    run_monad.
    cbn [pu pv vp_size vp_width vp_marker vp_color vp_mode vp_height vm_update vm_surface].
    destruct su, wu, mu, cu; cbn [orb]; cbv beta iota;
      try (destruct (display_ret t (Display.SetVectorPointMode id c wd s (m + 1)) =? -1);
           [cbn; intros [=]|];
           destruct (display_ret t (Display.SetVectorPointMode id c wd s (m + 1)) =? -2);
           [cbn; intros [=]|]);
      destruct hu, vu, sf as [sr|]; cbn;
      try (intros [= <- _]; done); try (intros [=]; done);
      match goal with
      | |- context [update_surface_refs w ?sr ?a ?b ?s ?t] =>
          pose proof (update_surface_refs_state w sr a b s t) as Hst;
          destruct (update_surface_refs w sr a b s t) as [[[[]|e] s1] t1];
          simpl in Hst; subst s1; cbn; intros [= <- _]; done
      end. }
  destruct Hflags as (Hs & Hw & Hm & Hc & Hh & Hu). repeat (split; [done|]).
  intros t2. by apply vpoints_clean_run.
Qed.

End Proofs.

(** ** Instances on the sample data *)

Lemma OnMouseAction_persp_clamped_witness :
  120 <> 0 /\
  let r := @OnMouseAction (Sample.collab Sample.counting) (Wheel 120)
             (set_persp 1 Sample.world0) [] in
  r.1.1 = Ok tt /\
  1 <= persp_value (view r.1.2) <= 100 /\
  (persp_value (view r.1.2) = persp_value (view (set_persp 1 Sample.world0)) ->
   r.2 = [] ++ [Gui EventSkip]).
Proof.
  split; [lia|].
  apply (@OnMouseAction_persp_clamped (Sample.collab Sample.counting)
           (set_persp 1 Sample.world0) [] 120); lia.
Defined.

Lemma UpdateCPlane_pushes_listed_witness :
  Py.index (cplanes Sample.world0) 1 = Some (mk_cplane 10 20 1 2 3 "top") /\
  exists evs,
    @UpdateCPlane (Sample.collab Sample.counting)
      (mk_cplane_event 1 ["shading"; "rotation"]%string) Sample.world0 []
    = (Ok tt, Sample.world0, [] ++ evs) /\
    evs = [Call (Display.SetFenceColor "top"); Call (Display.SetCPlaneRotation 0 10 20)].
Proof.
  split; [reflexivity|].
  destruct (@UpdateCPlane_pushes_listed (Sample.collab Sample.counting)
              Sample.world0 [] (mk_cplane_event 1 ["shading"; "rotation"]%string)
              (mk_cplane 10 20 1 2 3 "top") eq_refl) as (evs & Hrun & Hevs & _).
  exists evs. split; [exact Hrun | exact Hevs].
Defined.

Lemma surface_push_dirty_only_witness :
  nv_surface (Sample.nviz_of Sample.surface1) = Some (Dict Sample.surface1) /\
  s_object Sample.surface1 = Some (mk_object 1 false false) /\
  exists d' evs,
    @UpdateMapObjProperties (Sample.collab Sample.counting) Sample.world0
      (Sample.nviz_of Sample.surface1) [] = (Ok tt, d', [] ++ evs) /\
    pushed evs "color" = true /\
    (forall t', @UpdateMapObjProperties (Sample.collab Sample.counting) Sample.world0 d' t'
                = (Ok tt, d', t')).
Proof.
  split; [reflexivity|]. split; [reflexivity|].
  destruct (@surface_push_dirty_only (Sample.collab Sample.counting) Sample.world0
              (Sample.nviz_of Sample.surface1) Sample.surface1 (mk_object 1 false false) []
              eq_refl eq_refl) as (d' & s' & evs & Hrun & _ & Hpush & _ & Hagain).
  exists d', evs. split; [exact Hrun|]. split; [|exact Hagain].
  rewrite Hpush; [reflexivity|]. unfold surface_groups, attr_names. simpl.
  repeat constructor.
Defined.

(** C1 as stated fails: the colour of [Sample.surface_nocolor] is dirty,
    yet the pass pushes nothing for it, and it is still dirty afterwards. *)
Lemma surface_push_dirty_not_pushed :
  let r := @UpdateSurfaceProperties (Sample.collab Sample.counting) 1
             Sample.surface_nocolor [] in
  r.1.1 = Ok tt /\
  ~ (pushed r.2 "color" = true <-> dirty Sample.surface_nocolor "color" = true) /\
  r.2 = [] /\
  dirty r.1.2 "color" = true.
Proof.
  vm_compute. split; [reflexivity|]. split; [|split; reflexivity].
  intros [_ Hd]. specialize (Hd eq_refl). discriminate Hd.
Qed.

Lemma apply_to_all_targets_wildcard_witness :
  d_all (s_draw Sample.surface_all) = true /\
  exists s' evs,
    @UpdateSurfaceProperties (Sample.collab Sample.counting) 1 Sample.surface_all []
    = (Ok tt, s', [] ++ evs) /\
    d_all (s_draw s') = false /\
    (forall e i, e ∈ evs -> draw_target e = Some i -> i = -1) /\
    pushed evs "resolution" = true.
Proof.
  split; [reflexivity|].
  destruct (@apply_to_all_targets_wildcard (Sample.collab Sample.counting) 1
              Sample.surface_all [] eq_refl) as (s' & evs & Hrun & Hall & Htarget & Hpush).
  exists s', evs. split; [exact Hrun|]. split; [exact Hall|]. split; [exact Htarget|].
  rewrite Hpush; [reflexivity|]. repeat constructor.
Defined.

(** C8 on [Sample.world1]: [old_dem] is the name of no loaded raster and of
    no constant, so [GetLayerId('raster', ...)] gives -1; but
    [GetLayerId('constant', ...)] gives back the list [self.constants],
    which compares greater than -1, and the surface is attached with that
    list for id, for lines and for points alike. *)
Lemma missing_surface_not_skipped :
  let C := Sample.collab Sample.counting in
  let w := Sample.world1 in
  @GetLayerId C "raster" "old_dem" None w = Ok (IdInt (-1)) /\
  @GetLayerId C "constant" "old_dem" None w = Ok (IdConstants []) /\
  gt_minus_one (IdConstants []) = true /\
  (@UpdateVectorLinesProperties C w 2 Sample.lines1 []).2
  = [Call (Display.SetVectorLineMode 2 "0:0:0" 2 false);
     Call (Display.SetVectorLineSurface 2 (IdInt 1));
     Call (Display.SetVectorLineSurface 2 (IdConstants []))] /\
  (@UpdateVectorPointsProperties C w 3 Sample.points1 []).2
  = [Call (Display.SetVectorPointSurface 3 (IdInt 1));
     Call (Display.SetVectorPointSurface 3 (IdConstants []))].
Proof. vm_compute. repeat split; reflexivity. Qed.


Lemma sample_defaults_without_object (ret : list Event -> engine_call -> Z) :
  @defaults_without_object (Sample.collab ret).
Proof. repeat split; reflexivity. Defined.

(** The engine fails to load [elevation]: the layer is registered without
    an object, and the next pass over the same tree does not touch the
    engine. *)
Lemma failed_load_stays_registered_witness :
  let C := Sample.collab Sample.failing in
  (ml_type (it_maplayer (tree Sample.world0 0%nat)) = "raster"%string
   \/ ml_type (it_maplayer (tree Sample.world0 0%nat)) = "3d-raster"%string) /\
  @display_ret C [] (load_call Sample.world0 0%nat) < 0 /\
  @defaults_without_object C /\
  raster_object Sample.world0 0%nat = None /\
  exists r w' msg evs,
    @_loadRaster C 0%nat Sample.world0 []
    = (r, w', [] ++ [Call (Display.LoadSurface "elevation"); WriteError msg] ++ evs) /\
    layers w' = [0%nat] /\
    raster_object w' 0%nat = None /\
    r = Ok (Some (-1)) /\
    @LoadDataLayers C [0%nat] w' [] = @LoadDataLayers C [] w' [].
Proof.
  intros C.
  assert (H1 : ml_type (it_maplayer (tree Sample.world0 0%nat)) = "raster"%string
               \/ ml_type (it_maplayer (tree Sample.world0 0%nat)) = "3d-raster"%string)
    by (left; reflexivity).
  assert (H2 : @display_ret C [] (load_call Sample.world0 0%nat) < 0) by reflexivity.
  assert (H3 : @defaults_without_object C) by apply sample_defaults_without_object.
  assert (H4 : raster_object Sample.world0 0%nat = None) by reflexivity.
  split; [exact H1|]. split; [exact H2|]. split; [exact H3|]. split; [exact H4|].
  destruct (proj1 (@failed_load_stays_registered C) Sample.world0 0%nat [] H1 H2 H3 H4)
    as (r & w' & msg & evs & Hrun & Hl & Hobj & Hr & _).
  exists r, w', msg, evs. split; [exact Hrun|]. split; [exact Hl|]. split; [exact Hobj|].
  split; [exact (Hr eq_refl)|].
  assert (Hi : 0%nat ∈ layers w') by (rewrite Hl; simpl; constructor).
  exact (proj1 (proj2 (@failed_load_stays_registered C) 0%nat [0%nat] w' [] Hi)).
Defined.

(** [roads] has no point and five line features: only its lines are
    loaded. *)
Lemma vector_load_by_feature_count_witness :
  let C := Sample.collab Sample.counting in
  has_nviz Sample.world0 = true /\
  it_type (tree Sample.world0 1%nat) = "vector"%string /\
  loadable_vector Sample.world0 1%nat /\
  @defaults_without_object C /\
  (1%nat ∉ layers Sample.world0) /\
  Py.contains " " (ml_name (it_maplayer (tree Sample.world0 1%nat))) = false /\
  @VectorInfo C (it_maplayer (tree Sample.world0 1%nat)) = (0, 5) /\
  exists w' evs,
    @LoadDataLayers C [1%nat] Sample.world0 [] = (Ok tt, w', [] ++ evs) /\
    load_calls evs = [Call (Display.LoadVector "roads" false)] /\
    (Call (Display.LoadVector "roads" true) ∉ evs) /\
    o_id <$> vector_object w' 1%nat "points" = None.
Proof.
  intros C.
  assert (H0 : has_nviz Sample.world0 = true) by reflexivity.
  assert (H1 : it_type (tree Sample.world0 1%nat) = "vector"%string) by reflexivity.
  assert (H2 : loadable_vector Sample.world0 1%nat)
    by (split; [reflexivity | left; split; [reflexivity | discriminate]]).
  assert (H3 : @defaults_without_object C) by apply sample_defaults_without_object.
  assert (H4 : 1%nat ∉ layers Sample.world0) by apply not_elem_of_nil.
  assert (H5 : Py.contains " " (ml_name (it_maplayer (tree Sample.world0 1%nat))) = false)
    by reflexivity.
  assert (H6 : @VectorInfo C (it_maplayer (tree Sample.world0 1%nat)) = (0, 5))
    by reflexivity.
  repeat (split; [assumption|]).
  destruct (@vector_load_by_feature_count C Sample.world0 1%nat [] 0 5 H0 H1 H2 H3 H4 H5 H6)
    as (w' & evs & Hrun & Hp & _ & Hcalls & _ & _ & Hop & _).
  exists w', evs. split; [exact Hrun|]. split; [exact Hcalls|].
  split; [intros Hin; apply Hp in Hin; lia|].
  rewrite Hop by lia. reflexivity.
Defined.

(** Only the vector [roads] is loaded. *)
Lemma Nviz_cmd_command_insufficient_witness :
  let w := set_layers [1%nat] Sample.world1 in
  rasters_of w = [] /\ constants w = [] /\
  @Nviz_cmd_command (Sample.collab Sample.counting) w
  = Ok "At least one raster map required".
Proof.
  intros w. split; [reflexivity|]. split; [reflexivity|].
  apply (@Nviz_cmd_command_insufficient (Sample.collab Sample.counting) w); reflexivity.
Defined.

(** No raster and no constant: the call does not raise; a text that is
    not a command comes back. *)
Lemma no_layer_message_returned :
  let C := Sample.collab Sample.counting in
  let w := set_layers [1%nat] Sample.world1 in
  rasters_of w = [] /\ constants w = [] /\
  ~ (exists e, @Nviz_cmd_command C w = Raise e) /\
  exists s, @Nviz_cmd_command C w = Ok s /\ Py.contains "nviz_cmd" s = false.
Proof.
  intros C w. split; [reflexivity|]. split; [reflexivity|]. split.
  - intros [e He]. discriminate He.
  - eexists. split; reflexivity.
Qed.

(** [elevation] and [geology] with the same draw dictionary give the
    compact form; with [geology] as a coarse wire mesh, the six lists, the
    constant last. *)
Lemma Nviz_cmd_command_draw_mode_witness :
  let C := Sample.collab Sample.counting in
  let coarse := set_s_draw Sample.draw_coarse Sample.surface1 in
  rasters_of (Sample.world2 Sample.surface1) = [0%nat; 3%nat] /\
  @Nviz_cmd_command C (Sample.world2 Sample.surface1)
  = Ok ("nviz_cmd elevation_value=0 elevation_map=elevation,geology "
        +:+ "-a mode=fine resolution_fine=3 "
        +:+ "color_map=elevation,elevation color=0:0:0 "
        +:+ "position=1.00,1.00 height=1 perspective=20 twist=0 zexag=1 focus=0,0,0 "
        +:+ "light_position=1.00,1.00,0.80 light_brightness=80 light_ambient=20 "
        +:+ "light_color=255:255:255 output=nviz_output format=ppm size=640,480 ") /\
  @Nviz_cmd_command C (Sample.world2 coarse)
  = Ok ("nviz_cmd elevation_value=0 elevation_map=elevation,geology "
        +:+ "mode=fine,coarse,fine resolution_fine=3,3,6 resolution_coarse=9,9,6 "
        +:+ "shading=gouraud,flat,gouraud style=surface,wire,surface "
        +:+ "wire_color=136:136:136,0:255:0,0:0:0 "
        +:+ "color_map=elevation,elevation color=0:0:0 "
        +:+ "position=1.00,1.00 height=1 perspective=20 twist=0 zexag=1 focus=0,0,0 "
        +:+ "light_position=1.00,1.00,0.80 light_brightness=80 light_ambient=20 "
        +:+ "light_color=255:255:255 output=nviz_output format=ppm size=640,480 ").
Proof.
  intros C coarse.
  set (colors := "color_map=elevation,elevation color=0:0:0 "%string).
  set (tail := ("position=1.00,1.00 height=1 perspective=20 twist=0 zexag=1 focus=0,0,0 "
                +:+ "light_position=1.00,1.00,0.80 light_brightness=80 light_ambient=20 "
                +:+ "light_color=255:255:255 output=nviz_output format=ppm size=640,480 ")%string).
  split; [reflexivity|]. split.
  - destruct (@Nviz_cmd_command_draw_mode C (Sample.world2 Sample.surface1)
                [("elevation"%string, Sample.surface1); ("geology"%string, Sample.surface1)]
                [Sample.constant0] colors tail) as [Hsame _].
    + discriminate.
    + repeat constructor.
    + repeat constructor.
    + repeat constructor.
    + reflexivity.
    + reflexivity.
    + apply (Hsame (fun d1 d2 H1 H2 =>
               match proj1 (list_elem_of_In _ _) H1, proj1 (list_elem_of_In _ _) H2 with
               | or_introl E1, or_introl E2 => eq_trans (eq_sym E1) E2
               | or_introl E1, or_intror (or_introl E2) => eq_trans (eq_sym E1) E2
               | or_intror (or_introl E1), or_introl E2 => eq_trans (eq_sym E1) E2
               | or_intror (or_introl E1), or_intror (or_introl E2) => eq_trans (eq_sym E1) E2
               | or_intror (or_intror F), _ => match F with end
               | _, or_intror (or_intror F) => match F with end
               end) Sample.draw0).
      apply list_elem_of_here.
  - destruct (@Nviz_cmd_command_draw_mode C (Sample.world2 coarse)
                [("elevation"%string, Sample.surface1); ("geology"%string, coarse)]
                [Sample.constant0] colors tail) as [_ Hmixed].
    + discriminate.
    + repeat constructor.
    + repeat constructor.
    + repeat constructor.
    + reflexivity.
    + reflexivity.
    + apply Hmixed. exists Sample.draw0, Sample.draw_coarse.
      split; [apply list_elem_of_here|].
      split; [apply list_elem_of_further, list_elem_of_here|discriminate].
Defined.

(** C3, as stated, fails when only a constant surface is there: no raster
    layer is loaded, so that no two raster layers differ in their draw
    dictionaries, and the command has no flag [-a] (and no list either). *)
Lemma constant_only_no_flag :
  let C := Sample.collab Sample.counting in
  let w := Sample.world_constant in
  (forall i j si sj,
     i ∈ rasters_of w -> j ∈ rasters_of w ->
     raster_surface w i = Ok si -> raster_surface w j = Ok sj ->
     s_draw si.2 = s_draw sj.2) /\
  exists s, @Nviz_cmd_command C w = Ok s
            /\ Py.contains "-a" s = false /\ Py.contains "mode=" s = false.
Proof.
  intros C w. split.
  - intros i j si sj Hi. by apply elem_of_nil in Hi.
  - eexists. split; [vm_compute; reflexivity|]. split; reflexivity.
Qed.

(** ** Instances of the further properties *)

(** No loaded raster is called [nowhere]. *)
Lemma GetLayerId_unknown_name_witness :
  "raster"%string <> "constant"%string /\
  @GetLayerId (Sample.collab Sample.counting) "raster" "nowhere" None Sample.world1
  = Ok (IdInt (-1)).
Proof.
  split; [discriminate|].
  apply (@GetLayerId_unknown_name (Sample.collab Sample.counting) Sample.world1
           "raster" "nowhere" None); [discriminate|].
  intros i Hi Ht. apply elem_of_cons in Hi as [-> | Hi]; [discriminate|].
  apply elem_of_cons in Hi as [-> | Hi]; [discriminate Ht|].
  by apply elem_of_nil in Hi.
Defined.

(** [elevation] is the first layer of [world1]; its object has the id 1. *)
Lemma GetLayerId_raster_first_match_witness :
  layers Sample.world1 = [] ++ 0%nat :: [1%nat] /\
  raster_object Sample.world1 0%nat = Some (mk_object 1 false false) /\
  @GetLayerId (Sample.collab Sample.counting) "raster" "elevation" None Sample.world1
  = Ok (IdInt 1).
Proof.
  split; [reflexivity|]. split; [reflexivity|].
  apply (@GetLayerId_raster_first_match (Sample.collab Sample.counting) Sample.world1
           "elevation" None [] [1%nat] 0%nat (mk_object 1 false false));
    try reflexivity; [discriminate|].
  intros j Hj. by apply elem_of_nil in Hj.
Defined.

(** The second constant is called [constant#2] and has the id 6. *)
Lemma constant_names_ids_witness :
  let C := Sample.collab Sample.counting in
  @GetLayerNames C "constant" Sample.world_constants
  = Ok ["constant#1"; "constant#2"]%string /\
  @GetLayerId C "constant" "constant#2" None Sample.world_constants = Ok (IdInt 6).
Proof.
  intros C. split; [reflexivity|].
  assert (Hnd : NoDup ["constant#1"; "constant#2"]%string).
  { apply NoDup_cons_2; [|apply NoDup_singleton].
    intros Hin. apply list_elem_of_singleton in Hin. discriminate Hin. }
  destruct (@constant_names_ids C Sample.world_constants
              ["constant#1"; "constant#2"]%string 1%nat "constant#2" eq_refl Hnd eq_refl)
    as (d & c & o & Hd & Hc & Ho & Hid).
  simpl in Hd. injection Hd as <-. simpl in Hc. injection Hc as <-.
  simpl in Ho. injection Ho as <-. exact Hid.
Defined.

(** The default lines, all marked for update: after one pass a second
    one does nothing. *)
Lemma UpdateVectorLinesProperties_settles_witness :
  let C := Sample.collab Sample.counting in
  exists d' t',
    @UpdateVectorLinesProperties C Sample.world1 2 Sample.lines0 [] = (Ok tt, d', t') /\
    t' = [Call (Display.SetVectorLineMode 2 "0:0:0" 2 false);
          Call (Display.SetVectorLineHeight 2 0)] /\
    @UpdateVectorLinesProperties C Sample.world1 2 d' t' = (Ok tt, d', t').
Proof.
  intros C. eexists _, _. split; [reflexivity|]. split; [reflexivity|].
  exact (proj2 (proj2 (proj2 (proj2
           (@UpdateVectorLinesProperties_settles C Sample.world1 2 Sample.lines0 _ [] _
              eq_refl)))) _).
Defined.

(** Flat lines with reference surfaces: the surfaces are dropped. *)
Lemma UpdateVectorLinesProperties_flat_witness :
  let C := Sample.collab Sample.counting in
  vm_type (vl_mode Sample.lines_flat) = "flat"%string /\
  exists d',
    @UpdateVectorLinesProperties C Sample.world1 2 Sample.lines_flat []
    = (Ok tt, d', [Call (Display.SetVectorLineMode 2 "0:0:0" 2 true);
                   Call (Display.SetVectorLineHeight 2 0)]) /\
    vm_surface (vl_mode d') = None.
Proof.
  intros C. split; [reflexivity|].
  exact (@UpdateVectorLinesProperties_flat C Sample.world1 2 Sample.lines_flat []
           eq_refl eq_refl).
Defined.

(** The engine does not find the point layer. *)
Lemma UpdateVectorPointsProperties_engine_error_witness :
  let C := Sample.collab Sample.failing in
  @display_ret C [] (Display.SetVectorPointMode 3 "0:0:0" 2 100 2) = -1 /\
  @UpdateVectorPointsProperties C Sample.world1 3 Sample.points0 []
  = (Raise (GException (PointLayerNotFound 3)), Sample.points0,
     [Call (Display.SetVectorPointMode 3 "0:0:0" 2 100 2)]).
Proof.
  intros C. split; [reflexivity|].
  exact (@UpdateVectorPointsProperties_engine_error C Sample.world1 3 Sample.points0 []
           eq_refl (or_introl eq_refl)).
Defined.

(** The command of [roads] gives the colour 1:2:3. *)
Lemma SetVectorFromCmd_last_color_witness :
  it_cmd (tree Sample.world0 1%nat)
  = "d.vect"%string :: ["map=roads"%string] ++ ("color=" +:+ "1:2:3")%string :: [] /\
  exists l p,
    SetVectorFromCmd 1%nat Sample.world0 (Sample.lines0, Sample.points0) = Ok (l, p) /\
    pv (vl_color l) = "1:2:3"%string /\ pv (vp_color p) = "1:2:3"%string /\
    vl_width l = vl_width Sample.lines0.
Proof.
  split; [reflexivity|]. eexists _, _. split.
  - exact (SetVectorFromCmd_last_color 1%nat Sample.world0 ["map=roads"%string] []
             "1:2:3" (Sample.lines0, Sample.points0) eq_refl eq_refl (Forall_nil _)).
  - repeat split.
Defined.

(** The first constant is pushed, and pushed again. *)
Lemma UpdateMapObjProperties_constant_witness :
  let C := Sample.collab Sample.counting in
  let d := mk_nviz None (Some Sample.constant1) None None in
  let push := [Call (Display.SetSurfaceColor 5 false (VStr "0:0:0"));
               Call (Display.SetSurfaceTopo 5 false (VInt 10));
               Call (Display.SetSurfaceRes 5 6 6)] in
  exists d',
    @UpdateMapObjProperties C Sample.world_constants d [] = (Ok tt, d', [] ++ push) /\
    (co_init <$> (nv_constant d' ≫= c_object)) = Some true /\
    @UpdateMapObjProperties C Sample.world_constants d' push = (Ok tt, d', push ++ push).
Proof.
  intros C d push.
  destruct (@UpdateMapObjProperties_constant C Sample.world_constants d Sample.constant1
              (mk_const_object 5 (Some 1) false) [] eq_refl eq_refl eq_refl)
    as [Hrun Hagain].
  eexists. split; [exact Hrun|]. split; [reflexivity|]. exact (Hagain push).
Defined.

(** A click at (10, 20) in a window 480 pixels high. *)
Lemma OnMouseAction_look_here_witness :
  let C := Sample.collab Sample.counting in
  let w := set_mouse_use "lookHere" Sample.world0 in
  exists w',
    @OnMouseAction C (LeftDown 10 20) w []
    = (Ok tt, w',
       [Call (Display.LookHere 10 460); Gui Refresh; Call Display.GetFocus;
        Gui (ToggleHere false); Gui SetCursorDefault; Gui EventSkip]) /\
    mouse_use w' = "default"%string /\
    @OnMouseAction C (LeftDown 10 20) w' [] = (Ok tt, w', [Gui EventSkip]).
Proof.
  intros C w. eexists. split.
  - exact (proj1 (@OnMouseAction_look_here C w 10 20 []) eq_refl eq_refl).
  - split; [reflexivity|].
    apply (proj2 (@OnMouseAction_look_here C _ 10 20 [])). discriminate.
Defined.

(** [elevation] is loaded. *)
Lemma IsLoaded_raster_witness :
  ml_type (it_maplayer (tree Sample.world1 0%nat)) = "raster"%string /\
  IsLoaded 0%nat Sample.world1 = Ok 1 /\
  IsLoaded 3%nat (Sample.world2 Sample.surface0) = Ok 0.
Proof.
  split; [reflexivity|]. split.
  - exact (IsLoaded_raster Sample.world1 0%nat (Sample.nviz_of Sample.surface1)
             (Dict Sample.surface1) eq_refl eq_refl eq_refl).
  - exact (IsLoaded_raster (Sample.world2 Sample.surface0) 3%nat
             (Sample.nviz_of Sample.surface0) (Dict Sample.surface0)
             eq_refl eq_refl eq_refl).
Defined.

(** [roads] is loaded, and [IsLoaded] raises. *)
Lemma IsLoaded_vector_witness :
  ml_type (it_maplayer (tree Sample.world1 1%nat)) = "vector"%string /\
  vector_object Sample.world1 1%nat "lines" = Some (mk_object 2 true false) /\
  IsLoaded 1%nat Sample.world1 = Raise (KeyError "vlines") /\
  IsLoaded 1%nat Sample.world0 = Ok 0.
Proof.
  split; [reflexivity|]. split; [reflexivity|]. split.
  - exact (proj2 (IsLoaded_vector Sample.world1 1%nat eq_refl) "lines"%string
             (mk_object 2 true false) eq_refl).
  - exact (proj1 (IsLoaded_vector Sample.world0 1%nat eq_refl)).
Defined.

(** Deleting the first of the two constants, by its index from the front
    and from the back; there is no third one. *)
Lemma DeleteConstant_index_witness :
  let C := Sample.collab Sample.counting in
  let c2 := mk_nviz None (Some Sample.constant2) None None in
  @DeleteConstant C 0 Sample.world_constants []
  = (Ok tt, set_constants [c2] Sample.world_constants, [Call (Display.UnloadSurface 5)]) /\
  @DeleteConstant C (-2) Sample.world_constants []
  = (Ok tt, set_constants [c2] Sample.world_constants, [Call (Display.UnloadSurface 5)]) /\
  @GetLayerNames C "constant" (set_constants [c2] Sample.world_constants)
  = Ok ["constant#2"%string] /\
  @DeleteConstant C 2 Sample.world_constants [] = (Raise IndexError, Sample.world_constants, []).
Proof.
  intros C c2.
  pose proof (proj1 (@DeleteConstant_index C Sample.world_constants [])
                [] [c2] (mk_nviz None (Some Sample.constant1) None None) Sample.constant1
                (mk_const_object 5 (Some 1) false) eq_refl eq_refl eq_refl) as Hin.
  split; [exact (proj1 (Hin 0 (or_introl eq_refl)))|].
  split; [exact (proj1 (Hin (-2) (or_intror eq_refl)))|].
  split; [exact (proj2 (Hin 0 (or_introl eq_refl)) _ eq_refl)|].
  apply (proj2 (@DeleteConstant_index C Sample.world_constants [])). left. simpl. lia.
Defined.

(** Of the three rasters, [Reset] unloads the first and the third. *)
Lemma Reset_rasters_every_other_witness :
  let C := Sample.collab Sample.counting in
  NoDup (layers Sample.world_rasters) /\
  exists w' evs,
    @Reset C Sample.world_rasters [] = (Ok true, w', [] ++ evs) /\
    layers w' = [1%nat] /\
    init w' = false /\
    raster_object w' 1%nat = Some (mk_object 1 false false) /\
    raster_object w' 0%nat = None /\ raster_object w' 2%nat = None /\
    length (filter (fun e => is_unload e = true) evs) = 2%nat.
Proof.
  intros C.
  assert (Hnd : NoDup (layers Sample.world_rasters)).
  { apply (bool_decide_unpack _). vm_compute. exact I. }
  split; [exact Hnd|].
  destruct (@Reset_rasters_every_other C Sample.world_rasters [] Hnd)
    as (w' & evs & Hrun & Hls & Hinit & Hleft & Hgone & Hcount).
  { intros i _. split; [left; reflexivity|]. eexists. reflexivity. }
  exists w', evs. split; [exact Hrun|]. split; [exact Hls|]. split; [exact Hinit|].
  split; [apply (Hleft 1%nat), list_elem_of_here|].
  split; [apply (Hgone 0%nat), list_elem_of_here|].
  split; [apply (Hgone 2%nat), list_elem_of_further, list_elem_of_here|].
  exact Hcount.
Defined.

(** The command of [world2] starts with [nviz_cmd ]. *)
Lemma Nviz_cmd_command_returns_witness :
  let C := Sample.collab Sample.counting in
  has_nviz (Sample.world2 Sample.surface1) = true /\
  exists args, @Nviz_cmd_command C (Sample.world2 Sample.surface1) = Ok ("nviz_cmd " +:+ args).
Proof.
  intros C. split; [reflexivity|].
  apply (@Nviz_cmd_command_returns C (Sample.world2 Sample.surface1)
           [("elevation"%string, Sample.surface1); ("geology"%string, Sample.surface1)]
           [Sample.constant0]).
  - reflexivity.
  - left. discriminate.
  - repeat constructor.
  - repeat constructor.
Defined.

(** The same layers without the tool window. *)
Lemma Nviz_cmd_command_no_toolwindow_witness :
  let C := Sample.collab Sample.counting in
  has_nviz (Sample.world2_headless Sample.surface1) = false /\
  @Nviz_cmd_command C (Sample.world2_headless Sample.surface1) = Raise AttributeError.
Proof.
  intros C. split; [reflexivity|].
  apply (@Nviz_cmd_command_no_toolwindow C (Sample.world2_headless Sample.surface1)
           [("elevation"%string, Sample.surface1); ("geology"%string, Sample.surface1)]
           [Sample.constant0]).
  - reflexivity.
  - left. discriminate.
  - repeat constructor.
  - repeat constructor.
Defined.

(** One constant of the value 0 and nothing else. *)
Lemma Nviz_cmd_command_constants_only_witness :
  let C := Sample.collab Sample.counting in
  rasters_of Sample.world_constant = [] /\
  @Nviz_cmd_command C Sample.world_constant
  = Ok ("nviz_cmd elevation_value=0 "
        +:+ "position=1.00,1.00 height=1 perspective=20 twist=0 zexag=1 focus=0,0,0 "
        +:+ "light_position=1.00,1.00,0.80 light_brightness=80 light_ambient=20 "
        +:+ "light_color=255:255:255 output=nviz_output format=ppm size=640,480 ").
Proof.
  intros C. split; [reflexivity|].
  apply (@Nviz_cmd_command_constants_only C Sample.world_constant [Sample.constant0]).
  - reflexivity.
  - discriminate.
  - repeat constructor.
  - reflexivity.
Defined.

(** [my map] (item 5) stops the pass: [geology] (item 3), which comes
    before it in the list, is not loaded. *)
Lemma LoadDataLayers_blank_name_stops_witness :
  let C := Sample.collab Sample.counting in
  (5%nat ∉ layers Sample.world_blank) /\
  Py.contains " " (ml_name (it_maplayer (tree Sample.world_blank 5%nat))) = true /\
  @LoadDataLayers C ([3%nat] ++ 5%nat :: [0%nat]) Sample.world_blank []
  = (Ok tt, Sample.world_blank, []).
Proof.
  intros C.
  assert (H5 : 5%nat ∉ layers Sample.world_blank).
  { intros Hin. apply elem_of_cons in Hin as [Hin | Hin]; [discriminate Hin|].
    apply elem_of_cons in Hin as [Hin | Hin]; [discriminate Hin|].
    by apply elem_of_nil in Hin. }
  split; [exact H5|]. split; [reflexivity|].
  apply (@LoadDataLayers_blank_name_stops C Sample.world_blank [3%nat] [0%nat] 5%nat []);
    [|exact H5|reflexivity].
  intros j Hj. apply list_elem_of_singleton in Hj as ->. apply list_elem_of_here.
Defined.

(** The engine fails to load [elevation]; it cannot be unloaded then. *)
Lemma failed_load_is_stuck_witness :
  let C := Sample.collab Sample.failing in
  @display_ret C [] (load_call Sample.world0 0%nat) < 0 /\
  exists w' t' e,
    @_loadRaster C 0%nat Sample.world0 [] = (Ok (Some (-1)), w', t') /\
    0%nat ∈ layers w' /\
    @_unloadRaster C 0%nat w' t' = (Raise e, w', t').
Proof.
  intros C.
  assert (H2 : @display_ret C [] (load_call Sample.world0 0%nat) < 0) by reflexivity.
  split; [exact H2|].
  destruct (@failed_load_is_stuck C Sample.world0 0%nat [] (or_introl eq_refl) H2
              (sample_defaults_without_object Sample.failing) eq_refl)
    as (w' & t' & e & Hrun & Hin & Hunload & _).
  exists w', t', e. split; [exact Hrun|]. split; [exact Hin|exact Hunload].
Defined.

(** [roads] is unloaded and stays registered. *)
Lemma unloaded_vector_not_reloaded_witness :
  let C := Sample.collab Sample.counting in
  1%nat ∈ layers Sample.world1 /\
  exists w' evs,
    @UnloadVector C 1%nat None Sample.world1 [] = (Ok tt, w', [] ++ evs) /\
    vector_object w' 1%nat "lines" = None /\
    vector_object w' 1%nat "points" = None /\
    1%nat ∈ layers w' /\
    @LoadDataLayers C [1%nat] w' [] = @LoadDataLayers C [] w' [].
Proof.
  intros C.
  assert (Hin : 1%nat ∈ layers Sample.world1)
    by apply list_elem_of_further, list_elem_of_here.
  split; [exact Hin|].
  destruct (@unloaded_vector_not_reloaded C Sample.world1 1%nat None
              (mk_nviz None None None
                 (Some (mk_vector (Dict Sample.lines1) (Dict Sample.points1))))
              (mk_vector (Dict Sample.lines1) (Dict Sample.points1)) []
              eq_refl eq_refl Hin)
    as (w' & evs & Hrun & Hnone & Hin' & Hskip).
  exists w', evs. split; [exact Hrun|].
  split; [apply Hnone, list_elem_of_further, list_elem_of_here|].
  split; [apply Hnone, list_elem_of_here|].
  split; [exact Hin'|]. exact (Hskip [1%nat] []).
Defined.

(** [elevation] is loaded with the id 1 and unloaded with the id 1. *)
Lemma load_unload_raster_roundtrip_witness :
  let C := Sample.collab Sample.counting in
  0 < @display_ret C [] (load_call Sample.world0 0%nat) /\
  exists w1 t1 w2 evs,
    @_loadRaster C 0%nat Sample.world0 [] = (Ok (Some 1), w1, t1) /\
    layers w1 = [0%nat] /\
    @_unloadRaster C 0%nat w1 t1
    = (Ok tt, w2, t1 ++ [Call (Display.UnloadSurface 1)] ++ evs) /\
    layers w2 = [] /\
    raster_object w2 0%nat = None.
Proof.
  intros C.
  assert (Hid : 0 < @display_ret C [] (load_call Sample.world0 0%nat)) by reflexivity.
  split; [exact Hid|].
  destruct (@load_unload_raster_roundtrip C Sample.world0 0%nat [] (or_introl eq_refl)
              eq_refl (not_elem_of_nil _) Hid)
    as (w1 & t1 & w2 & evs & Hrun1 & Hls1 & _ & Hrun2 & _ & Hls2 & Hnone).
  exists w1, t1, w2, evs. split; [exact Hrun1|]. split; [exact Hls1|].
  split; [exact Hrun2|]. split; [exact Hls2|exact Hnone].
Defined.

(** There is no sixth cutting plane. *)
Lemma UpdateCPlane_no_plane_witness :
  let C := Sample.collab Sample.counting in
  Py.index (cplanes Sample.world0) 5 = None /\
  @UpdateCPlane C (mk_cplane_event 5 ["fog"; "rotation"]%string) Sample.world0 []
  = (Raise IndexError, Sample.world0, []) /\
  @UpdateCPlane C (mk_cplane_event 5 ["fog"]%string) Sample.world0 []
  = (Ok tt, Sample.world0, []).
Proof.
  intros C. split; [reflexivity|]. split.
  - exact (@UpdateCPlane_no_plane C Sample.world0 []
             (mk_cplane_event 5 ["fog"; "rotation"]%string) eq_refl).
  - exact (@UpdateCPlane_no_plane C Sample.world0 []
             (mk_cplane_event 5 ["fog"]%string) eq_refl).
Defined.

(** [roads] with three points and five lines. *)
Lemma vector_registered_twice_witness :
  let C := Sample.collab_points Sample.counting in
  has_nviz Sample.world0 = true /\
  @VectorInfo C (it_maplayer (tree Sample.world0 1%nat)) = (3, 5) /\
  exists w' evs,
    @LoadDataLayers C [1%nat] Sample.world0 [] = (Ok tt, w', [] ++ evs) /\
    layers w' = [1%nat; 1%nat].
Proof.
  intros C. split; [reflexivity|]. split; [reflexivity|].
  assert (H2 : loadable_vector Sample.world0 1%nat)
    by (split; [reflexivity | left; split; [reflexivity | discriminate]]).
  assert (H3 : @defaults_without_object C) by (repeat split; reflexivity).
  exact (@vector_registered_twice C Sample.world0 1%nat [] 3 5 eq_refl eq_refl H2 H3
           (not_elem_of_nil _) eq_refl eq_refl eq_refl eq_refl).
Defined.

(** Without the tool window the pass stops at [roads]: [precip], which is
    before it in the list, is not loaded. *)
Lemma LoadDataLayers_vector_no_toolwindow_witness :
  let C := Sample.collab Sample.counting in
  let w := Sample.world2_headless Sample.surface1 in
  has_nviz w = false /\
  (1%nat ∉ layers w) /\
  @LoadDataLayers C ([2%nat] ++ 1%nat :: [0%nat; 3%nat]) w [] = (Raise AttributeError, w, []).
Proof.
  intros C w. split; [reflexivity|].
  assert (H1 : 1%nat ∉ layers w).
  { intros Hin. apply elem_of_cons in Hin as [Hin | Hin]; [discriminate Hin|].
    apply elem_of_cons in Hin as [Hin | Hin]; [discriminate Hin|].
    by apply elem_of_nil in Hin. }
  split; [exact H1|].
  apply (@LoadDataLayers_vector_no_toolwindow C w [2%nat] [0%nat; 3%nat] 1%nat []);
    [reflexivity|reflexivity|exact H1|reflexivity|].
  intros j Hj. exact Hj.
Defined.

(** [roads], registered twice, after [Reset]. *)
Lemma Reset_vectors_stay_witness :
  let C := Sample.collab Sample.counting in
  let w := set_layers [1%nat; 1%nat] Sample.world1 in
  exists w' evs,
    @Reset C w [] = (Ok true, w', [] ++ evs) /\
    layers w' = [1%nat; 1%nat] /\
    init w' = false /\
    vector_object w' 1%nat "lines" = None /\
    @LoadDataLayers C [1%nat] w' [] = @LoadDataLayers C [] w' [].
Proof.
  intros C w.
  assert (Hin : 1%nat ∈ layers w) by apply list_elem_of_here.
  destruct (@Reset_vectors_stay C w []) as (w' & evs & Hrun & Hls & Hinit & Hnone & Hskip).
  { intros i Hi. apply elem_of_cons in Hi as [-> | Hi];
      [|apply elem_of_cons in Hi as [-> | Hi]; [|by apply elem_of_nil in Hi]];
      (split; [reflexivity|]); eexists _, _; split; reflexivity. }
  exists w', evs. split; [exact Hrun|]. split; [exact Hls|]. split; [exact Hinit|].
  split; [exact (Hnone 1%nat "lines"%string Hin)|].
  exact (Hskip 1%nat [1%nat] [] Hin).
Defined.

(** The default volume: the resolution is sent, the shading is
    calculated. *)
Lemma UpdateVolumeProperties_settles_draw_witness :
  let C := Sample.collab Sample.counting in
  exists d' evs,
    @UpdateVolumeProperties C 4 Sample.volume0 [] = (Ok tt, d', [] ++ evs) /\
    pu (vo_resolution d') = false /\ pu (vo_shading d') = false /\
    pv (vo_resolution d') = 3.
Proof.
  intros C.
  destruct (@UpdateVolumeProperties_settles_draw C 4 Sample.volume0 [])
    as (d' & evs & Hrun & Hr & Hs & Hv & _).
  exists d', evs. split; [exact Hrun|]. split; [exact Hr|]. split; [exact Hs|exact Hv].
Defined.

(** [roads] is set up while [elevation] and [geology] are loaded. *)
Lemma fresh_vector_draped_witness :
  let C := Sample.collab Sample.counting in
  not_data (it_nviz (tree (Sample.world2 Sample.surface1) 1%nat)) = true /\
  exists w' l p,
    @SetMapObjProperties C (TreeItem 1%nat) (-1) "lines" (Sample.world2 Sample.surface1) []
    = (Ok tt, w', []) /\
    vector_dicts w' 1%nat = Some (l, p) /\
    vm_surface (vl_mode l)
    = Some (mk_surf_ref ["elevation"; "geology"]%string [true; true]) /\
    vm_surface (vp_mode p)
    = Some (mk_surf_ref ["elevation"; "geology"]%string [true; true]).
Proof.
  intros C. split; [reflexivity|].
  destruct (@fresh_vector_draped C (Sample.world2 Sample.surface1) 1%nat (-1) "lines" [])
    as (w' & l & p & names & Hrun & Hd & Hnames & Hl & Hp);
    [lia|reflexivity|reflexivity|discriminate|].
  injection Hnames as <-.
  exists w', l, p. split; [exact Hrun|]. split; [exact Hd|]. split; [exact Hl|exact Hp].
Defined.

(** Points marked for update: after one pass a second one does nothing. *)
Lemma UpdateVectorPointsProperties_settles_witness :
  let C := Sample.collab Sample.counting in
  exists d' t',
    @UpdateVectorPointsProperties C Sample.world1 3 Sample.points_dirty [] = (Ok tt, d', t') /\
    t' = [Call (Display.SetVectorPointMode 3 "0:0:0" 2 100 2);
          Call (Display.SetVectorPointHeight 3 0);
          Call (Display.SetVectorPointSurface 3 (IdInt 1))] /\
    @UpdateVectorPointsProperties C Sample.world1 3 d' t' = (Ok tt, d', t').
Proof.
  intros C. eexists _, _. split; [reflexivity|]. split; [reflexivity|].
  exact (proj2 (proj2 (proj2 (proj2 (proj2 (proj2
           (@UpdateVectorPointsProperties_settles C Sample.world1 3 Sample.points_dirty _ [] _
              eq_refl)))))) _).
Defined.
